(** * Workflow tracker: the task store and its operations

    A shallow embedding of [scripts/workflow_cli.py] (module [Cli]) and
    [app.py] (module [App]): two front ends over one CSV file of tasks.

    Python values are modelled as follows.
    - [str] is [string]; a character is read as a code point below 256.
    - [int] is [Z].
    - a task (a [dict] with the ten keys of [FIELDNAMES]) is the record
      [Task].
    - functions that touch the data file, the clock or the terminal run in
      the monad [M] over a [World]; an exception is an [outcome]. *)

From Stdlib Require Import List String Ascii ZArith NArith Lia Bool Arith.
From Stdlib Require Import DecimalString DecimalPos.
Import ListNotations.

Local Open Scope string_scope.
Local Open Scope Z_scope.

(* ================================================================== *)
(** ** Python strings *)

Module PyStr.

Definition ord (c : ascii) : Z := Z.of_N (N_of_ascii c).

(** The characters [0] to [9]. *)
Definition is_decimal (c : ascii) : bool :=
  (48 <=? ord c) && (ord c <=? 57).

Definition digit_value (c : ascii) : Z := ord c - 48.

(** [str.isdigit] on one character: the decimal digits and the
    superscript digits U+00B2, U+00B3 and U+00B9. *)
Definition isdigit_char (c : ascii) : bool :=
  is_decimal c || (ord c =? 178) || (ord c =? 179) || (ord c =? 185).

Fixpoint all_chars (p : ascii -> bool) (s : string) : bool :=
  match s with
  | EmptyString => true
  | String c s' => p c && all_chars p s'
  end.

(** [s.isdigit()]: every character is a digit and there is at least one. *)
Definition isdigit (s : string) : bool :=
  match s with
  | EmptyString => false
  | _ => all_chars isdigit_char s
  end.

(** [str.isspace] on one character. *)
Definition isspace_char (c : ascii) : bool :=
  ((9 <=? ord c) && (ord c <=? 13))
  || ((28 <=? ord c) && (ord c <=? 32))
  || (ord c =? 133) || (ord c =? 160).

Fixpoint lstrip_by (p : ascii -> bool) (s : string) : string :=
  match s with
  | EmptyString => EmptyString
  | String c s' => if p c then lstrip_by p s' else s
  end.

Fixpoint rstrip_by (p : ascii -> bool) (s : string) : string :=
  match s with
  | EmptyString => EmptyString
  | String c s' =>
      match rstrip_by p s' with
      | EmptyString => if p c then EmptyString else String c EmptyString
      | r => String c r
      end
  end.

(** [s.strip()] *)
Definition strip (s : string) : string :=
  rstrip_by isspace_char (lstrip_by isspace_char s).

(** Truth value of a string: [not s] holds for the empty string only. *)
Definition truthy (s : string) : bool :=
  match s with EmptyString => false | _ => true end.

(** [x or ""] for an optional string [x]. *)
Definition or_empty (x : option string) : string :=
  match x with
  | Some s => s
  | None => ""
  end.

(** [a or b] on strings. *)
Definition str_or (a b : string) : string := if truthy a then a else b.

(** [str(n)] *)
Definition str_of_int (n : Z) : string := NilZero.string_of_int (Z.to_int n).

(** The blanks [int()] skips around a literal. *)
Definition int_space (c : ascii) : bool :=
  ((9 <=? ord c) && (ord c <=? 13))
  || (ord c =? 32) || (ord c =? 133) || (ord c =? 160).

(** Digits of an [int()] literal: decimal digits, single underscores
    between them. *)
Fixpoint int_digits (s : string) (acc : Z) (after_digit : bool) : option Z :=
  match s with
  | EmptyString => if after_digit then Some acc else None
  | String c s' =>
      if is_decimal c then int_digits s' (10 * acc + digit_value c) true
      else if Ascii.eqb c "_" then
             if after_digit then int_digits s' acc false else None
      else None
  end.

(** [int(s)]; [None] is [ValueError]. *)
Definition py_int (s : string) : option Z :=
  match rstrip_by int_space (lstrip_by int_space s) with
  | String "+" body => int_digits body 0 false
  | String "-" body => option_map Z.opp (int_digits body 0 false)
  | body => int_digits body 0 false
  end.

Fixpoint repeat_char (c : ascii) (n : nat) : string :=
  match n with
  | O => EmptyString
  | S n' => String c (repeat_char c n')
  end.

(** [format(s, ">w")] and [format(s, "<w")]: pad with blanks, never cut. *)
Definition rjust (w : nat) (s : string) : string :=
  repeat_char " " (w - String.length s) ++ s.

Definition ljust (w : nat) (s : string) : string :=
  s ++ repeat_char " " (w - String.length s).

(** [format(n, "0wd")] for [n >= 0]. *)
Definition zero_pad (w : nat) (n : Z) : string :=
  let s := str_of_int n in
  repeat_char "0" (w - String.length s) ++ s.

End PyStr.

(* ================================================================== *)
(** ** Exceptions and results *)

Inductive exn : Type :=
| ValueError (msg : string)
| CsvError (msg : string).

Inductive result (A : Type) : Type :=
| Ok (a : A)
| Err (e : exn).
Arguments Ok {A} a.
Arguments Err {A} e.

Definition rbind {A B} (r : result A) (k : A -> result B) : result B :=
  match r with
  | Ok a => k a
  | Err e => Err e
  end.

Fixpoint rmapM {A B} (f : A -> result B) (l : list A) : result (list B) :=
  match l with
  | [] => Ok []
  | x :: l' =>
      rbind (f x) (fun y => rbind (rmapM f l') (fun ys => Ok (y :: ys)))
  end.

(* ================================================================== *)
(** ** Dates and [strptime] *)

Module Date.
Import PyStr.

(** [datetime.date]: always a calendar date, see [make]. *)
Record date : Type := mkdate { year : Z; month : Z; day : Z }.

Definition is_leap (y : Z) : bool :=
  (y mod 4 =? 0) && (negb (y mod 100 =? 0) || (y mod 400 =? 0)).

Definition days_in_month (y m : Z) : Z :=
  if m =? 2 then (if is_leap y then 29 else 28)
  else if (m =? 4) || (m =? 6) || (m =? 9) || (m =? 11) then 30
  else 31.

Definition valid (y m d : Z) : bool :=
  (1 <=? y) && (y <=? 9999) && (1 <=? m) && (m <=? 12)
  && (1 <=? d) && (d <=? days_in_month y m).

(** [datetime.date(y, m, d)] *)
Definition make (y m d : Z) : result date :=
  if valid y m d then Ok (mkdate y m d)
  else Err (ValueError "date value out of range").

Definition eqb (a b : date) : bool :=
  (year a =? year b) && (month a =? month b) && (day a =? day b).

Definition ltb (a b : date) : bool :=
  (year a <? year b)
  || ((year a =? year b)
      && ((month a <? month b)
          || ((month a =? month b) && (day a <? day b)))).

Definition leb (a b : date) : bool := ltb a b || eqb a b.

(** [d.isoformat()] *)
Definition isoformat (d : date) : string :=
  zero_pad 4 (year d) ++ "-" ++ zero_pad 2 (month d) ++ "-"
  ++ zero_pad 2 (day d).

(** The fragment of regular expressions that [_strptime] builds for the
    format [%Y-%m-%d]. *)
Inductive regex : Type :=
| Lit (c : ascii)
| Cls (p : ascii -> bool)
| Cat (r1 r2 : regex)
| Alt (r1 r2 : regex)
| Group (name : string) (r : regex).

(** One way of matching a prefix: the text matched, the groups set, and
    what is left of the input. *)
Record found : Type :=
  mkfound { matched : string; groups : list (string * string); rest : string }.

(** All the ways [r] matches a prefix of [s], in the order a backtracking
    matcher tries them. *)
Fixpoint rmatch (r : regex) (s : string) : list found :=
  match r with
  | Lit c =>
      match s with
      | String a s' =>
          if Ascii.eqb a c then [mkfound (String a "") [] s'] else []
      | EmptyString => []
      end
  | Cls p =>
      match s with
      | String a s' => if p a then [mkfound (String a "") [] s'] else []
      | EmptyString => []
      end
  | Cat r1 r2 =>
      flat_map
        (fun f1 =>
           map (fun f2 =>
                  mkfound (matched f1 ++ matched f2)
                          (groups f1 ++ groups f2) (rest f2))
               (rmatch r2 (rest f1)))
        (rmatch r1 s)
  | Alt r1 r2 => rmatch r1 s ++ rmatch r2 s
  | Group name r1 =>
      map (fun f => mkfound (matched f) ((name, matched f) :: groups f)
                            (rest f))
          (rmatch r1 s)
  end.

Definition in_range (lo hi : ascii) (c : ascii) : bool :=
  (ord lo <=? ord c) && (ord c <=? ord hi).

(** [\d\d\d\d] *)
Definition re_Y : regex :=
  Group "Y" (Cat (Cls is_decimal)
            (Cat (Cls is_decimal) (Cat (Cls is_decimal) (Cls is_decimal)))).

(** [1[0-2]|0[1-9]|[1-9]] *)
Definition re_m : regex :=
  Group "m" (Alt (Cat (Lit "1") (Cls (in_range "0" "2")))
            (Alt (Cat (Lit "0") (Cls (in_range "1" "9")))
                 (Cls (in_range "1" "9")))).

(** [3[0-1]|[1-2]\d|0[1-9]|[1-9]| [1-9]] *)
Definition re_d : regex :=
  Group "d" (Alt (Cat (Lit "3") (Cls (in_range "0" "1")))
            (Alt (Cat (Cls (in_range "1" "2")) (Cls is_decimal))
            (Alt (Cat (Lit "0") (Cls (in_range "1" "9")))
            (Alt (Cls (in_range "1" "9"))
                 (Cat (Lit " ") (Cls (in_range "1" "9"))))))).

(** The pattern for [-%m-%d]. *)
Definition re_tail : regex := Cat (Lit "-") (Cat re_m (Cat (Lit "-") re_d)).

(** The pattern for [%Y-%m-%d]. *)
Definition re_ymd : regex := Cat re_Y re_tail.

Fixpoint group (name : string) (gs : list (string * string)) : string :=
  match gs with
  | [] => ""
  | (n, v) :: gs' => if String.eqb n name then v else group name gs'
  end.

Definition int_group (name : string) (gs : list (string * string)) : result Z :=
  match py_int (group name gs) with
  | Some n => Ok n
  | None => Err (ValueError "invalid literal for int() with base 10")
  end.

(** [datetime.strptime(value, "%Y-%m-%d").date()]: the first match of the
    pattern must use up the whole text, and the three numbers must name
    a calendar date. *)
Definition strptime_ymd (value : string) : result date :=
  match rmatch re_ymd value with
  | [] => Err (ValueError "time data does not match format")
  | f :: _ =>
      if truthy (rest f) then Err (ValueError "unconverted data remains")
      else
        rbind (int_group "Y" (groups f)) (fun y =>
        rbind (int_group "m" (groups f)) (fun m =>
        rbind (int_group "d" (groups f)) (fun d =>
        make y m d)))
  end.

End Date.

(* ================================================================== *)
(** ** Tasks, the data file and the monad of the scripts *)

(** A row of [data/tasks.csv]; the fields are the keys of [FIELDNAMES]. *)
Record Task : Type := mkTask {
  task_id : string;
  title : string;
  priority : string;
  status : string;
  due_date : string;
  created_date : string;
  person : string;
  waiting_on : string;
  follow_up_date : string;
  notes : string
}.

Definition FIELDNAMES : list string :=
  ["id"; "title"; "priority"; "status"; "due_date"; "created_date";
   "person"; "waiting_on"; "follow_up_date"; "notes"].

(** [t["status"] = s] *)
Definition set_status (s : string) (t : Task) : Task :=
  mkTask (task_id t) (title t) (priority t) s (due_date t) (created_date t)
         (person t) (waiting_on t) (follow_up_date t) (notes t).

(** What a run leaves behind, oldest first. *)
Inductive event : Type :=
| FileCreated
| FileWritten (tasks : list Task)
| Printed (line : string)
| StError (msg : string)
| StSuccess (msg : string)
| StRerun.

(** [data_file] is [None] while [data/tasks.csv] does not exist, otherwise
    the rows under its header; [clock] is what [date.today()] answers. *)
Record World : Type := mkWorld {
  data_file : option (list Task);
  clock : Date.date;
  log : list event
}.

Inductive outcome (A : Type) : Type :=
| Return (a : A) (w : World)
| Raise (e : exn) (w : World).
Arguments Return {A} a w.
Arguments Raise {A} e w.

Definition M (A : Type) : Type := World -> outcome A.

Definition ret {A} (a : A) : M A := fun w => Return a w.

Definition bind {A B} (m : M A) (k : A -> M B) : M B :=
  fun w =>
    match m w with
    | Return a w' => k a w'
    | Raise e w' => Raise e w'
    end.

Declare Scope py_scope.
Delimit Scope py_scope with py.
Notation "x <- m ;; k" := (bind m (fun x => k))
  (at level 61, m at next level, right associativity) : py_scope.
Notation "m ;; k" := (bind m (fun _ => k))
  (at level 61, right associativity) : py_scope.
Local Open Scope py_scope.

Definition lift {A} (r : result A) : M A :=
  fun w =>
    match r with
    | Ok a => Return a w
    | Err e => Raise e w
    end.

Definition emit (e : event) : M unit :=
  fun w => Return tt (mkWorld (data_file w) (clock w) (log w ++ [e])).

(** [print(line)] *)
Definition print (line : string) : M unit := emit (Printed line).

(** [dt.date.today()] *)
Definition today : M Date.date := fun w => Return (clock w) w.

(** [ensure_file()]: write a header-only file unless one is there. *)
Definition ensure_file : M unit :=
  fun w =>
    match data_file w with
    | Some _ => Return tt w
    | None => Return tt (mkWorld (Some []) (clock w) (log w ++ [FileCreated]))
    end.

(** [read_tasks()] *)
Definition read_tasks : M (list Task) :=
  ensure_file ;;
  (fun w => Return (match data_file w with Some ts => ts | None => [] end) w).

(** [write_tasks(tasks)]: the file becomes the header and these rows. *)
Definition write_tasks (tasks : list Task) : M unit :=
  fun w =>
    Return tt (mkWorld (Some tasks) (clock w) (log w ++ [FileWritten tasks])).

(** ** What the two scripts share, word for word *)

Definition is_empty {A} (l : list A) : bool :=
  match l with [] => true | _ => false end.

(** [int(s)] *)
Definition int_of_str (s : string) : result Z :=
  match PyStr.py_int s with
  | Some n => Ok n
  | None => Err (ValueError "invalid literal for int() with base 10")
  end.

(** [max(xs)] *)
Definition py_max (xs : list Z) : result Z :=
  match xs with
  | [] => Err (ValueError "max() arg is an empty sequence")
  | x :: xs' => Ok (fold_left Z.max xs' x)
  end.

(** [len(l)] *)
Definition len {A} (l : list A) : Z := Z.of_nat (List.length l).

(** A comprehension [[t for t in l if p(t)]] whose test may raise. *)
Fixpoint rfilter {A} (p : A -> result bool) (l : list A) : result (list A) :=
  match l with
  | [] => Ok []
  | x :: l' =>
      rbind (p x) (fun b =>
      rbind (rfilter p l') (fun r => Ok (if b then x :: r else r)))
  end.

(** [parse_date(value)], the same text in both scripts. *)
Definition parse_date (value : string) : result (option Date.date) :=
  if negb (PyStr.truthy value) then Ok None
  else
    match Date.strptime_ymd value with
    | Ok d => Ok (Some d)
    | Err (ValueError _) => Ok None
    | Err e => Err e
    end.

(** [(d := parse_date(text)) is not None and test(d)] *)
Definition date_test (test : Date.date -> bool) (text : string) : result bool :=
  rbind (parse_date text) (fun r =>
    Ok (match r with
        | Some d => test d
        | None => false
        end)).

(** The loop of [mark_done]: the first task whose id is [target] gets the
    status [done], and the loop stops there. *)
Fixpoint mark_first (target : string) (tasks : list Task)
  : option (Task * list Task) :=
  match tasks with
  | [] => None
  | t :: rest =>
      if String.eqb (task_id t) target
      then Some (set_status "done" t, set_status "done" t :: rest)
      else
        match mark_first target rest with
        | Some (hit, rest') => Some (hit, t :: rest')
        | None => None
        end
  end.

(* ================================================================== *)
(** ** [scripts/workflow_cli.py] *)

Module Cli.
Import PyStr.

(** [next_id(tasks)]: the generator handed to [max] may be empty. *)
Definition next_id (tasks : list Task) : result Z :=
  if is_empty tasks then Ok 1
  else
    rbind (rmapM (fun t => int_of_str (task_id t))
                 (filter (fun t => isdigit (task_id t)) tasks)) (fun ids =>
    rbind (py_max ids) (fun m => Ok (m + 1))).

(** The [argparse.Namespace] of the [add] command. *)
Record AddArgs : Type := mkAddArgs {
  a_title : string;
  a_priority : string;
  a_status : string;
  a_due : option string;
  a_person : option string;
  a_waiting_on : option string;
  a_follow_up : option string;
  a_notes : option string
}.

(** [add_task(args)] *)
Definition add_task (args : AddArgs) : M unit :=
  tasks <- read_tasks ;;
  d <- today ;;
  n <- lift (next_id tasks) ;;
  let task :=
    mkTask (str_of_int n) (a_title args) (a_priority args) (a_status args)
           (or_empty (a_due args)) (Date.isoformat d)
           (or_empty (a_person args)) (or_empty (a_waiting_on args))
           (or_empty (a_follow_up args)) (or_empty (a_notes args)) in
  write_tasks (tasks ++ [task]) ;;
  print ("Added task #" ++ task_id task ++ ": " ++ title task).

(** The [argparse.Namespace] of the [list] command: both options are
    [None] when left out. *)
Record ListArgs : Type := mkListArgs {
  l_status : option string;
  l_priority : option string
}.

(** The [choices] that [build_parser] gives [--status] and [--priority]. *)
Definition status_choices : list string :=
  ["todo"; "in_progress"; "waiting"; "done"].

Definition priority_choices : list string := ["P1"; "P2"; "P3"].

(** What [parse_args] lets through for the [list] command. *)
Definition list_args_ok (args : ListArgs) : Prop :=
  match l_status args with
  | Some s => In s status_choices
  | None => True
  end
  /\ match l_priority args with
     | Some p => In p priority_choices
     | None => True
     end.

(** [if args.x:] for an optional string. *)
Definition given (x : option string) : bool :=
  match x with
  | Some s => truthy s
  | None => false
  end.

(** The two [if] statements of [list_tasks]. *)
Definition list_select (args : ListArgs) (tasks : list Task) : list Task :=
  let tasks1 :=
    if given (l_status args)
    then filter (fun t => String.eqb (status t) (or_empty (l_status args))) tasks
    else tasks in
  if given (l_priority args)
  then filter (fun t => String.eqb (priority t) (or_empty (l_priority args)))
              tasks1
  else tasks1.

Definition list_row (t : Task) : string :=
  rjust 2 (task_id t) ++ " | " ++ ljust 3 (priority t) ++ " | "
  ++ ljust 11 (status t) ++ " | " ++ ljust 9 (str_or (due_date t) "-")
  ++ " | " ++ title t.

Fixpoint print_all (lines : list string) : M unit :=
  match lines with
  | [] => ret tt
  | l :: ls => print l ;; print_all ls
  end.

(** [list_tasks(args)] *)
Definition list_tasks (args : ListArgs) : M unit :=
  tasks <- read_tasks ;;
  print "ID | Pri | Status      | Due       | Title" ;;
  print "---|-----|-------------|-----------|------" ;;
  print_all (map list_row (list_select args tasks)).

(** The lists [dashboard] builds. *)
Definition open_tasks (tasks : list Task) : list Task :=
  filter (fun t => negb (String.eqb (status t) "done")) tasks.

Definition overdue (now : Date.date) (tasks : list Task) : result (list Task) :=
  rfilter (fun t => date_test (fun d => Date.ltb d now) (due_date t))
          (open_tasks tasks).

Definition due_today (now : Date.date) (tasks : list Task) : result (list Task) :=
  rfilter (fun t => date_test (fun d => Date.eqb d now) (due_date t))
          (open_tasks tasks).

Definition waiting (tasks : list Task) : list Task :=
  filter (fun t => String.eqb (status t) "waiting") (open_tasks tasks).

Definition p1 (tasks : list Task) : list Task :=
  filter (fun t => String.eqb (priority t) "P1") (open_tasks tasks).

Definition followups (now : Date.date) (tasks : list Task) : result (list Task) :=
  rfilter (fun t => date_test (fun d => Date.leb d now) (follow_up_date t))
          (open_tasks tasks).

Definition overdue_row (t : Task) : string :=
  "- #" ++ task_id t ++ " [" ++ priority t ++ "] " ++ title t
  ++ " (due " ++ due_date t ++ ")".

Definition followup_row (t : Task) : string :=
  "- #" ++ task_id t ++ " " ++ title t ++ " -> follow up with "
  ++ str_or (person t) "(no person)".

(** [dashboard(_)] *)
Definition dashboard : M unit :=
  tasks <- read_tasks ;;
  now <- today ;;
  late <- lift (overdue now tasks) ;;
  due <- lift (due_today now tasks) ;;
  print "=== WORKFLOW DASHBOARD ===" ;;
  print ("Open tasks: " ++ str_of_int (len (open_tasks tasks))) ;;
  print ("P1 tasks: " ++ str_of_int (len (p1 tasks))) ;;
  print ("Due today: " ++ str_of_int (len due)) ;;
  print ("Overdue: " ++ str_of_int (len late)) ;;
  print ("Waiting: " ++ str_of_int (len (waiting tasks))) ;;
  print "" ;;
  (if is_empty late then ret tt
   else print "Overdue tasks:" ;;
        print_all (map overdue_row (firstn 10 late)) ;;
        print "") ;;
  follow <- lift (followups now tasks) ;;
  (if is_empty follow then ret tt
   else print "Follow-ups due:" ;;
        print_all (map followup_row (firstn 10 follow))).

(** [mark_done(args)]; [args.id] is an [int]. *)
Definition mark_done (args_id : Z) : M unit :=
  tasks <- read_tasks ;;
  let target := str_of_int args_id in
  match mark_first target tasks with
  | Some (t, tasks') =>
      print ("Marked task #" ++ task_id t ++ " done: " ++ title t) ;;
      write_tasks tasks'
  | None => print ("No task found with id " ++ target)
  end.


End Cli.

(* ================================================================== *)
(** ** [app.py] *)

Module App.
Import PyStr.

(** [next_id(tasks)] *)
Definition next_id (tasks : list Task) : result Z :=
  if is_empty tasks then Ok 1
  else
    rbind (rmapM (fun t => int_of_str (task_id t))
                 (filter (fun t => isdigit (task_id t)) tasks)) (fun ids =>
    if is_empty ids then Ok 1
    else rbind (py_max ids) (fun m => Ok (m + 1))).

(** What [mark_done] and [delete_task] are handed: the id shown in a row
    (a string), or a number. *)
Inductive id_arg : Type :=
| IdStr (s : string)
| IdInt (n : Z).

(** [str(task_id)] *)
Definition py_str (a : id_arg) : string :=
  match a with
  | IdStr s => s
  | IdInt n => str_of_int n
  end.

(** [mark_done(task_id)]; the argument is [tid] here. *)
Definition mark_done (tid : id_arg) : M bool :=
  tasks <- read_tasks ;;
  match mark_first (py_str tid) tasks with
  | Some (_, tasks') => write_tasks tasks' ;; ret true
  | None => ret false
  end.

(** [delete_task(task_id)]; the argument is [tid] here. *)
Definition delete_task (tid : id_arg) : M bool :=
  tasks <- read_tasks ;;
  let before := len tasks in
  let tasks' :=
    filter (fun t => negb (String.eqb (task_id t) (py_str tid))) tasks in
  if len tasks' =? before then ret false
  else write_tasks tasks' ;; ret true.

(** The lists the page computes from [tasks] before it draws anything. *)
Definition open_tasks (tasks : list Task) : list Task :=
  filter (fun t => negb (String.eqb (status t) "done")) tasks.

Definition p1_tasks (tasks : list Task) : list Task :=
  filter (fun t => String.eqb (priority t) "P1") (open_tasks tasks).

Definition due_today (now : Date.date) (tasks : list Task) : result (list Task) :=
  rfilter (fun t => date_test (fun d => Date.eqb d now) (due_date t))
          (open_tasks tasks).

Definition overdue (now : Date.date) (tasks : list Task) : result (list Task) :=
  rfilter (fun t => date_test (fun d => Date.ltb d now) (due_date t))
          (open_tasks tasks).

Definition waiting (tasks : list Task) : list Task :=
  filter (fun t => String.eqb (status t) "waiting") (open_tasks tasks).

Definition followups (now : Date.date) (tasks : list Task) : result (list Task) :=
  rfilter (fun t => date_test (fun d => Date.leb d now) (follow_up_date t))
          (open_tasks tasks).

(** The widgets of the form [add_task_form]; the two date inputs are a
    date or [None]. *)
Record AddForm : Type := mkAddForm {
  f_title : string;
  f_priority : string;
  f_status : string;
  f_due : option Date.date;
  f_person : string;
  f_follow_up : option Date.date;
  f_notes : string
}.

(** [x.isoformat() if x else ""] *)
Definition iso_or_empty (x : option Date.date) : string :=
  match x with
  | Some d => Date.isoformat d
  | None => ""
  end.

(** [x.strip() if x else ""] *)
Definition strip_or_empty (x : string) : string :=
  if truthy x then strip x else "".

(** One run of the page with the form submitted: [tasks = read_tasks()] at
    the top of the script, then the [if submitted:] block. *)
Definition add_task_form (form : AddForm) : M unit :=
  tasks <- read_tasks ;;
  if negb (truthy (strip (f_title form))) then emit (StError "Title is required.")
  else
    n <- lift (next_id tasks) ;;
    d <- today ;;
    let new_task :=
      mkTask (str_of_int n) (strip (f_title form)) (f_priority form)
             (f_status form) (iso_or_empty (f_due form)) (Date.isoformat d)
             (strip_or_empty (f_person form)) ""
             (iso_or_empty (f_follow_up form))
             (strip_or_empty (f_notes form)) in
    write_tasks (tasks ++ [new_task]) ;;
    emit (StSuccess ("Added task #" ++ task_id new_task)) ;;
    emit StRerun.

(** The [View] drop-down: the list the rows are drawn from.  The six lists
    are all computed before, in the order of the script. *)
Definition view_tasks (show : string) (now : Date.date) (tasks : list Task)
  : result (list Task) :=
  rbind (due_today now tasks) (fun due =>
  rbind (overdue now tasks) (fun late =>
  rbind (followups now tasks) (fun follow =>
  Ok (if String.eqb show "All open" then open_tasks tasks
      else if String.eqb show "P1" then p1_tasks tasks
      else if String.eqb show "Due today" then due
      else if String.eqb show "Overdue" then late
      else if String.eqb show "Waiting" then waiting tasks
      else follow)))).

(** The [Done] button of the row of task [t]. *)
Definition done_clicked (t : Task) : M unit :=
  ok <- mark_done (IdStr (task_id t)) ;;
  if ok
  then emit (StSuccess ("Marked task #" ++ task_id t ++ " done")) ;;
       emit StRerun
  else emit (StError "Task not found.").

(** The [Delete] button of the row of task [t]. *)
Definition delete_clicked (t : Task) : M unit :=
  ok <- delete_task (IdStr (task_id t)) ;;
  if ok
  then emit (StSuccess ("Deleted task #" ++ task_id t)) ;;
       emit StRerun
  else emit (StError "Task not found.").

End App.

(* ================================================================== *)
(** ** The text of the data file: [csv.DictWriter] and [csv.DictReader]

    Both scripts open the file with [newline=""] and use the default
    dialect: delimiter [,], quote character U+0022 doubled inside quoted
    fields, line terminator CR LF, minimal quoting, no escape character,
    not strict. *)

Module Csv.

Definition delimiter : ascii := ",".
Definition quotechar : ascii := ascii_of_nat 34.
Definition CR : ascii := "013".
Definition LF : ascii := "010".

(** [csv.field_size_limit()] *)
Definition field_limit : N := 131072.

(** *** Writing *)

Fixpoint any_char (p : ascii -> bool) (s : string) : bool :=
  match s with
  | EmptyString => false
  | String c s' => p c || any_char p s'
  end.

(** The characters that make the writer quote a field. *)
Definition special (c : ascii) : bool :=
  Ascii.eqb c delimiter || Ascii.eqb c quotechar
  || Ascii.eqb c CR || Ascii.eqb c LF.

Fixpoint double_quotes (s : string) : string :=
  match s with
  | EmptyString => EmptyString
  | String c s' =>
      if Ascii.eqb c quotechar
      then String quotechar (String quotechar (double_quotes s'))
      else String c (double_quotes s')
  end.

(** One field as the writer puts it in a record. *)
Definition write_field (s : string) : string :=
  if any_char special s
  then String quotechar (double_quotes s ++ String quotechar "")
  else s.

Fixpoint join_fields (fs : list string) : string :=
  match fs with
  | [] => ""
  | [f] => write_field f
  | f :: fs' => write_field f ++ String delimiter (join_fields fs')
  end.

(** [writer.writerow(fields)]: the line handed to the file.  A record that
    would come out empty although it has a field is written as one quoted
    empty field. *)
Definition writerow (fs : list string) : string :=
  let body := join_fields fs in
  (if negb (is_empty fs) && negb (PyStr.truthy body)
   then String quotechar (String quotechar "")
   else body)
  ++ String CR (String LF "").

(** *** Dictionaries

    A row as a [dict]: the entries under string keys, oldest first, a value
    being a string or [None]; [extras] is the entry under the key [None]
    that [DictReader] adds to a row longer than the header. *)
Record dict : Type := mkdict {
  entries : list (string * option string);
  extras : option (list string)
}.

Fixpoint dict_get (k : string) (es : list (string * option string))
  : option (option string) :=
  match es with
  | [] => None
  | (k', v) :: es' => if String.eqb k' k then Some v else dict_get k es'
  end.

(** [d[k] = v]: a key already there keeps its place. *)
Fixpoint dict_set (k : string) (v : option string)
         (es : list (string * option string)) : list (string * option string) :=
  match es with
  | [] => [(k, v)]
  | (k', v') :: es' =>
      if String.eqb k' k then (k, v) :: es' else (k', v') :: dict_set k v es'
  end.

Definition mem (k : string) (ks : list string) : bool :=
  existsb (String.eqb k) ks.

(** [DictWriter._dict_to_list(rowdict)] with [extrasaction="raise"] and
    [restval=""]; a [None] value is written as an empty field. *)
Definition dict_to_list (fieldnames : list string) (d : dict)
  : result (list string) :=
  if is_empty (filter (fun kv => negb (mem (fst kv) fieldnames)) (entries d))
     && match extras d with None => true | Some _ => false end
  then
    Ok (map (fun k => match dict_get k (entries d) with
                      | Some (Some s) => s
                      | _ => ""
                      end) fieldnames)
  else Err (ValueError "dict contains fields not in fieldnames").

Fixpoint concat_lines (ls : list string) : string :=
  match ls with
  | [] => ""
  | l :: ls' => l ++ concat_lines ls'
  end.

(** The text [write_tasks(tasks)] leaves in the file: [writeheader()] and
    [writerows(tasks)]. *)
Definition write_tasks_text (tasks : list dict) : result string :=
  rbind (rmapM (dict_to_list FIELDNAMES) tasks) (fun rows =>
  Ok (concat_lines (map writerow (FIELDNAMES :: rows)))).

(** *** Reading *)

(** Iterating over a text file opened with [newline=""]: a line ends after
    LF, after CR LF, or after a CR that no LF follows, and keeps its
    ending. *)
Fixpoint lines (s : string) : list string :=
  match s with
  | EmptyString => []
  | String c rest =>
      if Ascii.eqb c LF then String c "" :: lines rest
      else if Ascii.eqb c CR then
        match rest with
        | String c2 rest2 =>
            if Ascii.eqb c2 LF then String c (String c2 "") :: lines rest2
            else String c "" :: lines rest
        | EmptyString => [String c ""]
        end
      else
        match lines rest with
        | [] => [String c ""]
        | l :: ls => String c l :: ls
        end
  end.

(** The states of the parser that this dialect can reach. *)
Inductive state : Type :=
| START_RECORD
| START_FIELD
| IN_FIELD
| IN_QUOTED_FIELD
| QUOTE_IN_QUOTED_FIELD
| EAT_CRNL.

(** The reader object: [field] holds the characters of the field being
    read, newest first, and [field_len] counts them. *)
Record Reader : Type := mkReader {
  st : state;
  field : list ascii;
  field_len : N;
  fields : list string
}.

Definition set_state (s : state) (r : Reader) : Reader :=
  mkReader s (field r) (field_len r) (fields r).

(** [parse_reset] *)
Definition parse_reset : Reader := mkReader START_RECORD [] 0%N [].

(** [parse_add_char] *)
Definition parse_add_char (r : Reader) (c : ascii) : result Reader :=
  if (field_limit <=? field_len r)%N
  then Err (CsvError "field larger than field limit (131072)")
  else Ok (mkReader (st r) (c :: field r) (field_len r + 1)%N (fields r)).

(** [parse_save_field] *)
Definition parse_save_field (r : Reader) : Reader :=
  mkReader (st r) [] 0%N
           (fields r ++ [string_of_list_ascii (rev (field r))]).

Definition is_newline (c : ascii) : bool := Ascii.eqb c LF || Ascii.eqb c CR.

(** What [START_FIELD] does with a character; [START_RECORD] falls through
    to it. *)
Definition start_field (r : Reader) (c : option ascii) : result Reader :=
  match c with
  | None => Ok (set_state START_RECORD (parse_save_field r))
  | Some a =>
      if is_newline a then Ok (set_state EAT_CRNL (parse_save_field r))
      else if Ascii.eqb a quotechar then Ok (set_state IN_QUOTED_FIELD r)
      else if Ascii.eqb a delimiter then Ok (parse_save_field r)
      else rbind (parse_add_char r a) (fun r' => Ok (set_state IN_FIELD r'))
  end.

(** [parse_process_char]; [None] is the end-of-line mark the reader feeds
    after the last character of each line. *)
Definition parse_process_char (r : Reader) (c : option ascii) : result Reader :=
  match st r with
  | START_RECORD =>
      match c with
      | None => Ok r
      | Some a =>
          if is_newline a then Ok (set_state EAT_CRNL r)
          else start_field (set_state START_FIELD r) c
      end
  | START_FIELD => start_field r c
  | IN_FIELD =>
      match c with
      | None => Ok (set_state START_RECORD (parse_save_field r))
      | Some a =>
          if is_newline a then Ok (set_state EAT_CRNL (parse_save_field r))
          else if Ascii.eqb a delimiter
               then Ok (set_state START_FIELD (parse_save_field r))
          else parse_add_char r a
      end
  | IN_QUOTED_FIELD =>
      match c with
      | None => Ok r
      | Some a =>
          if Ascii.eqb a quotechar then Ok (set_state QUOTE_IN_QUOTED_FIELD r)
          else parse_add_char r a
      end
  | QUOTE_IN_QUOTED_FIELD =>
      match c with
      | None => Ok (set_state START_RECORD (parse_save_field r))
      | Some a =>
          if Ascii.eqb a quotechar
          then rbind (parse_add_char r a) (fun r' =>
                 Ok (set_state IN_QUOTED_FIELD r'))
          else if Ascii.eqb a delimiter
               then Ok (set_state START_FIELD (parse_save_field r))
          else if is_newline a
               then Ok (set_state EAT_CRNL (parse_save_field r))
          else rbind (parse_add_char r a) (fun r' => Ok (set_state IN_FIELD r'))
      end
  | EAT_CRNL =>
      match c with
      | None => Ok (set_state START_RECORD r)
      | Some a =>
          if is_newline a then Ok r
          else Err (CsvError "new-line character seen in unquoted field")
      end
  end.

(** One line through the parser: its characters, then the end-of-line
    mark. *)
Fixpoint feed (r : Reader) (line : string) : result Reader :=
  match line with
  | EmptyString => parse_process_char r None
  | String c l => rbind (parse_process_char r (Some c)) (fun r' => feed r' l)
  end.

Definition at_start (r : Reader) : bool :=
  match st r with START_RECORD => true | _ => false end.

Definition in_quoted (r : Reader) : bool :=
  match st r with IN_QUOTED_FIELD => true | _ => false end.

(** [list(csv.reader(f))]: a record takes lines until the parser is back
    in [START_RECORD]; when the lines run out inside a record, what was
    read of it is the last record. *)
Fixpoint reader_rows (r : Reader) (ls : list string)
  : result (list (list string)) :=
  match ls with
  | [] =>
      if (0 <? field_len r)%N || in_quoted r
      then Ok [fields (parse_save_field r)]
      else Ok []
  | l :: ls' =>
      rbind (feed r l) (fun r' =>
        if at_start r'
        then rbind (reader_rows parse_reset ls') (fun rows =>
               Ok (fields r' :: rows))
        else reader_rows r' ls')
  end.

Fixpoint zip_entries (ks : list string) (vs : list string)
         (es : list (string * option string)) : list (string * option string) :=
  match ks, vs with
  | k :: ks', v :: vs' => zip_entries ks' vs' (dict_set k (Some v) es)
  | _, _ => es
  end.

(** The [dict] that [DictReader.__next__] makes of a row. *)
Definition row_dict (fieldnames row : list string) : dict :=
  let d := zip_entries fieldnames row [] in
  let lf := List.length fieldnames in
  let lr := List.length row in
  if (lf <? lr)%nat then mkdict d (Some (skipn lf row))
  else if (lr <? lf)%nat
       then mkdict (fold_left (fun es k => dict_set k None es)
                              (skipn lr fieldnames) d) None
  else mkdict d None.

(** [list(csv.DictReader(f))]: the first record names the fields, empty
    records after it are skipped. *)
Definition dict_rows (rows : list (list string)) : list dict :=
  match rows with
  | [] => []
  | fieldnames :: body =>
      map (row_dict fieldnames) (filter (fun r => negb (is_empty r)) body)
  end.

(** What [read_tasks()] makes of the text of the file. *)
Definition read_tasks_text (text : string) : result (list dict) :=
  rbind (reader_rows parse_reset (lines text)) (fun rows =>
  Ok (dict_rows rows)).

(** A task as the [dict] the scripts handle. *)
Definition task_dict (t : Task) : dict :=
  mkdict [("id", Some (task_id t)); ("title", Some (title t));
          ("priority", Some (priority t)); ("status", Some (status t));
          ("due_date", Some (due_date t));
          ("created_date", Some (created_date t));
          ("person", Some (person t)); ("waiting_on", Some (waiting_on t));
          ("follow_up_date", Some (follow_up_date t));
          ("notes", Some (notes t))]
         None.

(** Saving, then loading. *)
Definition save_then_load (tasks : list Task) : result (list dict) :=
  rbind (write_tasks_text (map task_dict tasks)) read_tasks_text.

End Csv.

(* ================================================================== *)
(** ** Words of the specification *)

Module Spec.

(** Two tasks that agree on every field but [status]. *)
Definition same_but_status (t t' : Task) : Prop :=
  task_id t' = task_id t /\ title t' = title t /\ priority t' = priority t
  /\ due_date t' = due_date t /\ created_date t' = created_date t
  /\ person t' = person t /\ waiting_on t' = waiting_on t
  /\ follow_up_date t' = follow_up_date t /\ notes t' = notes t.

(** The world after one write of [tasks]. *)
Definition written (tasks : list Task) (w : World) : World :=
  mkWorld (Some tasks) (clock w) (log w ++ [FileWritten tasks]).

(** The world after some lines were printed. *)
Definition printed (ls : list string) (w : World) : World :=
  mkWorld (data_file w) (clock w) (log w ++ map Printed ls).

(** No write happened between [w] and [w']: same file, and nothing but
    printed lines added to the log. *)
Definition no_write (w w' : World) : Prop :=
  data_file w' = data_file w
  /\ exists ls, log w' = (log w ++ map Printed ls)%list.

Definition has_id (i : string) (t : Task) : bool := String.eqb (task_id t) i.

(** The date a text stands for, if any. *)
Definition parsed (text : string) : option Date.date :=
  match parse_date text with
  | Ok r => r
  | Err _ => None
  end.

(** An open task is one whose status is not [done]. *)
Definition is_open (t : Task) : bool := negb (String.eqb (status t) "done").

(** The text parses to a date that [test] accepts. *)
Definition date_is (test : Date.date -> bool) (text : string) : bool :=
  match parsed text with
  | Some d => test d
  | None => false
  end.

(** The number of tasks in a list that was computed without an exception. *)
Definition count (r : result (list Task)) : option Z :=
  match r with
  | Ok l => Some (len l)
  | Err _ => None
  end.

(** The three tasks of the dashboard scenario; [a], [b] and [c] give the
    fields the scenario leaves open, the dates it does not mention are
    absent. *)
Definition scenario (today_text yesterday_text : string) (a b c : Task)
  : list Task :=
  [mkTask (task_id a) (title a) "P1" "todo" today_text (created_date a)
          (person a) (waiting_on a) "" (notes a);
   mkTask (task_id b) (title b) "P1" "done" yesterday_text (created_date b)
          (person b) (waiting_on b) (follow_up_date b) (notes b);
   mkTask (task_id c) (title c) "P2" "waiting" "" (created_date c)
          (person c) (waiting_on c) today_text (notes c)].

(** A field the reader takes back: no longer than the field limit. *)
Definition fits (f : string) : Prop :=
  (N.of_nat (String.length f) <= Csv.field_limit)%N.

Definition task_row (t : Task) : list string :=
  [task_id t; title t; priority t; status t; due_date t; created_date t;
   person t; waiting_on t; follow_up_date t; notes t].

(** Every field of every task fits. *)
Definition all_fit (ts : list Task) : Prop :=
  forall t f, In t ts -> In f (task_row t) -> fits f.

(** The reader in state [s] that has read the characters [l] of the
    current field and the fields [fs] of the current record. *)
Definition reading (s : Csv.state) (l : list ascii) (fs : list string)
  : Csv.Reader :=
  Csv.mkReader s (rev l) (N.of_nat (List.length l)) fs.

(** The reader once the text of field [f] is behind it: nothing read and
    still at the start of a field, or [f] read bare, or [f] read in quotes
    with the closing quote seen. *)
Definition after_field (f : string) (fs : list string) (r : Csv.Reader) : Prop :=
  (f = "" /\ r = reading Csv.START_FIELD [] fs)
  \/ r = reading Csv.IN_FIELD (list_ascii_of_string f) fs
  \/ r = reading Csv.QUOTE_IN_QUOTED_FIELD (list_ascii_of_string f) fs.

(** The whole numbers from [lo], [n] of them. *)
Definition numbers (lo : Z) (n : nat) : list Z :=
  map (fun k => lo + Z.of_nat k) (seq 0 n).

(** The ways to write a month: 1 to 12, plain or filled with a zero to two
    digits. *)
Definition month_table : list (string * Z) :=
  flat_map (fun m => [(PyStr.str_of_int m, m); (PyStr.zero_pad 2 m, m)])
           (numbers 1 12).

(** The ways to write a day: 1 to 31, plain or filled with a zero to two
    digits, and 1 to 9 after a blank. *)
Definition day_table : list (string * Z) :=
  flat_map (fun d => [(PyStr.str_of_int d, d); (PyStr.zero_pad 2 d, d)])
           (numbers 1 31)
  ++ map (fun d => (" " ++ PyStr.str_of_int d, d)) (numbers 1 9).

(** [Y] is the number [y] written with four digits. *)
Definition four_digits (Y : string) (y : Z) : Prop :=
  exists a b c e,
    Y = String a (String b (String c (String e "")))
    /\ PyStr.is_decimal a = true /\ PyStr.is_decimal b = true
    /\ PyStr.is_decimal c = true /\ PyStr.is_decimal e = true
    /\ y = (1000 * PyStr.digit_value a + 100 * PyStr.digit_value b
            + 10 * PyStr.digit_value c + PyStr.digit_value e)%Z.

(** The text [s] names the date [d] the way [strptime] takes it: a year of
    four digits, a month and a day, with [-] in between, that exist in the
    calendar. *)
Definition date_text (s : string) (d : Date.date) : Prop :=
  exists Y M D,
    s = Y ++ "-" ++ M ++ "-" ++ D
    /\ four_digits Y (Date.year d)
    /\ In (M, Date.month d) month_table
    /\ In (D, Date.day d) day_table
    /\ Date.valid (Date.year d) (Date.month d) (Date.day d) = true.

(** The strict shape [YYYY-MM-DD]: four digits, two digits, two digits. *)
Definition is_yyyy_mm_dd (s : string) : bool :=
  match s with
  | String y1 (String y2 (String y3 (String y4 (String h1
      (String m1 (String m2 (String h2 (String d1 (String d2 ""))))))))) =>
      PyStr.is_decimal y1 && PyStr.is_decimal y2 && PyStr.is_decimal y3
      && PyStr.is_decimal y4 && Ascii.eqb h1 "-"
      && PyStr.is_decimal m1 && PyStr.is_decimal m2 && Ascii.eqb h2 "-"
      && PyStr.is_decimal d1 && PyStr.is_decimal d2
  | _ => false
  end.

(** Every character. *)
Definition all_ascii : list ascii := map ascii_of_nat (seq 0 256).

(** Every text a pattern matches, with the groups it sets. *)
Fixpoint language (r : Date.regex) : list (string * list (string * string)) :=
  match r with
  | Date.Lit c => [(String c "", [])]
  | Date.Cls p => map (fun a => (String a "", [])) (filter p all_ascii)
  | Date.Cat r1 r2 =>
      flat_map (fun x =>
                  map (fun y => (fst x ++ fst y, (snd x ++ snd y)%list))
                      (language r2))
               (language r1)
  | Date.Alt r1 r2 => (language r1 ++ language r2)%list
  | Date.Group name r1 =>
      map (fun x => (fst x, (name, fst x) :: snd x)) (language r1)
  end.

(** [o] is [Some z]. *)
Definition is_some (o : option Z) (z : Z) : bool :=
  match o with
  | Some v => Z.eqb v z
  | None => false
  end.

(** [M] and [D] are ways to write the month [snd Mm] and the day [snd Dd]
    that [int()] reads as such, and [t] with the groups [g] is the tail
    that holds them. *)
Definition tail_is (t : string) (g : list (string * string))
           (Mm Dd : string * Z) : bool :=
  String.eqb t ("-" ++ fst Mm ++ "-" ++ fst Dd)
  && String.eqb (Date.group "m" g) (fst Mm)
  && String.eqb (Date.group "d" g) (fst Dd)
  && is_some (PyStr.py_int (fst Mm)) (snd Mm)
  && is_some (PyStr.py_int (fst Dd)) (snd Dd).

(** The text [s] stands in the table, next to the number [int()] reads
    it as. *)
Definition in_table (table : list (string * Z)) (s : string) : bool :=
  match PyStr.py_int s with
  | Some v => existsb (fun p => String.eqb (fst p) s && Z.eqb (snd p) v) table
  | None => false
  end.

(** A text of the tail pattern holds a month and a day of the tables. *)
Definition tail_ok (x : string * list (string * string)) : bool :=
  let M := Date.group "m" (snd x) in
  let D := Date.group "d" (snd x) in
  String.eqb (fst x) ("-" ++ M ++ "-" ++ D)
  && in_table month_table M && in_table day_table D.

(** The pattern finds the tail written from the tables, whole, before any
    other match. *)
Definition tail_found (Mm Dd : string * Z) : bool :=
  match Date.rmatch Date.re_tail ("-" ++ fst Mm ++ "-" ++ fst Dd) with
  | f :: _ =>
      negb (PyStr.truthy (Date.rest f))
      && tail_is (Date.matched f) (Date.groups f) Mm Dd
  | [] => false
  end.


(** A task passes every filter that is given. *)
Definition passes (status_filter priority_filter : option string) (t : Task)
  : bool :=
  match status_filter with
  | Some s => String.eqb (status t) s
  | None => true
  end
  && match priority_filter with
     | Some p => String.eqb (priority t) p
     | None => true
     end.

(** The rows of the file, none when there is no file. *)
Definition stored (w : World) : list Task :=
  match data_file w with
  | Some ts => ts
  | None => []
  end.

(** [ts'] is [ts] task by task, but that a task whose id is [i] may have
    been set to [done]. *)
Definition only_marked (i : string) (ts ts' : list Task) : Prop :=
  Forall2 (fun t t' => t' = t \/ (task_id t = i /\ t' = set_status "done" t))
          ts ts'.

(** [ts'] is [ts] with the first task whose id is [i] set to [done]:
    that task keeps its other fields, every other task is as it was. *)
Definition first_marked (i : string) (ts ts' : list Task) : Prop :=
  exists l1 t l2 t',
    ts = (l1 ++ t :: l2)%list /\ ts' = (l1 ++ t' :: l2)%list
    /\ task_id t = i /\ (forall u, In u l1 -> task_id u <> i)
    /\ same_but_status t t' /\ status t' = "done".

(** A line as iterating over the file gives it: once a line-end character
    is met, only line-end characters follow. *)
Fixpoint one_line (l : string) : bool :=
  match l with
  | EmptyString => true
  | String c l' =>
      if Csv.is_newline c then PyStr.all_chars Csv.is_newline l'
      else one_line l'
  end.

(** The one error the reader of this dialect can raise on a text file
    opened with [newline=""]. *)
Definition limit_error : exn :=
  CsvError "field larger than field limit (131072)".

End Spec.

(** ** Sample data *)

Module Sample.

Definition blank_task (i : string) : Task :=
  mkTask i "" "P2" "todo" "" "" "" "" "" "".

Definition t1 : Task :=
  mkTask "1" "Call the bank" "P1" "todo" "2024-03-15" "2024-03-01" "Ann" ""
         "" "".
Definition t2 : Task :=
  mkTask "2" "File taxes" "P1" "done" "2024-03-14" "2024-03-01" "" "" "" "".
Definition t3 : Task :=
  mkTask "3" "Wait for quote" "P2" "waiting" "" "2024-03-02" "Bob" "quote"
         "2024-03-15" "".

Definition day0 : Date.date := Date.mkdate 2024 3 15.

Definition world (ts : list Task) : World := mkWorld (Some ts) day0 [].

(** [add --title "   "] with the defaults of the parser. *)
Definition blank_title_args : Cli.AddArgs :=
  Cli.mkAddArgs "   " "P2" "todo" None None None None None.

(** The same title typed into the form of the page. *)
Definition blank_title_form : App.AddForm :=
  App.mkAddForm "   " "P2" "todo" None "" None "".

(** Notes of 131073 characters, one more than the field limit. *)
Definition long_text : string := N.iter 131073 (String "x") "".

Definition long_task : Task :=
  mkTask "1" "Keep a diary" "P3" "todo" "" "2024-03-01" "" "" "" long_text.

(** An open task that was due two weeks before [day0], with a follow-up
    on [day0]. *)
Definition late_task (i : string) : Task :=
  mkTask i "Chase invoice" "P2" "todo" "2024-03-01" "2024-02-20" "" ""
         "2024-03-15" "".

Definition eleven_late : list Task :=
  map late_task ["1"; "2"; "3"; "4"; "5"; "6"; "7"; "8"; "9"; "10"; "11"].

End Sample.

(* ================================================================== *)
(** * Properties *)

Local Open Scope py_scope.
Local Open Scope list_scope.

(** ** The monad *)

Lemma read_tasks_some (w : World) (ts : list Task) :
  data_file w = Some ts -> read_tasks w = Return ts w.
Proof.
  intros H. unfold read_tasks, bind, ensure_file. rewrite H. simpl.
  rewrite H. reflexivity.
Qed.

Lemma bind_read_tasks {A} (k : list Task -> M A) (w : World) (ts : list Task) :
  data_file w = Some ts -> (tasks <- read_tasks ;; k tasks) w = k ts w.
Proof.
  intros H. unfold bind at 1. rewrite (read_tasks_some w ts H). reflexivity.
Qed.

Lemma print_all_run (ls : list string) (w : World) :
  Cli.print_all ls w = Return tt (Spec.printed ls w).
Proof.
  revert w. induction ls as [|l ls IH]; intros w; simpl.
  - unfold ret, Spec.printed. simpl. rewrite app_nil_r. destruct w; reflexivity.
  - unfold bind, print, emit. rewrite IH. unfold Spec.printed. simpl.
    rewrite <- app_assoc. reflexivity.
Qed.

(** ** [mark_first] *)

Lemma string_eqb_false (a b : string) : a <> b -> String.eqb a b = false.
Proof. intros H. apply String.eqb_neq. exact H. Qed.

Lemma mark_first_none (target : string) (ts : list Task) :
  mark_first target ts = None <->
  (forall t, In t ts -> task_id t <> target).
Proof.
  induction ts as [|t ts IH]; simpl.
  - split; [intros _ u [] | reflexivity].
  - destruct (String.eqb (task_id t) target) eqn:E.
    + split; [discriminate|]. intros H. apply String.eqb_eq in E.
      exfalso. apply (H t); auto.
    + apply String.eqb_neq in E.
      destruct (mark_first target ts) as [[hit rest']|] eqn:F.
      * split; [discriminate|]. intros H. exfalso.
        assert (X : Some (hit, rest') = None).
        { apply IH. intros u Hu. apply H. right. exact Hu. }
        discriminate X.
      * split; [|reflexivity]. intros _ u [<-|Hu]; [exact E|].
        destruct IH as [IH _]. apply IH; [reflexivity | exact Hu].
Qed.

Lemma mark_first_some (target : string) (ts : list Task)
      (hit : Task) (ts' : list Task) :
  mark_first target ts = Some (hit, ts') ->
  exists l1 t l2,
    ts = l1 ++ t :: l2 /\ task_id t = target
    /\ (forall u, In u l1 -> task_id u <> target)
    /\ hit = set_status "done" t
    /\ ts' = l1 ++ set_status "done" t :: l2.
Proof.
  revert hit ts'. induction ts as [|t ts IH]; simpl; intros hit ts' H.
  - discriminate.
  - destruct (String.eqb (task_id t) target) eqn:E.
    + inversion H; subst. apply String.eqb_eq in E.
      exists [], t, ts. simpl. repeat split; auto.
    + destruct (mark_first target ts) as [[hit0 rest']|] eqn:F; [|discriminate].
      inversion H; subst.
      destruct (IH hit rest' eq_refl) as (l1 & t0 & l2 & -> & Hid & Hl1 & Hh & ->).
      exists (t :: l1), t0, l2. simpl. repeat split; auto.
      intros u [<-|Hu]; [apply String.eqb_neq; exact E | apply Hl1; exact Hu].
Qed.

Lemma mark_first_found (target : string) (ts : list Task) (t : Task) :
  In t ts -> task_id t = target ->
  exists hit ts', mark_first target ts = Some (hit, ts').
Proof.
  intros Hin Hid. destruct (mark_first target ts) as [[hit ts']|] eqn:F.
  - eauto.
  - exfalso. apply (proj1 (mark_first_none target ts) F t Hin Hid).
Qed.

Lemma set_status_same (s : string) (t : Task) :
  Spec.same_but_status t (set_status s t) /\ status (set_status s t) = s.
Proof. unfold Spec.same_but_status. simpl. repeat split. Qed.

Lemma existsb_has_id_false (i : string) (ts : list Task) :
  existsb (Spec.has_id i) ts = false ->
  forall t, In t ts -> task_id t <> i.
Proof.
  intros H t Hin E.
  assert (X : existsb (Spec.has_id i) ts = true).
  { apply existsb_exists. exists t. split; [exact Hin|].
    unfold Spec.has_id. apply String.eqb_eq. exact E. }
  congruence.
Qed.

Lemma mark_first_present (i : string) (ts : list Task) :
  existsb (Spec.has_id i) ts = true ->
  exists hit ts',
    mark_first i ts = Some (hit, ts') /\ Spec.first_marked i ts ts'
    /\ task_id hit = i /\ exists t, In t ts /\ hit = set_status "done" t.
Proof.
  intros H. apply existsb_exists in H. destruct H as (t & Hin & Hid).
  apply String.eqb_eq in Hid.
  destruct (mark_first_found i ts t Hin Hid) as (hit & ts' & F).
  exists hit, ts'. split; [exact F|].
  destruct (mark_first_some i ts hit ts' F)
    as (l1 & t0 & l2 & Hts & Hid0 & Hl1 & Hhit & Hts').
  split; [|split].
  - exists l1, t0, l2, (set_status "done" t0).
    destruct (set_status_same "done" t0) as [Hs Hd]. auto 10.
  - subst hit. exact Hid0.
  - exists t0. split; [|exact Hhit]. subst ts. apply in_elt.
Qed.

Lemma mark_first_absent (i : string) (ts : list Task) :
  existsb (Spec.has_id i) ts = false -> mark_first i ts = None.
Proof.
  intros H. apply mark_first_none. apply existsb_has_id_false. exact H.
Qed.

(** C3. On a stored collection [ts], [mark_done] with an id that some task
    carries sets the first such task to [done], keeps its other fields and
    every other task, and writes the result; with an id that no task
    carries it reports that (the dashboard returns [false], the command
    line prints "No task found") and writes nothing: the world is as it
    was, but for the printed line. *)
Theorem mark_done_frame (w : World) (ts : list Task) :
  data_file w = Some ts ->
  (forall tid : App.id_arg,
     if existsb (Spec.has_id (App.py_str tid)) ts
     then exists ts',
            Spec.first_marked (App.py_str tid) ts ts'
            /\ App.mark_done tid w = Return true (Spec.written ts' w)
     else App.mark_done tid w = Return false w)
  /\
  (forall n : Z,
     if existsb (Spec.has_id (PyStr.str_of_int n)) ts
     then exists ts' line,
            Spec.first_marked (PyStr.str_of_int n) ts ts'
            /\ Cli.mark_done n w
               = Return tt (Spec.written ts' (Spec.printed [line] w))
     else Cli.mark_done n w
          = Return tt
              (Spec.printed
                 [("No task found with id " ++ PyStr.str_of_int n)%string] w)).
Proof.
  intros Hw. split.
  - intros tid. destruct (existsb _ ts) eqn:E.
    + destruct (mark_first_present _ _ E) as (hit & ts' & F & Hm & _).
      exists ts'. split; [exact Hm|].
      unfold App.mark_done. rewrite (bind_read_tasks _ w ts Hw). rewrite F.
      reflexivity.
    + unfold App.mark_done. rewrite (bind_read_tasks _ w ts Hw).
      rewrite (mark_first_absent _ _ E). reflexivity.
  - intros n. destruct (existsb _ ts) eqn:E.
    + destruct (mark_first_present _ _ E) as (hit & ts' & F & Hm & _).
      exists ts', ("Marked task #" ++ task_id hit ++ " done: " ++ title hit)%string.
      split; [exact Hm|].
      unfold Cli.mark_done. rewrite (bind_read_tasks _ w ts Hw). rewrite F.
      reflexivity.
    + unfold Cli.mark_done. rewrite (bind_read_tasks _ w ts Hw).
      rewrite (mark_first_absent _ _ E). reflexivity.
Qed.

Lemma mark_done_frame_witness :
  let w := Sample.world [Sample.t1; Sample.t2; Sample.t3] in
  data_file w = Some [Sample.t1; Sample.t2; Sample.t3]
  /\ (exists ts',
        Spec.first_marked "3" [Sample.t1; Sample.t2; Sample.t3] ts'
        /\ App.mark_done (App.IdStr "3") w = Return true (Spec.written ts' w))
  /\ App.mark_done (App.IdStr "7") w = Return false w
  /\ Cli.mark_done 7 w
     = Return tt (Spec.printed ["No task found with id 7"] w).
Proof.
  intros w.
  destruct (mark_done_frame w [Sample.t1; Sample.t2; Sample.t3] eq_refl)
    as [Happ Hcli].
  split; [reflexivity|]. split; [exact (Happ (App.IdStr "3"))|].
  split; [exact (Happ (App.IdStr "7")) | exact (Hcli 7)].
Defined.

(** ** [delete_task] *)

Lemma filter_keeps_all {A} (p : A -> bool) (l : list A) :
  (forall x, In x l -> p x = true) -> filter p l = l.
Proof.
  induction l as [|x l IH]; simpl; intros H; [reflexivity|].
  rewrite (H x (or_introl eq_refl)). f_equal. apply IH.
  intros y Hy. apply H. right. exact Hy.
Qed.

Lemma len_app_cons {A} (l1 l2 : list A) (x : A) :
  (len (l1 ++ l2) =? len (l1 ++ x :: l2)) = false.
Proof.
  unfold len. apply Z.eqb_neq. rewrite !length_app. simpl. lia.
Qed.

Lemma delete_run (w : World) (ts : list Task) (tid : App.id_arg) :
  data_file w = Some ts ->
  App.delete_task tid w
  = let ts' := filter (fun t => negb (Spec.has_id (App.py_str tid) t)) ts in
    if len ts' =? len ts then Return false w
    else Return true (Spec.written ts' w).
Proof.
  intros Hw. unfold App.delete_task. rewrite (bind_read_tasks _ w ts Hw).
  cbv zeta. unfold Spec.has_id.
  destruct (len _ =? len ts); reflexivity.
Qed.

Lemma unique_id_split (ts : list Task) (i : string) :
  NoDup (map task_id ts) ->
  existsb (Spec.has_id i) ts = true ->
  exists l1 t l2,
    ts = l1 ++ t :: l2 /\ task_id t = i
    /\ filter (fun t => negb (Spec.has_id i t)) ts = l1 ++ l2.
Proof.
  intros Hnd H. apply existsb_exists in H. destruct H as (t & Hin & Hid).
  unfold Spec.has_id in Hid. apply String.eqb_eq in Hid.
  destruct (in_split t ts Hin) as (l1 & l2 & ->).
  exists l1, t, l2. split; [reflexivity|]. split; [exact Hid|].
  rewrite map_app in Hnd. simpl in Hnd. apply NoDup_remove_2 in Hnd.
  rewrite filter_app. simpl. unfold Spec.has_id at 2. rewrite Hid.
  rewrite String.eqb_refl. simpl.
  assert (K : forall l, (forall u, In u l -> In (task_id u) (map task_id l1 ++ map task_id l2))
                        -> filter (fun t0 => negb (Spec.has_id i t0)) l = l).
  { intros l Hl. apply filter_keeps_all. intros u Hu. unfold Spec.has_id.
    destruct (String.eqb (task_id u) i) eqn:E; [|reflexivity].
    apply String.eqb_eq in E. exfalso. apply Hnd. rewrite Hid, <- E.
    apply Hl. exact Hu. }
  rewrite (K l1), (K l2); [reflexivity| |].
  - intros u Hu. apply in_or_app. right. apply in_map. exact Hu.
  - intros u Hu. apply in_or_app. left. apply in_map. exact Hu.
Qed.

(** C4. On a stored collection [ts] whose ids are all different,
    [delete_task] with the id of a task removes that one task, keeps the
    others in their order, writes the result and returns [true]; with an
    id that no task carries it returns [false] and the world, file and log,
    is as it was. *)
Theorem delete_task_exact (w : World) (ts : list Task) (tid : App.id_arg) :
  data_file w = Some ts ->
  NoDup (map task_id ts) ->
  if existsb (Spec.has_id (App.py_str tid)) ts
  then exists l1 t l2,
         ts = l1 ++ t :: l2 /\ task_id t = App.py_str tid
         /\ App.delete_task tid w = Return true (Spec.written (l1 ++ l2) w)
  else App.delete_task tid w = Return false w.
Proof.
  intros Hw Hnd. rewrite (delete_run w ts tid Hw). cbv zeta.
  destruct (existsb _ ts) eqn:E.
  - destruct (unique_id_split ts _ Hnd E) as (l1 & t & l2 & Hts & Hid & Hf).
    exists l1, t, l2. split; [exact Hts|]. split; [exact Hid|].
    rewrite Hf. subst ts. rewrite len_app_cons. reflexivity.
  - rewrite filter_keeps_all.
    + rewrite Z.eqb_refl. reflexivity.
    + intros u Hu. unfold Spec.has_id.
      rewrite (string_eqb_false _ _ (existsb_has_id_false _ _ E u Hu)).
      reflexivity.
Qed.

Lemma delete_task_exact_witness :
  let ts := [Sample.t1; Sample.t2; Sample.t3] in
  let w := Sample.world ts in
  (data_file w = Some ts /\ NoDup (map task_id ts))
  /\ (exists l1 t l2,
        ts = l1 ++ t :: l2 /\ task_id t = "2"
        /\ App.delete_task (App.IdStr "2") w
           = Return true (Spec.written (l1 ++ l2) w))
  /\ App.delete_task (App.IdInt 7) w = Return false w.
Proof.
  intros ts w.
  assert (Hnd : NoDup (map task_id ts)).
  { simpl. repeat constructor; simpl; intuition discriminate. }
  split; [split; [reflexivity | exact Hnd]|].
  split.
  - exact (delete_task_exact w ts (App.IdStr "2") eq_refl Hnd).
  - exact (delete_task_exact w ts (App.IdInt 7) eq_refl Hnd).
Defined.

(** ** Matching ids *)

Lemma Forall2_same {A} (R : A -> A -> Prop) (l : list A) :
  (forall x, R x x) -> Forall2 R l l.
Proof. intros H. induction l; constructor; auto. Qed.

Lemma mark_first_only_marked (i : string) (ts : list Task)
      (hit : Task) (ts' : list Task) :
  mark_first i ts = Some (hit, ts') -> Spec.only_marked i ts ts'.
Proof.
  intros F.
  destruct (mark_first_some i ts hit ts' F)
    as (l1 & t & l2 & -> & Hid & _ & _ & ->).
  unfold Spec.only_marked. apply Forall2_app.
  - apply Forall2_same. intros x. left. reflexivity.
  - constructor; [right; auto|].
    apply Forall2_same. intros x. left. reflexivity.
Qed.

Lemma existsb_has_id_iff (i : string) (ts : list Task) :
  existsb (Spec.has_id i) ts = true <-> exists t, In t ts /\ task_id t = i.
Proof.
  rewrite existsb_exists. unfold Spec.has_id.
  split; intros (t & Hin & H); exists t; split; auto;
    apply String.eqb_eq; exact H.
Qed.

Lemma str_of_int_1 : PyStr.str_of_int 1 = "1".
Proof. reflexivity. Qed.

(** C9. An operation on the number [n] looks for the text [str(n)]: on a
    stored collection [ts], [delete_task] keeps exactly the tasks whose id
    is not that text and answers whether there was one that is; both
    [mark_done] touch nothing but a task whose id is that text and find one
    exactly when there is one.  [str(1)] is not "01": a task stored under
    "01" is not matched by an operation on 1. *)
Theorem id_match_is_text_equality (w : World) (ts : list Task) :
  data_file w = Some ts ->
  (forall n : Z,
     let i := PyStr.str_of_int n in
     (exists w',
        App.delete_task (App.IdInt n) w = Return (existsb (Spec.has_id i) ts) w'
        /\ Spec.stored w' = filter (fun t => negb (Spec.has_id i t)) ts)
     /\ (exists w',
           App.mark_done (App.IdInt n) w
           = Return (existsb (Spec.has_id i) ts) w'
           /\ Spec.only_marked i ts (Spec.stored w'))
     /\ (exists w',
           Cli.mark_done n w = Return tt w'
           /\ Spec.only_marked i ts (Spec.stored w')
           /\ (existsb (Spec.has_id i) ts = false ->
               w' = Spec.printed [("No task found with id " ++ i)%string] w))
     /\ (existsb (Spec.has_id i) ts = true <->
         exists t, In t ts /\ task_id t = i))
  /\ (forall t, task_id t = "01" -> Spec.has_id (PyStr.str_of_int 1) t = false).
Proof.
  intros Hw. split.
  - intros n i.
    assert (Hsame : Spec.only_marked i ts ts).
    { apply Forall2_same. intros x. left. reflexivity. }
    split; [|split; [|split]].
    + rewrite (delete_run w ts _ Hw). cbv zeta. change (App.py_str (App.IdInt n)) with i.
      destruct (existsb (Spec.has_id i) ts) eqn:E.
      * apply existsb_exists in E. destruct E as (t & Hin & Hid).
        destruct (in_split t ts Hin) as (l1 & l2 & ->).
        assert (L : (len (filter (fun t0 => negb (Spec.has_id i t0))
                                 (l1 ++ t :: l2)) =? len (l1 ++ t :: l2)) = false).
        { apply Z.eqb_neq. unfold len. rewrite filter_app. simpl.
          rewrite Hid. simpl. rewrite !length_app. simpl.
          pose proof (filter_length_le (fun t0 => negb (Spec.has_id i t0)) l1).
          pose proof (filter_length_le (fun t0 => negb (Spec.has_id i t0)) l2).
          lia. }
        rewrite L. eexists. split; [reflexivity|]. reflexivity.
      * rewrite filter_keeps_all.
        -- rewrite Z.eqb_refl. exists w. split; [reflexivity|].
           unfold Spec.stored. rewrite Hw. reflexivity.
        -- intros u Hu. unfold Spec.has_id.
           rewrite (string_eqb_false _ _ (existsb_has_id_false _ _ E u Hu)).
           reflexivity.
    + unfold App.mark_done. rewrite (bind_read_tasks _ w ts Hw).
      change (App.py_str (App.IdInt n)) with i.
      destruct (existsb (Spec.has_id i) ts) eqn:E.
      * destruct (mark_first_present _ _ E) as (hit & ts' & F & _).
        rewrite F. eexists. split; [reflexivity|].
        simpl. apply (mark_first_only_marked i ts hit ts' F).
      * rewrite (mark_first_absent _ _ E). exists w. split; [reflexivity|].
        unfold Spec.stored. rewrite Hw. exact Hsame.
    + unfold Cli.mark_done. rewrite (bind_read_tasks _ w ts Hw). fold i.
      destruct (existsb (Spec.has_id i) ts) eqn:E.
      * destruct (mark_first_present _ _ E) as (hit & ts' & F & _).
        rewrite F. eexists. split; [reflexivity|].
        split; [|discriminate].
        simpl. apply (mark_first_only_marked i ts hit ts' F).
      * rewrite (mark_first_absent _ _ E). eexists. split; [reflexivity|].
        split; [|reflexivity].
        unfold Spec.stored. simpl. rewrite Hw. exact Hsame.
    + apply existsb_has_id_iff.
  - intros t Ht. unfold Spec.has_id. rewrite Ht. reflexivity.
Qed.

Lemma id_match_is_text_equality_witness :
  let ts := [Sample.blank_task "01"; Sample.blank_task "1"] in
  let w := Sample.world ts in
  data_file w = Some ts
  /\ (exists w',
        App.delete_task (App.IdInt 1) w = Return true w'
        /\ Spec.stored w' = [Sample.blank_task "01"])
  /\ Spec.has_id (PyStr.str_of_int 1) (Sample.blank_task "01") = false.
Proof.
  intros ts w.
  destruct (id_match_is_text_equality w ts eq_refl) as [H1 H2].
  split; [reflexivity|]. split.
  - exact (proj1 (H1 1)).
  - exact (H2 (Sample.blank_task "01") eq_refl).
Defined.

(** ** [parse_date] does not raise *)

Lemma int_group_error (name : string) (gs : list (string * string)) (e : exn) :
  Date.int_group name gs = Err e -> exists msg, e = ValueError msg.
Proof.
  unfold Date.int_group. destruct (PyStr.py_int _); intros H; inversion H.
  eauto.
Qed.

Lemma strptime_error (value : string) (e : exn) :
  Date.strptime_ymd value = Err e -> exists msg, e = ValueError msg.
Proof.
  unfold Date.strptime_ymd.
  destruct (Date.rmatch Date.re_ymd value) as [|f fs].
  - intros H. inversion H. eauto.
  - destruct (PyStr.truthy (Date.rest f)).
    + intros H. inversion H. eauto.
    + destruct (Date.int_group "Y" (Date.groups f)) as [y|e1] eqn:EY;
        [|intros H; inversion H; subst; eapply int_group_error; eauto].
      destruct (Date.int_group "m" (Date.groups f)) as [m|e2] eqn:EM;
        [|intros H; inversion H; subst; eapply int_group_error; eauto].
      destruct (Date.int_group "d" (Date.groups f)) as [d|e3] eqn:ED;
        [|intros H; inversion H; subst; eapply int_group_error; eauto].
      simpl. unfold Date.make. destruct (Date.valid y m d); intros H;
        inversion H. eauto.
Qed.

Lemma parse_date_total (value : string) :
  parse_date value = Ok (Spec.parsed value).
Proof.
  unfold Spec.parsed, parse_date.
  destruct (negb (PyStr.truthy value)); [reflexivity|].
  destruct (Date.strptime_ymd value) as [d|e] eqn:E; [reflexivity|].
  destruct (strptime_error value e E) as [msg ->]. reflexivity.
Qed.

Lemma date_test_total (test : Date.date -> bool) (text : string) :
  date_test test text = Ok (Spec.date_is test text).
Proof.
  unfold date_test, Spec.date_is. rewrite parse_date_total. reflexivity.
Qed.

Lemma rfilter_total {A} (p : A -> result bool) (q : A -> bool) (l : list A) :
  (forall x, p x = Ok (q x)) -> rfilter p l = Ok (filter q l).
Proof.
  intros H. induction l as [|x l IH]; simpl; [reflexivity|].
  rewrite H, IH. simpl. destruct (q x); reflexivity.
Qed.

Lemma filter_filter {A} (p q : A -> bool) (l : list A) :
  filter q (filter p l) = filter (fun x => p x && q x) l.
Proof.
  induction l as [|x l IH]; simpl; [reflexivity|].
  destruct (p x); simpl; [destruct (q x)|]; rewrite IH; reflexivity.
Qed.

Lemma dated_filter (test : Date.date -> bool) (f : Task -> string)
      (ts : list Task) :
  rfilter (fun t => date_test test (f t))
          (filter (fun t => negb (String.eqb (status t) "done")) ts)
  = Ok (filter (fun t => Spec.is_open t && Spec.date_is test (f t)) ts).
Proof.
  rewrite (rfilter_total _ (fun t => Spec.date_is test (f t))).
  - rewrite filter_filter. reflexivity.
  - intros t. apply date_test_total.
Qed.

(** ** The dashboard lists *)

Lemma date_eqb_refl (d : Date.date) : Date.eqb d d = true.
Proof. unfold Date.eqb. rewrite !Z.eqb_refl. reflexivity. Qed.

Lemma date_ltb_irrefl (d : Date.date) : Date.ltb d d = false.
Proof.
  unfold Date.ltb. rewrite !Z.ltb_irrefl, !Z.eqb_refl. reflexivity.
Qed.

(** C5. Every list behind the dashboard counts is a selection of the open
    tasks, the same in both scripts: all of them, those of priority [P1],
    those whose due date parses to today, those whose due date parses to a
    day before today, those that are waiting, those whose follow-up date
    parses to today or earlier.  For the three tasks of the scenario the
    counts are 2, 1, 1, 0, 1 and 1. *)
Theorem dashboard_aggregate (now : Date.date) (ts : list Task) :
  (Cli.open_tasks ts = filter Spec.is_open ts
   /\ App.open_tasks ts = filter Spec.is_open ts)
  /\ (let sel := filter (fun t => Spec.is_open t
                                  && String.eqb (priority t) "P1") ts in
      Cli.p1 ts = sel /\ App.p1_tasks ts = sel)
  /\ (let sel := filter (fun t => Spec.is_open t
                                  && Spec.date_is (fun d => Date.eqb d now)
                                                  (due_date t)) ts in
      Cli.due_today now ts = Ok sel /\ App.due_today now ts = Ok sel)
  /\ (let sel := filter (fun t => Spec.is_open t
                                  && Spec.date_is (fun d => Date.ltb d now)
                                                  (due_date t)) ts in
      Cli.overdue now ts = Ok sel /\ App.overdue now ts = Ok sel)
  /\ (let sel := filter (fun t => Spec.is_open t
                                  && String.eqb (status t) "waiting") ts in
      Cli.waiting ts = sel /\ App.waiting ts = sel)
  /\ (let sel := filter (fun t => Spec.is_open t
                                  && Spec.date_is (fun d => Date.leb d now)
                                                  (follow_up_date t)) ts in
      Cli.followups now ts = Ok sel /\ App.followups now ts = Ok sel)
  /\ (forall (today_text yesterday_text : string) (yesterday : Date.date)
             (a b c : Task),
        Spec.parsed today_text = Some now ->
        Spec.parsed yesterday_text = Some yesterday ->
        Date.ltb yesterday now = true ->
        let s := Spec.scenario today_text yesterday_text a b c in
        (len (Cli.open_tasks s), len (Cli.p1 s),
         Spec.count (Cli.due_today now s), Spec.count (Cli.overdue now s),
         len (Cli.waiting s), Spec.count (Cli.followups now s))
        = (2, 1, Some 1, Some 0, 1, Some 1)
        /\ (len (App.open_tasks s), len (App.p1_tasks s),
            Spec.count (App.due_today now s), Spec.count (App.overdue now s),
            len (App.waiting s), Spec.count (App.followups now s))
           = (2, 1, Some 1, Some 0, 1, Some 1)).
Proof.
  assert (Hp : forall q l,
             filter q (filter (fun t => negb (String.eqb (status t) "done")) l)
             = filter (fun t => Spec.is_open t && q t) l).
  { intros q l. rewrite filter_filter. reflexivity. }
  split; [split; reflexivity|].
  split; [split; apply Hp|].
  split; [split; apply dated_filter|].
  split; [split; apply dated_filter|].
  split; [split; apply Hp|].
  split; [split; apply dated_filter|].
  intros today_text yesterday_text yesterday a b c Ht Hy Hlt s.
  unfold Cli.due_today, Cli.overdue, Cli.followups, Cli.p1, Cli.waiting,
    Cli.open_tasks, App.due_today, App.overdue, App.followups, App.p1_tasks,
    App.waiting, App.open_tasks.
  rewrite !dated_filter, !Hp.
  unfold s, Spec.scenario, Spec.is_open, Spec.date_is. simpl.
  rewrite Ht. unfold Date.leb.
  rewrite date_eqb_refl, date_ltb_irrefl. simpl.
  split; reflexivity.
Qed.

Lemma dashboard_aggregate_witness :
  Spec.parsed "2024-03-15" = Some Sample.day0
  /\ Spec.parsed "2024-03-14" = Some (Date.mkdate 2024 3 14)
  /\ Date.ltb (Date.mkdate 2024 3 14) Sample.day0 = true
  /\ let s := Spec.scenario "2024-03-15" "2024-03-14"
                            Sample.t1 Sample.t2 Sample.t3 in
     (len (Cli.open_tasks s), len (Cli.p1 s),
      Spec.count (Cli.due_today Sample.day0 s),
      Spec.count (Cli.overdue Sample.day0 s),
      len (Cli.waiting s), Spec.count (Cli.followups Sample.day0 s))
     = (2, 1, Some 1, Some 0, 1, Some 1).
Proof.
  split; [reflexivity|]. split; [reflexivity|]. split; [reflexivity|].
  exact (proj1 (proj2 (proj2 (proj2 (proj2 (proj2 (proj2
           (dashboard_aggregate Sample.day0 [])))))) 
           "2024-03-15" "2024-03-14" (Date.mkdate 2024 3 14)
           Sample.t1 Sample.t2 Sample.t3 eq_refl eq_refl eq_refl)).
Defined.

(** ** [list_tasks] *)

Lemma given_choice (x : option string) (choices : list string) :
  ~ In ""%string choices ->
  match x with
  | Some s => In s choices
  | None => True
  end ->
  Cli.given x = match x with Some _ => true | None => false end.
Proof.
  intros Hne H. destruct x as [s|]; [|reflexivity].
  simpl. destruct s; [contradiction | reflexivity].
Qed.

Lemma list_select_passes (args : Cli.ListArgs) (ts : list Task) :
  Cli.list_args_ok args ->
  Cli.list_select args ts
  = filter (Spec.passes (Cli.l_status args) (Cli.l_priority args)) ts.
Proof.
  intros [Hs Hp]. unfold Cli.list_select, Spec.passes.
  assert (Gs := given_choice (Cli.l_status args) Cli.status_choices).
  assert (Gp := given_choice (Cli.l_priority args) Cli.priority_choices).
  rewrite Gs, Gp; try assumption;
    try (unfold Cli.status_choices, Cli.priority_choices; simpl;
         intuition discriminate).
  destruct (Cli.l_status args) as [s|], (Cli.l_priority args) as [p|]; simpl.
  - apply filter_filter.
  - apply filter_ext. intros t. rewrite andb_true_r. reflexivity.
  - reflexivity.
  - symmetry. apply filter_keeps_all. reflexivity.
Qed.

(** C8. On a stored collection [ts], and for any status and priority
    filter that the parser accepts, each given or left out, [list_tasks]
    prints the two header lines and then one row for each task that passes
    every filter given, in the order of the file; it writes nothing. *)
Theorem list_tasks_filters (w : World) (ts : list Task) (args : Cli.ListArgs) :
  data_file w = Some ts ->
  Cli.list_args_ok args ->
  Cli.list_select args ts
  = filter (Spec.passes (Cli.l_status args) (Cli.l_priority args)) ts
  /\ Cli.list_tasks args w
     = Return tt
         (Spec.printed
            ("ID | Pri | Status      | Due       | Title"%string
             :: "---|-----|-------------|-----------|------"%string
             :: map Cli.list_row
                    (filter (Spec.passes (Cli.l_status args)
                                         (Cli.l_priority args)) ts))
            w).
Proof.
  intros Hw Hok. split; [apply list_select_passes; exact Hok|].
  unfold Cli.list_tasks. rewrite (bind_read_tasks _ w ts Hw).
  rewrite (list_select_passes args ts Hok).
  unfold bind, print, emit. rewrite print_all_run.
  unfold Spec.printed. simpl. rewrite <- !app_assoc. reflexivity.
Qed.

Lemma list_tasks_filters_witness :
  let ts := [Sample.t1; Sample.t2; Sample.t3] in
  let args := Cli.mkListArgs (Some "waiting"%string) None in
  (data_file (Sample.world ts) = Some ts /\ Cli.list_args_ok args)
  /\ Cli.list_select args ts = [Sample.t3].
Proof.
  intros ts args.
  assert (Hok : Cli.list_args_ok args).
  { split; simpl; auto. }
  split; [split; [reflexivity | exact Hok]|].
  exact (proj1 (list_tasks_filters (Sample.world ts) ts args eq_refl Hok)).
Defined.

(** ** The printed dashboard *)

Lemma print_then {A} (line : string) (k : M A) (w : World) :
  (print line ;; k) w = k (Spec.printed [line] w).
Proof. reflexivity. Qed.

Lemma printed_printed (l1 l2 : list string) (w : World) :
  Spec.printed l2 (Spec.printed l1 w) = Spec.printed (l1 ++ l2) w.
Proof.
  unfold Spec.printed. simpl. rewrite map_app, app_assoc. reflexivity.
Qed.

Lemma printed_nil (w : World) : Spec.printed [] w = w.
Proof.
  unfold Spec.printed. simpl. rewrite app_nil_r. destruct w; reflexivity.
Qed.

(** C10. On a stored collection [ts] the command-line dashboard prints the
    five counts over all matching tasks, then, when there are overdue
    tasks, a section with a row for each of the first ten of them and no
    more, and, when there are follow-ups due, a section with a row for each
    of the first ten of those and no more. *)
Theorem dashboard_lists_are_cut (w : World) (ts : list Task) :
  data_file w = Some ts ->
  let now := clock w in
  let late := filter (fun t => Spec.is_open t
                               && Spec.date_is (fun d => Date.ltb d now)
                                               (due_date t)) ts in
  let due := filter (fun t => Spec.is_open t
                              && Spec.date_is (fun d => Date.eqb d now)
                                              (due_date t)) ts in
  let follow := filter (fun t => Spec.is_open t
                                 && Spec.date_is (fun d => Date.leb d now)
                                                 (follow_up_date t)) ts in
  Cli.dashboard w
  = Return tt
      (Spec.printed
         (["=== WORKFLOW DASHBOARD ===";
           "Open tasks: " ++ PyStr.str_of_int (len (filter Spec.is_open ts));
           "P1 tasks: " ++ PyStr.str_of_int (len (Cli.p1 ts));
           "Due today: " ++ PyStr.str_of_int (len due);
           "Overdue: " ++ PyStr.str_of_int (len late);
           "Waiting: " ++ PyStr.str_of_int (len (Cli.waiting ts));
           ""]%string
          ++ (if is_empty late then []
              else "Overdue tasks:"%string
                   :: map Cli.overdue_row (firstn 10 late) ++ [""%string])
          ++ (if is_empty follow then []
              else "Follow-ups due:"%string
                   :: map Cli.followup_row (firstn 10 follow)))
         w)
  /\ List.length (map Cli.overdue_row (firstn 10 late))
     = Nat.min 10 (List.length late)
  /\ List.length (map Cli.followup_row (firstn 10 follow))
     = Nat.min 10 (List.length follow)
  /\ (forall rest, List.length late = (10 + S rest)%nat ->
        List.length (map Cli.overdue_row (firstn 10 late)) = 10%nat)
  /\ (forall rest, List.length follow = (10 + S rest)%nat ->
        List.length (map Cli.followup_row (firstn 10 follow)) = 10%nat).
Proof.
  intros Hw now late due follow.
  split; [|repeat split; intros; rewrite length_map, length_firstn; lia].
  unfold Cli.dashboard. rewrite (bind_read_tasks _ w ts Hw).
  unfold bind at 1. unfold today at 1. fold now.
  unfold Cli.overdue, Cli.due_today, Cli.followups, Cli.open_tasks.
  rewrite !dated_filter. fold late due follow.
  unfold bind at 1, lift at 1. unfold bind at 1, lift at 1.
  rewrite !print_then. rewrite !printed_printed. simpl app.
  unfold bind at 1.
  assert (Hsec1 :
    (if is_empty late then ret tt
     else print "Overdue tasks:" ;;
          Cli.print_all (map Cli.overdue_row (firstn 10 late)) ;; print "")
      (Spec.printed
         ["=== WORKFLOW DASHBOARD ===";
          "Open tasks: " ++ PyStr.str_of_int (len (filter Spec.is_open ts));
          "P1 tasks: " ++ PyStr.str_of_int (len (Cli.p1 ts));
          "Due today: " ++ PyStr.str_of_int (len due);
          "Overdue: " ++ PyStr.str_of_int (len late);
          "Waiting: " ++ PyStr.str_of_int (len (Cli.waiting ts));
          ""]%string w)
    = Return tt
        (Spec.printed
           (["=== WORKFLOW DASHBOARD ===";
             "Open tasks: " ++ PyStr.str_of_int (len (filter Spec.is_open ts));
             "P1 tasks: " ++ PyStr.str_of_int (len (Cli.p1 ts));
             "Due today: " ++ PyStr.str_of_int (len due);
             "Overdue: " ++ PyStr.str_of_int (len late);
             "Waiting: " ++ PyStr.str_of_int (len (Cli.waiting ts));
             ""]%string
            ++ (if is_empty late then []
                else "Overdue tasks:"%string
                     :: map Cli.overdue_row (firstn 10 late) ++ [""%string]))
           w)).
  { destruct (is_empty late).
    - rewrite app_nil_r. reflexivity.
    - rewrite print_then. unfold bind at 1. rewrite print_all_run.
      unfold print, emit, Spec.printed. simpl.
      rewrite !map_app. simpl. rewrite <- !app_assoc. reflexivity. }
  unfold Cli.open_tasks in Hsec1.
  match goal with
  | |- match ?m with _ => _ end = _ =>
      replace m with
        (Return tt
          (Spec.printed
             (["=== WORKFLOW DASHBOARD ===";
               "Open tasks: " ++ PyStr.str_of_int (len (filter Spec.is_open ts));
               "P1 tasks: " ++ PyStr.str_of_int (len (Cli.p1 ts));
               "Due today: " ++ PyStr.str_of_int (len due);
               "Overdue: " ++ PyStr.str_of_int (len late);
               "Waiting: " ++ PyStr.str_of_int (len (Cli.waiting ts));
               ""]%string
              ++ (if is_empty late then []
                  else "Overdue tasks:"%string
                       :: map Cli.overdue_row (firstn 10 late) ++ [""%string]))
             w))
  end.
  unfold bind at 1, lift at 1.
  destruct (is_empty follow).
  - rewrite app_nil_r. reflexivity.
  - rewrite print_then, print_all_run, !printed_printed.
    rewrite <- !app_assoc. reflexivity.
Qed.

Lemma dashboard_lists_are_cut_witness :
  let ts := Sample.eleven_late in
  let w := Sample.world ts in
  let late := filter (fun t => Spec.is_open t
                               && Spec.date_is (fun d => Date.ltb d (clock w))
                                               (due_date t)) ts in
  data_file w = Some ts
  /\ List.length late = 11%nat
  /\ List.length (map Cli.overdue_row (firstn 10 late)) = 10%nat.
Proof.
  intros ts w late.
  destruct (dashboard_lists_are_cut w ts eq_refl) as (_ & _ & _ & H & _).
  split; [reflexivity|]. split; [reflexivity|].
  exact (H 0%nat eq_refl).
Defined.

(** ** [next_id] *)

Lemma next_id_empty : Cli.next_id [] = Ok 1 /\ App.next_id [] = Ok 1.
Proof. split; reflexivity. Qed.

Lemma filter_none {A} (p : A -> bool) (l : list A) :
  (forall x, In x l -> p x = false) -> filter p l = [].
Proof.
  induction l as [|x l IH]; simpl; intros H; [reflexivity|].
  rewrite (H x (or_introl eq_refl)). apply IH.
  intros y Hy. apply H. right. exact Hy.
Qed.

(** The dashboard's [next_id] answers 1 when no id is made of digits. *)
Lemma app_next_id_no_digits (ts : list Task) :
  (forall t, In t ts -> PyStr.isdigit (task_id t) = false) ->
  App.next_id ts = Ok 1.
Proof.
  intros H. unfold App.next_id. destruct (is_empty ts); [reflexivity|].
  rewrite (filter_none _ ts H). reflexivity.
Qed.

(** The command line's [next_id] raises on every collection that is not
    empty and has no id made of digits. *)
Lemma cli_next_id_no_digits (ts : list Task) :
  ts <> [] ->
  (forall t, In t ts -> PyStr.isdigit (task_id t) = false) ->
  Cli.next_id ts = Err (ValueError "max() arg is an empty sequence").
Proof.
  intros Hne H. unfold Cli.next_id. destruct ts as [|t ts]; [congruence|].
  simpl is_empty. cbv iota. rewrite (filter_none _ (t :: ts) H). reflexivity.
Qed.

(** C1. The code at the failing input: on the one task whose id is "abc"
    the command line's [next_id] raises [ValueError], where the claim and
    the dashboard's [next_id] answer 1. *)
Theorem next_id_cli_raises :
  Cli.next_id [Sample.blank_task "abc"]
  = Err (ValueError "max() arg is an empty sequence")
  /\ App.next_id [Sample.blank_task "abc"] = Ok 1.
Proof. split; reflexivity. Qed.

(** ** Adding a task *)

(** The page refuses a blank title: an error is shown, nothing is
    written. *)
Lemma app_add_blank_title (form : App.AddForm) (w : World) (ts : list Task) :
  data_file w = Some ts ->
  PyStr.strip (App.f_title form) = ""%string ->
  App.add_task_form form w
  = Return tt (mkWorld (Some ts) (clock w)
                       (log w ++ [StError "Title is required."])).
Proof.
  intros Hw Hb. unfold App.add_task_form.
  rewrite (bind_read_tasks _ w ts Hw). rewrite Hb. simpl.
  unfold emit. rewrite Hw. reflexivity.
Qed.

(** C2. The code at the failing input: [add --title "   "] on an empty
    file stores a task whose title is the three blanks, where the claim
    wants a validation failure and no write; the page, given the same
    title, writes nothing. *)
Theorem cli_add_blank_title_writes :
  PyStr.strip (Cli.a_title Sample.blank_title_args) = ""%string
  /\ Cli.add_task Sample.blank_title_args (Sample.world [])
     = Return tt
         (mkWorld
            (Some [mkTask "1" "   " "P2" "todo" "" "2024-03-15" "" "" "" ""])
            Sample.day0
            [FileWritten
               [mkTask "1" "   " "P2" "todo" "" "2024-03-15" "" "" "" ""];
             Printed "Added task #1:    "])
  /\ App.add_task_form Sample.blank_title_form (Sample.world [])
     = Return tt (mkWorld (Some []) Sample.day0
                          [StError "Title is required."]).
Proof. repeat split. Qed.

(* ================================================================== *)
(** ** The text of the file: what is written is read back *)

Section CsvRoundTrip.
Import Csv.

(** *** Lines *)

Lemma rbind_assoc {A B C} (r : result A) (f : A -> result B) (g : B -> result C) :
  rbind (rbind r f) g = rbind r (fun a => rbind (f a) g).
Proof. destruct r; reflexivity. Qed.

Lemma lines_not_nil (T : string) : T <> ""%string -> lines T <> [].
Proof.
  destruct T as [|a T]; [congruence|]. intros _. simpl.
  destruct (Ascii.eqb a LF); [discriminate|].
  destruct (Ascii.eqb a CR).
  - destruct T as [|b T]; [discriminate|]. destruct (Ascii.eqb b LF); discriminate.
  - destruct (lines T); discriminate.
Qed.

Lemma is_newline_false (c : ascii) :
  is_newline c = false -> Ascii.eqb c LF = false /\ Ascii.eqb c CR = false.
Proof. unfold is_newline. intros H. apply orb_false_elim in H. exact H. Qed.

(** A character that ends no line goes through the parser, and the rest of the text follows. *)
Lemma read_plain (r : Reader) (c : ascii) (T : string) :
  is_newline c = false -> T <> ""%string ->
  reader_rows r (lines (String c T))
  = rbind (parse_process_char r (Some c)) (fun r' => reader_rows r' (lines T)).
Proof.
  intros Hc HT. destruct (is_newline_false c Hc) as [H1 H2].
  simpl lines. rewrite H1, H2.
  destruct (lines T) as [|l ls] eqn:E; [exfalso; exact (lines_not_nil T HT E)|].
  simpl. rewrite rbind_assoc. reflexivity.
Qed.

Lemma read_first (b : list ascii) (n : N) (fs : list string) (c : ascii) (T : string) :
  is_newline c = false ->
  reader_rows (mkReader START_RECORD b n fs) (lines (String c T))
  = reader_rows (mkReader START_FIELD b n fs) (lines (String c T)).
Proof.
  intros Hc. destruct (is_newline_false c Hc) as [H1 H2].
  simpl lines. rewrite H1, H2.
  assert (P : parse_process_char (mkReader START_RECORD b n fs) (Some c)
              = parse_process_char (mkReader START_FIELD b n fs) (Some c)).
  { unfold parse_process_char. simpl. rewrite Hc. reflexivity. }
  destruct (lines T) as [|l ls]; simpl; rewrite P; reflexivity.
Qed.

Lemma add_char_quoted (r : Reader) (c : ascii) (r' : Reader) :
  st r = IN_QUOTED_FIELD -> parse_add_char r c = Ok r' -> st r' = IN_QUOTED_FIELD.
Proof.
  unfold parse_add_char. destruct (field_limit <=? field_len r)%N; [discriminate|].
  intros H E. inversion E. simpl. exact H.
Qed.

Lemma quoted_char (r : Reader) (c : ascii) :
  st r = IN_QUOTED_FIELD -> Ascii.eqb c quotechar = false ->
  parse_process_char r (Some c) = parse_add_char r c.
Proof. intros H Hc. unfold parse_process_char. rewrite H, Hc. reflexivity. Qed.

Lemma quoted_eol (r : Reader) :
  st r = IN_QUOTED_FIELD -> parse_process_char r None = Ok r /\ at_start r = false.
Proof. intros H. unfold parse_process_char, at_start. rewrite H. auto. Qed.

(** Inside a quoted field every character but the quote is added to the field, line ends included. *)
Lemma read_quoted (r : Reader) (c : ascii) (T : string) :
  st r = IN_QUOTED_FIELD -> Ascii.eqb c quotechar = false ->
  reader_rows r (lines (String c T))
  = rbind (parse_add_char r c) (fun r' => reader_rows r' (lines T)).
Proof.
  intros Hs Hc.
  assert (LFcase : forall r0 T0, st r0 = IN_QUOTED_FIELD ->
            reader_rows r0 (lines (String LF T0))
            = rbind (parse_add_char r0 LF) (fun r' => reader_rows r' (lines T0))).
  { intros r0 T0 H0. simpl lines. simpl reader_rows.
    rewrite (quoted_char r0 LF H0 eq_refl).
    destruct (parse_add_char r0 LF) as [r1|e] eqn:E; [|reflexivity]. simpl.
    destruct (quoted_eol r1 (add_char_quoted _ _ _ H0 E)) as [P Q].
    rewrite P. simpl. rewrite Q. reflexivity. }
  destruct (Ascii.eqb c LF) eqn:ELF.
  { apply Ascii.eqb_eq in ELF. subst c. apply LFcase. exact Hs. }
  destruct (Ascii.eqb c CR) eqn:ECR.
  - apply Ascii.eqb_eq in ECR. subst c.
    assert (CRonly : forall L, reader_rows r (String CR "" :: L)
              = rbind (parse_add_char r CR) (fun r' => reader_rows r' L)).
    { intros L. simpl reader_rows. rewrite (quoted_char r CR Hs eq_refl).
      destruct (parse_add_char r CR) as [r1|e] eqn:E; [|reflexivity]. simpl.
      destruct (quoted_eol r1 (add_char_quoted _ _ _ Hs E)) as [P Q].
      rewrite P. simpl. rewrite Q. reflexivity. }
    destruct T as [|c2 T2].
    + simpl lines. apply CRonly.
    + destruct (Ascii.eqb c2 LF) eqn:E2.
      * apply Ascii.eqb_eq in E2. subst c2.
        change (lines (String CR (String LF T2)))
          with (String CR (String LF "") :: lines T2).
        destruct (parse_add_char r CR) as [r1|e] eqn:E.
        -- pose proof (add_char_quoted _ _ _ Hs E) as H1.
           cbn [rbind]. rewrite (LFcase r1 T2 H1).
           cbn [reader_rows feed]. rewrite (quoted_char r CR Hs eq_refl), E.
           cbn [rbind]. rewrite (quoted_char r1 LF H1 eq_refl).
           destruct (parse_add_char r1 LF) as [r2|e] eqn:E'; [|reflexivity].
           cbn [rbind].
           destruct (quoted_eol r2 (add_char_quoted _ _ _ H1 E')) as [P Q].
           rewrite P. cbn [rbind]. rewrite Q. reflexivity.
        -- cbn [reader_rows feed rbind].
           rewrite (quoted_char r CR Hs eq_refl), E. reflexivity.
      * change (lines (String CR (String c2 T2)))
          with (if Ascii.eqb c2 LF then String CR (String c2 "") :: lines T2
                else String CR "" :: lines (String c2 T2)).
        rewrite E2. apply CRonly.
  - simpl lines. rewrite ELF, ECR.
    destruct (lines T) as [|l ls]; simpl; rewrite (quoted_char r c Hs Hc);
      destruct (parse_add_char r c) as [r1|e] eqn:E; try reflexivity; simpl.
    destruct (quoted_eol r1 (add_char_quoted _ _ _ Hs E)) as [P Q].
    rewrite P. simpl. rewrite Q. reflexivity.
Qed.

(** *** Fields *)

Lemma string_app_assoc (a b c : string) :
  ((a ++ b) ++ c = a ++ (b ++ c))%string.
Proof. induction a as [|x a IH]; simpl; [reflexivity | rewrite IH; reflexivity]. Qed.

Lemma add_reading (s : state) (l : list ascii) (fs : list string) (c : ascii) :
  (N.of_nat (List.length l) < field_limit)%N ->
  parse_add_char (Spec.reading s l fs) c = Ok (Spec.reading s (l ++ [c]) fs).
Proof.
  intros H. unfold parse_add_char, Spec.reading. simpl.
  apply N.leb_gt in H. rewrite H. rewrite rev_unit, length_app. simpl.
  do 2 f_equal. lia.
Qed.

Lemma save_reading (s : state) (l : list ascii) (fs : list string) :
  parse_save_field (Spec.reading s l fs)
  = Spec.reading s [] (fs ++ [string_of_list_ascii l]).
Proof.
  unfold parse_save_field, Spec.reading. simpl. rewrite rev_involutive.
  reflexivity.
Qed.

Lemma not_special (c : ascii) :
  special c = false ->
  Ascii.eqb c delimiter = false /\ Ascii.eqb c quotechar = false
  /\ is_newline c = false.
Proof.
  unfold special, is_newline. intros H.
  destruct (Ascii.eqb c delimiter), (Ascii.eqb c quotechar),
    (Ascii.eqb c CR), (Ascii.eqb c LF); simpl in H; try discriminate; auto.
Qed.

Lemma read_quoted_body (f : string) :
  forall (l : list ascii) (fs : list string) (T : string),
    T <> ""%string ->
    (N.of_nat (List.length l + String.length f) <= field_limit)%N ->
    reader_rows (Spec.reading IN_QUOTED_FIELD l fs)
                (lines (double_quotes f ++ String quotechar T)%string)
    = reader_rows
        (Spec.reading QUOTE_IN_QUOTED_FIELD (l ++ list_ascii_of_string f) fs)
        (lines T).
Proof.
  induction f as [|c f IH]; intros l fs T HT Hfit.
  - simpl. rewrite (read_plain _ quotechar T eq_refl HT). rewrite app_nil_r.
    reflexivity.
  - simpl double_quotes. simpl String.length in Hfit.
    assert (Hroom : (N.of_nat (List.length l) < field_limit)%N) by lia.
    assert (Hnext : (N.of_nat (List.length (l ++ [c]) + String.length f)
                     <= field_limit)%N).
    { rewrite length_app. simpl. lia. }
    simpl list_ascii_of_string.
    replace (l ++ c :: list_ascii_of_string f)
      with ((l ++ [c]) ++ list_ascii_of_string f)
      by (rewrite <- app_assoc; reflexivity).
    destruct (Ascii.eqb c quotechar) eqn:E.
    + apply Ascii.eqb_eq in E. subst c.
      change (String quotechar (String quotechar (double_quotes f))
              ++ String quotechar T)%string
        with (String quotechar
                (String quotechar (double_quotes f ++ String quotechar T)))%string.
      rewrite (read_plain _ quotechar _ eq_refl) by discriminate.
      change (parse_process_char (Spec.reading IN_QUOTED_FIELD l fs)
                                 (Some quotechar))
        with (Ok (Spec.reading QUOTE_IN_QUOTED_FIELD l fs)).
      cbn [rbind].
      rewrite (read_plain _ quotechar _ eq_refl).
      * change (parse_process_char (Spec.reading QUOTE_IN_QUOTED_FIELD l fs)
                                   (Some quotechar))
          with (rbind (parse_add_char (Spec.reading QUOTE_IN_QUOTED_FIELD l fs)
                                      quotechar)
                      (fun r' => Ok (set_state IN_QUOTED_FIELD r'))).
        rewrite (add_reading _ _ _ _ Hroom). cbn [rbind].
        change (set_state IN_QUOTED_FIELD
                  (Spec.reading QUOTE_IN_QUOTED_FIELD (l ++ [quotechar]) fs))
          with (Spec.reading IN_QUOTED_FIELD (l ++ [quotechar]) fs).
        apply IH; assumption.
      * destruct (double_quotes f); discriminate.
    + change (String c (double_quotes f) ++ String quotechar T)%string
        with (String c (double_quotes f ++ String quotechar T))%string.
      rewrite (read_quoted (Spec.reading IN_QUOTED_FIELD l fs) c _ eq_refl E).
      rewrite (add_reading _ _ _ _ Hroom). cbn [rbind].
      apply IH; assumption.
Qed.

Lemma read_unquoted_tail (f : string) :
  forall (l : list ascii) (fs : list string) (T : string),
    T <> ""%string ->
    any_char special f = false ->
    (N.of_nat (List.length l + String.length f) <= field_limit)%N ->
    reader_rows (Spec.reading IN_FIELD l fs) (lines (f ++ T)%string)
    = reader_rows (Spec.reading IN_FIELD (l ++ list_ascii_of_string f) fs)
                  (lines T).
Proof.
  induction f as [|c f IH]; intros l fs T HT Hsp Hfit.
  - simpl. rewrite app_nil_r. reflexivity.
  - simpl in Hsp. apply orb_false_elim in Hsp. destruct Hsp as [Hc Hf].
    destruct (not_special c Hc) as (Hd & Hq & Hn).
    simpl String.length in Hfit.
    assert (Hroom : (N.of_nat (List.length l) < field_limit)%N) by lia.
    change (String c f ++ T)%string with (String c (f ++ T))%string.
    rewrite (read_plain _ c _ Hn) by (destruct f; [exact HT | discriminate]).
    assert (P : parse_process_char (Spec.reading IN_FIELD l fs) (Some c)
                = parse_add_char (Spec.reading IN_FIELD l fs) c).
    { unfold parse_process_char. simpl st. cbv iota. rewrite Hn, Hd.
      reflexivity. }
    rewrite P, (add_reading _ _ _ _ Hroom). cbn [rbind].
    simpl list_ascii_of_string.
    replace (l ++ c :: list_ascii_of_string f)
      with ((l ++ [c]) ++ list_ascii_of_string f)
      by (rewrite <- app_assoc; reflexivity).
    apply IH; [exact HT | exact Hf |].
    rewrite length_app. simpl. lia.
Qed.

Lemma after_field_delimiter (f : string) (fs : list string) (r : Reader) :
  Spec.after_field f fs r ->
  parse_process_char r (Some delimiter)
  = Ok (Spec.reading START_FIELD [] (fs ++ [f])).
Proof.
  intros [[-> ->]|[->| ->]]; unfold parse_process_char; simpl st; cbv iota.
  - reflexivity.
  - change (is_newline delimiter) with false.
    change (Ascii.eqb delimiter delimiter) with true. cbv iota.
    rewrite save_reading, string_of_list_ascii_of_string. reflexivity.
  - change (Ascii.eqb delimiter quotechar) with false.
    change (Ascii.eqb delimiter delimiter) with true. cbv iota.
    rewrite save_reading, string_of_list_ascii_of_string. reflexivity.
Qed.

Lemma after_field_newline (f : string) (fs : list string) (r : Reader) :
  Spec.after_field f fs r ->
  parse_process_char r (Some CR)
  = Ok (Spec.reading EAT_CRNL [] (fs ++ [f])).
Proof.
  intros [[-> ->]|[->| ->]]; unfold parse_process_char; simpl st; cbv iota.
  - reflexivity.
  - change (is_newline CR) with true. cbv iota.
    rewrite save_reading, string_of_list_ascii_of_string. reflexivity.
  - change (Ascii.eqb CR quotechar) with false.
    change (Ascii.eqb CR delimiter) with false.
    change (is_newline CR) with true. cbv iota.
    rewrite save_reading, string_of_list_ascii_of_string. reflexivity.
Qed.

Lemma read_field (f : string) (fs : list string) (T : string) :
  T <> ""%string -> Spec.fits f ->
  exists r,
    Spec.after_field f fs r
    /\ reader_rows (Spec.reading START_FIELD [] fs)
                   (lines (write_field f ++ T)%string)
       = reader_rows r (lines T).
Proof.
  intros HT Hfit. unfold Spec.fits in Hfit. unfold write_field.
  destruct (any_char special f) eqn:Hsp.
  - exists (Spec.reading QUOTE_IN_QUOTED_FIELD (list_ascii_of_string f) fs).
    split; [right; right; reflexivity|].
    change (String quotechar (double_quotes f ++ String quotechar "") ++ T)%string
      with (String quotechar ((double_quotes f ++ String quotechar "") ++ T))%string.
    rewrite string_app_assoc.
    change (String quotechar "" ++ T)%string with (String quotechar T).
    rewrite (read_plain _ quotechar _ eq_refl)
      by (destruct (double_quotes f); discriminate).
    change (parse_process_char (Spec.reading START_FIELD [] fs) (Some quotechar))
      with (Ok (Spec.reading IN_QUOTED_FIELD [] fs)).
    cbn [rbind]. rewrite (read_quoted_body f [] fs T HT Hfit). reflexivity.
  - destruct f as [|c f].
    + exists (Spec.reading START_FIELD [] fs). split; [left; auto | reflexivity].
    + exists (Spec.reading IN_FIELD (list_ascii_of_string (String c f)) fs).
      split; [right; left; reflexivity|].
      simpl in Hsp. apply orb_false_elim in Hsp. destruct Hsp as [Hc Hf].
      destruct (not_special c Hc) as (Hd & Hq & Hn).
      simpl String.length in Hfit.
      change (String c f ++ T)%string with (String c (f ++ T))%string.
      rewrite (read_plain _ c _ Hn) by (destruct f; [exact HT | discriminate]).
      assert (P : parse_process_char (Spec.reading START_FIELD [] fs) (Some c)
                  = rbind (parse_add_char (Spec.reading START_FIELD [] fs) c)
                          (fun r' => Ok (set_state IN_FIELD r'))).
      { unfold parse_process_char, start_field. simpl st. cbv iota.
        rewrite Hn, Hq, Hd. reflexivity. }
      rewrite P, add_reading by (simpl; unfold field_limit; lia).
      cbn [rbind].
      change (set_state IN_FIELD (Spec.reading START_FIELD ([] ++ [c]) fs))
        with (Spec.reading IN_FIELD [c] fs).
      rewrite (read_unquoted_tail f [c] fs T HT Hf).
      * reflexivity.
      * simpl List.length. lia.
Qed.

(** *** Records *)

Lemma read_line_end (r : Reader) (fs : list string) (T : string) :
  parse_process_char r (Some CR) = Ok (Spec.reading EAT_CRNL [] fs) ->
  reader_rows r (lines (String CR (String LF T)))
  = rbind (reader_rows parse_reset (lines T)) (fun rows => Ok (fs :: rows)).
Proof.
  intros H.
  change (lines (String CR (String LF T)))
    with (String CR (String LF "") :: lines T).
  cbn [reader_rows feed]. rewrite H. reflexivity.
Qed.

Lemma read_record (fs : list string) :
  forall (done : list string) (T : string),
    fs <> [] ->
    (forall f, In f fs -> Spec.fits f) ->
    reader_rows (Spec.reading START_FIELD [] done)
                (lines (join_fields fs ++ String CR (String LF T))%string)
    = rbind (reader_rows parse_reset (lines T))
            (fun rows => Ok ((done ++ fs) :: rows)).
Proof.
  induction fs as [|f fs IH]; intros done T Hne Hfit; [congruence|].
  destruct fs as [|f2 fs].
  - simpl join_fields.
    destruct (read_field f done (String CR (String LF T)))
      as (r & Hr & ->); [discriminate | apply Hfit; left; reflexivity|].
    apply read_line_end. apply after_field_newline. exact Hr.
  - change (join_fields (f :: f2 :: fs))
      with (write_field f ++ String delimiter (join_fields (f2 :: fs)))%string.
    rewrite string_app_assoc.
    destruct (read_field f done
                (String delimiter (join_fields (f2 :: fs))
                 ++ String CR (String LF T))%string)
      as (r & Hr & ->); [discriminate | apply Hfit; left; reflexivity|].
    change (String delimiter (join_fields (f2 :: fs))
            ++ String CR (String LF T))%string
      with (String delimiter
              (join_fields (f2 :: fs) ++ String CR (String LF T)))%string.
    rewrite (read_plain _ delimiter _ eq_refl)
      by (destruct (join_fields (f2 :: fs)); discriminate).
    rewrite (after_field_delimiter f done r Hr). cbn [rbind].
    rewrite IH; [|discriminate | intros g Hg; apply Hfit; right; exact Hg].
    rewrite <- app_assoc. reflexivity.
Qed.

Lemma join_fields_first (fs : list string) (c : ascii) (body : string) :
  join_fields fs = String c body -> is_newline c = false.
Proof.
  destruct fs as [|f fs]; [discriminate|].
  assert (W : forall rest, (write_field f ++ rest)%string = String c body ->
                           (f = ""%string /\ rest = String c body)
                           \/ is_newline c = false).
  { intros rest. unfold write_field. destruct (any_char special f) eqn:Hsp.
    - simpl. intros H. inversion H. right. reflexivity.
    - destruct f as [|a f]; [left; auto|].
      simpl. intros H. inversion H; subst. right.
      simpl in Hsp. apply orb_false_elim in Hsp.
      apply (not_special c (proj1 Hsp)). }
  destruct fs as [|f2 fs].
  - simpl. intros H. destruct (W ""%string) as [[_ X]|X].
    + rewrite <- H. clear. induction (write_field f); simpl; congruence.
    + discriminate.
    + exact X.
  - change (join_fields (f :: f2 :: fs))
      with (write_field f ++ String delimiter (join_fields (f2 :: fs)))%string.
    intros H. destruct (W _ H) as [[_ X]|X]; [|exact X].
    inversion X. reflexivity.
Qed.

Lemma join_fields_empty (fs : list string) :
  fs <> [] -> join_fields fs = ""%string -> fs = [""%string].
Proof.
  destruct fs as [|f fs]; [congruence|]. intros _.
  destruct fs as [|f2 fs].
  - simpl. unfold write_field. destruct (any_char special f); [discriminate|].
    intros ->. reflexivity.
  - change (join_fields (f :: f2 :: fs))
      with (write_field f ++ String delimiter (join_fields (f2 :: fs)))%string.
    destruct (write_field f); discriminate.
Qed.

Lemma read_writerow (fs : list string) (T : string) :
  (forall f, In f fs -> Spec.fits f) ->
  reader_rows parse_reset (lines (writerow fs ++ T)%string)
  = rbind (reader_rows parse_reset (lines T)) (fun rows => Ok (fs :: rows)).
Proof.
  intros Hfit. unfold writerow.
  destruct fs as [|f0 fs0] eqn:Efs.
  - simpl. reflexivity.
  - rewrite <- Efs in *. assert (Hne : fs <> []) by (rewrite Efs; discriminate).
    replace (is_empty fs) with false by (rewrite Efs; reflexivity).
    cbn [negb andb].
    destruct (join_fields fs) as [|c body] eqn:Ej.
    + rewrite (join_fields_empty fs Hne Ej). reflexivity.
    + cbn [PyStr.truthy negb]. rewrite <- Ej, string_app_assoc.
      change (String CR (String LF "") ++ T)%string
        with (String CR (String LF T)).
      rewrite Ej.
      change (String c body ++ String CR (String LF T))%string
        with (String c (body ++ String CR (String LF T)))%string.
      unfold parse_reset.
      rewrite (read_first [] 0%N [] c _ (join_fields_first fs c body Ej)).
      change (String c (body ++ String CR (String LF T)))%string
        with (String c body ++ String CR (String LF T))%string.
      rewrite <- Ej.
      change (mkReader START_FIELD [] 0%N []) with (Spec.reading START_FIELD [] []).
      rewrite (read_record fs [] T Hne Hfit). reflexivity.
Qed.

(** Reading back what the writer wrote. *)
Lemma read_written (rows : list (list string)) :
  (forall fs f, In fs rows -> In f fs -> Spec.fits f) ->
  reader_rows parse_reset (lines (concat_lines (map writerow rows))) = Ok rows.
Proof.
  induction rows as [|fs rows IH]; intros Hfit; [reflexivity|].
  simpl map. simpl concat_lines.
  rewrite read_writerow by (intros f Hf; apply (Hfit fs f); [left; reflexivity | exact Hf]).
  rewrite IH; [reflexivity|].
  intros gs g Hgs Hg. apply (Hfit gs g); [right; exact Hgs | exact Hg].
Qed.

End CsvRoundTrip.

(** ** Saving, then loading *)

Lemma rows_of_dicts (ts : list Task) :
  rmapM (Csv.dict_to_list FIELDNAMES) (map Csv.task_dict ts)
  = Ok (map Spec.task_row ts).
Proof.
  induction ts as [|t ts IH]; [reflexivity|].
  simpl map. cbn [rmapM].
  change (Csv.dict_to_list FIELDNAMES (Csv.task_dict t))
    with (Ok (Spec.task_row t)).
  cbn [rbind]. rewrite IH. reflexivity.
Qed.

Lemma dicts_of_rows (ts : list Task) :
  Csv.dict_rows (FIELDNAMES :: map Spec.task_row ts) = map Csv.task_dict ts.
Proof.
  unfold Csv.dict_rows.
  induction ts as [|t ts IH]; [reflexivity|].
  simpl map at 2. cbn [filter Spec.task_row is_empty negb].
  simpl map at 1. rewrite IH. reflexivity.
Qed.

Lemma fieldnames_fit (f : string) : In f FIELDNAMES -> Spec.fits f.
Proof.
  unfold FIELDNAMES, Spec.fits, Csv.field_limit.
  simpl. intros H.
  repeat (destruct H as [<-|H]; [simpl; lia|]). destruct H.
Qed.

(** The claim of C7 as it is written fails on a task whose notes are one
    character longer than the reader's field limit: the file is written,
    and reading it back raises [csv.Error]. *)
Lemma long_field_is_not_loaded :
  Csv.save_then_load [Sample.long_task]
  = Err (CsvError "field larger than field limit (131072)")
  /\ Csv.save_then_load [Sample.long_task]
     <> Ok (map Csv.task_dict [Sample.long_task]).
Proof.
  assert (H : Csv.save_then_load [Sample.long_task]
              = Err (CsvError "field larger than field limit (131072)")).
  { vm_compute. reflexivity. }
  split; [exact H|]. rewrite H. discriminate.
Qed.

(** C7, amended. For every collection of tasks in which no field is longer
    than the reader's field limit of 131072 characters, saving it and then
    loading the file yields the same collection: every task with its ten
    fields, in the same order. *)
Theorem save_load_round_trip (ts : list Task) :
  Spec.all_fit ts ->
  Csv.save_then_load ts = Ok (map Csv.task_dict ts).
Proof.
  intros Hfit. unfold Csv.save_then_load, Csv.write_tasks_text.
  rewrite rows_of_dicts. cbn [rbind]. unfold Csv.read_tasks_text.
  rewrite read_written.
  - cbn [rbind]. rewrite dicts_of_rows. reflexivity.
  - intros fs f [<-|Hfs] Hf; [apply fieldnames_fit; exact Hf|].
    apply in_map_iff in Hfs. destruct Hfs as (t & <- & Ht).
    apply (Hfit t f Ht Hf).
Qed.

Lemma save_load_round_trip_witness :
  let ts := [Sample.t1; Sample.t2; Sample.t3] in
  Spec.all_fit ts /\ Csv.save_then_load ts = Ok (map Csv.task_dict ts).
Proof.
  intros ts.
  assert (Hfit : Spec.all_fit ts).
  { intros t f Ht Hf. unfold Spec.fits, Csv.field_limit.
    simpl in Ht.
    repeat (destruct Ht as [<-|Ht];
            [simpl in Hf;
             repeat (destruct Hf as [<-|Hf]; [simpl; lia|]); destruct Hf|]).
    destruct Ht. }
  split; [exact Hfit | exact (save_load_round_trip ts Hfit)].
Defined.

(* ================================================================== *)
(** ** [parse_date]: the texts it takes for dates *)

Section ParseDate.
Import Date.

Lemma in_all_ascii (a : ascii) : In a Spec.all_ascii.
Proof.
  unfold Spec.all_ascii. rewrite <- (ascii_nat_embedding a).
  apply in_map. apply in_seq. pose proof (nat_ascii_bounded a). lia.
Qed.

Lemma string_app_nil_r (s : string) : (s ++ "")%string = s.
Proof. induction s as [|c s IH]; simpl; [reflexivity | rewrite IH; reflexivity]. Qed.

Lemma in_rmatch_cls (p : ascii -> bool) (s : string) (f : found) :
  In f (rmatch (Cls p) s) ->
  exists a, p a = true /\ s = String a (rest f)
            /\ matched f = String a "" /\ groups f = [].
Proof.
  simpl. destruct s as [|a s]; [intros []|].
  destruct (p a) eqn:E; [|intros []].
  intros [<-|[]]. exists a. simpl. auto.
Qed.

Lemma in_rmatch_lit (c : ascii) (s : string) (f : found) :
  In f (rmatch (Lit c) s) ->
  s = String c (rest f) /\ matched f = String c "" /\ groups f = [].
Proof.
  simpl. destruct s as [|a s]; [intros []|].
  destruct (Ascii.eqb a c) eqn:E; [|intros []].
  apply Ascii.eqb_eq in E. subst a.
  intros [<-|[]]. simpl. auto.
Qed.

Lemma in_rmatch_cat (r1 r2 : regex) (s : string) (f : found) :
  In f (rmatch (Cat r1 r2) s) ->
  exists f1 f2,
    In f1 (rmatch r1 s) /\ In f2 (rmatch r2 (rest f1))
    /\ matched f = (matched f1 ++ matched f2)%string
    /\ groups f = groups f1 ++ groups f2 /\ rest f = rest f2.
Proof.
  simpl. intros H. apply in_flat_map in H. destruct H as (f1 & H1 & H).
  apply in_map_iff in H. destruct H as (f2 & <- & H2).
  exists f1, f2. simpl. auto.
Qed.

Lemma in_rmatch_group (name : string) (r : regex) (s : string) (f : found) :
  In f (rmatch (Group name r) s) ->
  exists f1,
    In f1 (rmatch r s) /\ matched f = matched f1
    /\ groups f = (name, matched f1) :: groups f1 /\ rest f = rest f1.
Proof.
  simpl. intros H. apply in_map_iff in H. destruct H as (f1 & <- & H1).
  exists f1. simpl. auto.
Qed.

(** What the matcher finds is a text of the pattern, and the input is that text and the rest. *)
Lemma rmatch_language (r : regex) :
  forall (s : string) (f : found),
    In f (rmatch r s) ->
    In (matched f, groups f) (Spec.language r)
    /\ s = (matched f ++ rest f)%string.
Proof.
  induction r as [c|p|r1 IH1 r2 IH2|r1 IH1 r2 IH2|name r1 IH1]; intros s f H.
  - destruct (in_rmatch_lit c s f H) as (Hs & Hm & Hg).
    rewrite Hm, Hg. split; [left; reflexivity | exact Hs].
  - destruct (in_rmatch_cls p s f H) as (a & Hp & Hs & Hm & Hg).
    rewrite Hm, Hg. split; [|exact Hs].
    cbn [Spec.language]. apply in_map_iff. exists a. split; [reflexivity|].
    apply filter_In. split; [apply in_all_ascii | exact Hp].
  - destruct (in_rmatch_cat r1 r2 s f H) as (f1 & f2 & H1 & H2 & Hm & Hg & Hr).
    destruct (IH1 _ _ H1) as [L1 S1]. destruct (IH2 _ _ H2) as [L2 S2].
    split.
    + cbn [Spec.language]. apply in_flat_map. exists (matched f1, groups f1).
      split; [exact L1|]. apply in_map_iff.
      exists (matched f2, groups f2). cbn [fst snd]. rewrite Hm, Hg. auto.
    + rewrite Hm, Hr, S1, S2 at 1.
      clear. induction (matched f1) as [|c m IH]; simpl; [reflexivity|].
      rewrite IH. reflexivity.
  - cbn [rmatch] in H. apply in_app_or in H. cbn [Spec.language].
    destruct H as [H|H].
    + destruct (IH1 _ _ H) as [L S]. split; [apply in_or_app; left; exact L | exact S].
    + destruct (IH2 _ _ H) as [L S]. split; [apply in_or_app; right; exact L | exact S].
  - destruct (in_rmatch_group name r1 s f H) as (f1 & H1 & Hm & Hg & Hr).
    destruct (IH1 _ _ H1) as [L S]. split.
    + cbn [Spec.language]. apply in_map_iff. exists (matched f1, groups f1).
      cbn [fst snd]. rewrite Hm, Hg. auto.
    + rewrite Hm, Hr. exact S.
Qed.

(** *** The year *)

Lemma in_rmatch_year (s : string) (f : found) :
  In f (rmatch re_Y s) ->
  exists a b c e,
    PyStr.is_decimal a = true /\ PyStr.is_decimal b = true
    /\ PyStr.is_decimal c = true /\ PyStr.is_decimal e = true
    /\ matched f = String a (String b (String c (String e "")))
    /\ groups f = [("Y"%string, matched f)]
    /\ s = (matched f ++ rest f)%string.
Proof.
  intros H. unfold re_Y in H.
  destruct (in_rmatch_group _ _ _ _ H) as (f0 & H0 & Hm & Hg & Hr).
  destruct (in_rmatch_cat _ _ _ _ H0) as (fa & f1 & Ha & H1 & Hm1 & Hg1 & Hr1).
  destruct (in_rmatch_cat _ _ _ _ H1) as (fb & f2 & Hb & H2 & Hm2 & Hg2 & Hr2).
  destruct (in_rmatch_cat _ _ _ _ H2) as (fc & fe & Hc & He & Hm3 & Hg3 & Hr3).
  destruct (in_rmatch_cls _ _ _ Ha) as (a & Pa & Sa & Ma & Ga).
  destruct (in_rmatch_cls _ _ _ Hb) as (b & Pb & Sb & Mb & Gb).
  destruct (in_rmatch_cls _ _ _ Hc) as (c & Pc & Sc & Mc & Gc).
  destruct (in_rmatch_cls _ _ _ He) as (e & Pe & Se & Me & Ge).
  exists a, b, c, e.
  assert (M0 : matched f0 = String a (String b (String c (String e "")))).
  { rewrite Hm1, Hm2, Hm3, Ma, Mb, Mc, Me. reflexivity. }
  assert (G0 : groups f0 = []).
  { rewrite Hg1, Hg2, Hg3, Ga, Gb, Gc, Ge. reflexivity. }
  repeat split; try assumption.
  - rewrite Hm. exact M0.
  - rewrite Hg, G0, Hm. reflexivity.
  - rewrite Hm, M0, Hr, Hr1, Hr2, Hr3, Sa, Sb, Sc, Se. reflexivity.
Qed.

Lemma decimal_char (a : ascii) :
  PyStr.is_decimal a = true ->
  In a ["0"; "1"; "2"; "3"; "4"; "5"; "6"; "7"; "8"; "9"]%char.
Proof.
  destruct a as [[] [] [] [] [] [] [] []]; vm_compute; intros H;
    try discriminate H; auto 12.
Qed.

Lemma int_digits_decimal (c : ascii) (s : string) (acc : Z) (b : bool) :
  PyStr.is_decimal c = true ->
  PyStr.int_digits (String c s) acc b
  = PyStr.int_digits s (10 * acc + PyStr.digit_value c) true.
Proof. intros H. simpl. rewrite H. reflexivity. Qed.

Lemma decimal_not_space (a : ascii) :
  PyStr.is_decimal a = true -> PyStr.int_space a = false.
Proof.
  intros H. pose proof (decimal_char a H) as I. simpl in I.
  repeat (destruct I as [<-|I]; [reflexivity|]). contradiction.
Qed.

Lemma rstrip_by_none (p : ascii -> bool) (s : string) :
  PyStr.all_chars (fun c => negb (p c)) s = true -> PyStr.rstrip_by p s = s.
Proof.
  induction s as [|c s IH]; simpl; [reflexivity|].
  intros H. apply andb_true_iff in H. destruct H as [Hc Hs].
  rewrite (IH Hs). destruct s; [|reflexivity].
  apply negb_true_iff in Hc. rewrite Hc. reflexivity.
Qed.

(** [int()] of four digits. *)
Lemma py_int_four (a b c e : ascii) :
  PyStr.is_decimal a = true -> PyStr.is_decimal b = true ->
  PyStr.is_decimal c = true -> PyStr.is_decimal e = true ->
  PyStr.py_int (String a (String b (String c (String e ""))))
  = Some (1000 * PyStr.digit_value a + 100 * PyStr.digit_value b
          + 10 * PyStr.digit_value c + PyStr.digit_value e).
Proof.
  intros Ha Hb Hc He. unfold PyStr.py_int.
  assert (L : PyStr.lstrip_by PyStr.int_space
                (String a (String b (String c (String e ""))))
              = String a (String b (String c (String e "")))).
  { simpl. rewrite (decimal_not_space a Ha). reflexivity. }
  rewrite L. rewrite rstrip_by_none.
  - assert (D : PyStr.int_digits (String a (String b (String c (String e ""))))
                                 0 false
                = Some (1000 * PyStr.digit_value a + 100 * PyStr.digit_value b
                        + 10 * PyStr.digit_value c + PyStr.digit_value e)).
    { rewrite !int_digits_decimal by assumption. cbn [PyStr.int_digits].
      f_equal. lia. }
    pose proof (decimal_char a Ha) as I. simpl in I.
    repeat (destruct I as [<-|I]; [exact D|]). contradiction.
  - simpl. rewrite !decimal_not_space by assumption. reflexivity.
Qed.

Lemma rmatch_year (a b c e : ascii) (t : string) :
  PyStr.is_decimal a = true -> PyStr.is_decimal b = true ->
  PyStr.is_decimal c = true -> PyStr.is_decimal e = true ->
  rmatch re_Y (String a (String b (String c (String e t))))
  = [mkfound (String a (String b (String c (String e ""))))
             [("Y"%string, String a (String b (String c (String e ""))))] t].
Proof.
  intros Ha Hb Hc He. unfold re_Y. cbn [rmatch].
  rewrite Ha. cbn [flat_map rest map app]. rewrite Hb.
  cbn [flat_map rest map app]. rewrite Hc. cbn [flat_map rest map app].
  rewrite He. reflexivity.
Qed.

(** *** Month and day *)

Lemma tail_language_ok :
  forallb Spec.tail_ok (Spec.language re_tail) = true.
Proof. vm_compute. reflexivity. Qed.

Lemma tails_found :
  forallb (fun Mm => forallb (Spec.tail_found Mm) Spec.day_table)
          Spec.month_table = true.
Proof. vm_compute. reflexivity. Qed.

Lemma is_some_eq (o : option Z) (z : Z) : Spec.is_some o z = true -> o = Some z.
Proof.
  unfold Spec.is_some. destruct o as [v|]; [|discriminate].
  intros H. apply Z.eqb_eq in H. subst. reflexivity.
Qed.

Lemma in_table_sound (table : list (string * Z)) (s : string) :
  Spec.in_table table s = true ->
  exists v, PyStr.py_int s = Some v /\ In (s, v) table.
Proof.
  unfold Spec.in_table. destruct (PyStr.py_int s) as [v|]; [|discriminate].
  intros H. apply existsb_exists in H. destruct H as ([s' v'] & Hin & H).
  simpl in H. apply andb_true_iff in H. destruct H as [Hs Hv].
  apply String.eqb_eq in Hs. apply Z.eqb_eq in Hv. subst.
  exists v. auto.
Qed.

(** What the tail pattern finds holds a month and a day of the tables. *)
Lemma tail_sound (t : string) (f : found) :
  In f (rmatch re_tail t) ->
  exists M m D d,
    In (M, m) Spec.month_table /\ In (D, d) Spec.day_table
    /\ matched f = ("-" ++ M ++ "-" ++ D)%string
    /\ group "m" (groups f) = M /\ group "d" (groups f) = D
    /\ PyStr.py_int M = Some m /\ PyStr.py_int D = Some d
    /\ t = (matched f ++ rest f)%string.
Proof.
  intros H. destruct (rmatch_language re_tail t f H) as [L S].
  pose proof (proj1 (forallb_forall _ _) tail_language_ok _ L) as K.
  unfold Spec.tail_ok in K. cbn [fst snd] in K.
  apply andb_true_iff in K. destruct K as [K KD].
  apply andb_true_iff in K. destruct K as [Kt KM].
  apply String.eqb_eq in Kt.
  destruct (in_table_sound _ _ KM) as (m & Pm & Im).
  destruct (in_table_sound _ _ KD) as (d & Pd & Id).
  exists (group "m" (groups f)), m, (group "d" (groups f)), d.
  repeat split; assumption.
Qed.

(** The tail written from the tables is found whole. *)
Lemma tail_complete (M D : string) (m d : Z) :
  In (M, m) Spec.month_table -> In (D, d) Spec.day_table ->
  exists f l,
    rmatch re_tail ("-" ++ M ++ "-" ++ D)%string = f :: l
    /\ rest f = ""%string
    /\ group "m" (groups f) = M /\ group "d" (groups f) = D
    /\ PyStr.py_int M = Some m /\ PyStr.py_int D = Some d.
Proof.
  intros Hm Hd.
  pose proof (proj1 (forallb_forall _ _) tails_found _ Hm) as K.
  cbv beta in K.
  pose proof (proj1 (forallb_forall _ _) K _ Hd) as K'.
  unfold Spec.tail_found in K'. cbn [fst snd] in K'.
  destruct (rmatch re_tail ("-" ++ M ++ "-" ++ D)%string) as [|f l];
    [discriminate|].
  exists f, l. split; [reflexivity|].
  apply andb_true_iff in K'. destruct K' as [Kr Kt].
  unfold Spec.tail_is in Kt. cbn [fst snd] in Kt.
  repeat (apply andb_true_iff in Kt; destruct Kt as [Kt ?]).
  repeat match goal with
         | H : String.eqb _ _ = true |- _ => apply String.eqb_eq in H
         | H : Spec.is_some _ _ = true |- _ => apply is_some_eq in H
         end.
  destruct (rest f); [|discriminate]. auto 10.
Qed.

(** *** [strptime] and the texts of dates *)

Lemma strptime_sound (s : string) (d : date) :
  strptime_ymd s = Ok d -> Spec.date_text s d.
Proof.
  unfold strptime_ymd.
  destruct (rmatch re_ymd s) as [|f l] eqn:E; [discriminate|].
  destruct (PyStr.truthy (rest f)) eqn:R; [discriminate|].
  assert (Hr : rest f = ""%string) by (destruct (rest f); [reflexivity | discriminate]).
  assert (Hin : In f (rmatch (Cat re_Y re_tail) s)).
  { change (Cat re_Y re_tail) with re_ymd. rewrite E. left. reflexivity. }
  destruct (in_rmatch_cat _ _ _ _ Hin) as (f1 & f2 & H1 & H2 & Hm & Hg & Hrest).
  destruct (in_rmatch_year _ _ H1)
    as (a & b & c & e & Ha & Hb & Hc & He & M1 & G1 & S1).
  destruct (tail_sound _ _ H2)
    as (M & m & D & dd & IM & ID & M2 & GM & GD & PM & PD & S2).
  rewrite Hg, G1, M1.
  unfold int_group.
  change (group "Y" ([("Y"%string, String a (String b (String c (String e ""))))]
                     ++ groups f2))
    with (String a (String b (String c (String e "")))).
  change (group "m" ([("Y"%string, String a (String b (String c (String e ""))))]
                     ++ groups f2))
    with (group "m" (groups f2)).
  change (group "d" ([("Y"%string, String a (String b (String c (String e ""))))]
                     ++ groups f2))
    with (group "d" (groups f2)).
  rewrite (py_int_four a b c e Ha Hb Hc He), GM, GD, PM, PD.
  cbn [rbind]. unfold make.
  destruct (valid _ m dd) eqn:V; [|discriminate].
  intros X. inversion X; subst d; clear X.
  exists (String a (String b (String c (String e "")))), M, D.
  cbn [year month day].
  split; [|split; [|split; [|split]]]; try assumption.
  - rewrite S1, S2, <- Hrest, Hr, M1, M2, string_app_nil_r. reflexivity.
  - exists a, b, c, e. auto 10.
Qed.

Lemma strptime_complete (s : string) (d : date) :
  Spec.date_text s d -> strptime_ymd s = Ok d.
Proof.
  intros (Y & M & D & -> & (a & b & c & e & -> & Ha & Hb & Hc & He & Hy)
          & IM & ID & V).
  destruct (tail_complete M D (month d) (day d) IM ID)
    as (f & l & E & Hr & GM & GD & PM & PD).
  unfold strptime_ymd.
  change (rmatch re_ymd
            (String a (String b (String c (String e "")))
             ++ "-" ++ M ++ "-" ++ D)%string)
    with (flat_map
            (fun f1 =>
               map (fun f2 => mkfound (matched f1 ++ matched f2)
                                      (groups f1 ++ groups f2) (rest f2))
                   (rmatch re_tail (rest f1)))
            (rmatch re_Y (String a (String b (String c (String e
                            ("-" ++ M ++ "-" ++ D)%string)))))).
  rewrite (rmatch_year a b c e _ Ha Hb Hc He).
  cbn [flat_map rest matched groups app]. rewrite E.
  cbn [map app rest]. rewrite Hr. cbn [PyStr.truthy groups].
  unfold int_group.
  change (group "Y" (("Y"%string, String a (String b (String c (String e ""))))
                     :: groups f))
    with (String a (String b (String c (String e "")))).
  change (group "m" (("Y"%string, String a (String b (String c (String e ""))))
                     :: groups f))
    with (group "m" (groups f)).
  change (group "d" (("Y"%string, String a (String b (String c (String e ""))))
                     :: groups f))
    with (group "d" (groups f)).
  rewrite (py_int_four a b c e Ha Hb Hc He), GM, GD, PM, PD, <- Hy.
  cbn [rbind]. unfold make. rewrite V. destruct d; reflexivity.
Qed.

Lemma parse_date_some (s : string) (d : date) :
  parse_date s = Ok (Some d) <-> strptime_ymd s = Ok d.
Proof.
  unfold parse_date. split.
  - destruct (negb (PyStr.truthy s)); [discriminate|].
    destruct (strptime_ymd s) as [d'|[msg|msg]]; intros H; inversion H.
    reflexivity.
  - intros H. destruct s as [|c s]; [discriminate H|].
    cbn [PyStr.truthy negb]. rewrite H. reflexivity.
Qed.

(** C6, amended. [parse_date] never raises.  It returns a date exactly
    when the text is a year of four digits, a month and a day with [-] in
    between, the month 1 to 12 and the day 1 to 31 written plain or filled
    with a zero to two digits (the days 1 to 9 also after one blank), and
    the three name a day of the calendar; then it returns that date.  For
    every other text it returns absent, among them the empty text,
    "not-a-date" and "2024-02-30"; "2024-02-29" gives that leap day. *)
Theorem parse_date_accepts (s : string) :
  (exists r, parse_date s = Ok r)
  /\ (forall d, parse_date s = Ok (Some d) <-> Spec.date_text s d)
  /\ (parse_date s = Ok None <-> forall d, ~ Spec.date_text s d)
  /\ parse_date "" = Ok None
  /\ parse_date "not-a-date" = Ok None
  /\ parse_date "2024-02-30" = Ok None
  /\ parse_date "2024-02-29" = Ok (Some (mkdate 2024 2 29)).
Proof.
  assert (Hiff : forall d, parse_date s = Ok (Some d) <-> Spec.date_text s d).
  { intros d. rewrite parse_date_some. split.
    - apply strptime_sound.
    - apply strptime_complete. }
  split; [exists (Spec.parsed s); apply parse_date_total|].
  split; [exact Hiff|].
  split; [|repeat split].
  rewrite (parse_date_total s). split.
  - intros H d Hd. apply Hiff in Hd. rewrite (parse_date_total s) in Hd.
    congruence.
  - intros H. destruct (Spec.parsed s) as [d|] eqn:E; [|reflexivity].
    exfalso. apply (H d). apply Hiff. rewrite (parse_date_total s), E.
    reflexivity.
Qed.

(** The claim of C6 as it is written fails on "2024-2-9": the text is not
    of the shape YYYY-MM-DD, and [parse_date] returns the ninth of February
    2024. *)
Lemma lenient_month_is_parsed :
  Spec.is_yyyy_mm_dd "2024-2-9" = false
  /\ parse_date "2024-2-9" = Ok (Some (mkdate 2024 2 9)).
Proof. split; reflexivity. Qed.

End ParseDate.

(* ================================================================== *)
(** * Further properties of the code *)

(** ** The two copies of [next_id] *)

(** X1. The two copies of [next_id] differ in one case only: on a
    collection that is not empty and has no id made of digits the command
    line raises and the dashboard answers 1; everywhere else they return
    the same number or raise the same error. *)
Theorem next_id_copies_agree (ts : list Task) :
  let numeric := filter (fun t => PyStr.isdigit (task_id t)) ts in
  Cli.next_id ts
  = (if is_empty ts then Ok 1
     else if is_empty numeric
          then Err (ValueError "max() arg is an empty sequence")
          else App.next_id ts)
  /\ App.next_id ts = (if is_empty numeric then Ok 1 else Cli.next_id ts).
Proof.
  intros numeric. unfold Cli.next_id, App.next_id. fold numeric.
  destruct ts as [|t ts]; [split; reflexivity|].
  cbn [is_empty]. destruct numeric as [|u us] eqn:E.
  - split; reflexivity.
  - cbn [is_empty].
    destruct (rmapM (fun t0 => int_of_str (task_id t0)) (u :: us))
      as [ids|e] eqn:R; [|split; reflexivity].
    cbn [rbind]. destruct ids as [|i ids]; [|split; reflexivity].
    exfalso. cbn [rmapM] in R.
    destruct (int_of_str (task_id u)); [|discriminate].
    cbn [rbind] in R.
    destruct (rmapM (fun t0 => int_of_str (task_id t0)) us); discriminate.
Qed.

(** ** What [next_id] returns *)

Lemma rmapM_in {A B} (f : A -> result B) (l : list A) (ys : list B) (x : A) :
  rmapM f l = Ok ys -> In x l -> exists y, f x = Ok y /\ In y ys.
Proof.
  revert ys. induction l as [|a l IH]; intros ys H Hin; [destruct Hin|].
  cbn [rmapM] in H. destruct (f a) as [b|e] eqn:Fa; [|discriminate].
  cbn [rbind] in H. destruct (rmapM f l) as [bs|e] eqn:R; [|discriminate].
  cbn [rbind] in H. inversion H; subst ys. destruct Hin as [<-|Hin].
  - exists b. split; [exact Fa | left; reflexivity].
  - destruct (IH bs eq_refl Hin) as (y & Hy & Hyin).
    exists y. split; [exact Hy | right; exact Hyin].
Qed.

Lemma rmapM_out {A B} (f : A -> result B) (l : list A) (ys : list B) (y : B) :
  rmapM f l = Ok ys -> In y ys -> exists x, In x l /\ f x = Ok y.
Proof.
  revert ys. induction l as [|a l IH]; intros ys H Hin.
  - inversion H; subst. destruct Hin.
  - cbn [rmapM] in H. destruct (f a) as [b|e] eqn:Fa; [|discriminate].
    cbn [rbind] in H. destruct (rmapM f l) as [bs|e] eqn:R; [|discriminate].
    cbn [rbind] in H. inversion H; subst ys. destruct Hin as [<-|Hin].
    + exists a. split; [left; reflexivity | exact Fa].
    + destruct (IH bs eq_refl Hin) as (x & Hx & Hfx).
      exists x. split; [right; exact Hx | exact Hfx].
Qed.

Lemma fold_max_ge (l : list Z) (x : Z) :
  x <= fold_left Z.max l x /\ forall y, In y l -> y <= fold_left Z.max l x.
Proof.
  revert x. induction l as [|a l IH]; intros x; simpl.
  - split; [lia | intros y []].
  - destruct (IH (Z.max x a)) as [H1 H2]. split; [lia|].
    intros y [<-|Hy]; [lia | apply H2; exact Hy].
Qed.

Lemma fold_max_in (l : list Z) (x : Z) :
  fold_left Z.max l x = x \/ In (fold_left Z.max l x) l.
Proof.
  revert x. induction l as [|a l IH]; intros x; simpl; [left; reflexivity|].
  destruct (IH (Z.max x a)) as [H|H].
  - rewrite H. destruct (Z.max_spec x a) as [[_ ->]|[_ ->]]; auto.
  - right. right. exact H.
Qed.

Lemma py_max_spec (l : list Z) (m : Z) :
  py_max l = Ok m -> In m l /\ forall y, In y l -> y <= m.
Proof.
  destruct l as [|x l]; [discriminate|]. simpl. intros H. inversion H; subst m.
  destruct (fold_max_ge l x) as [H1 H2]. split.
  - destruct (fold_max_in l x) as [->|Hin]; [left; reflexivity | right; exact Hin].
  - intros y [<-|Hy]; [exact H1 | apply H2; exact Hy].
Qed.

(** ** [int()] and [str()] *)

Lemma all_chars_decimal_uint (d : Decimal.uint) :
  PyStr.all_chars PyStr.is_decimal (NilEmpty.string_of_uint d) = true.
Proof. induction d; simpl; auto. Qed.

(** The number a row of decimal digits stands for, after [acc]. *)
Lemma int_digits_uint (d : Decimal.uint) :
  forall (acc : positive) (b : bool),
    PyStr.int_digits (NilEmpty.string_of_uint d) (Z.pos acc) true
    = Some (Z.pos (Pos.of_uint_acc d acc)).
Proof.
  induction d; intros acc b; cbn [NilEmpty.string_of_uint Pos.of_uint_acc];
    try reflexivity;
    rewrite int_digits_decimal by reflexivity;
    match goal with
    | |- PyStr.int_digits _ (10 * Z.pos ?a + PyStr.digit_value ?c) true
         = Some (Z.pos (Pos.of_uint_acc _ ?q)) =>
        let v := eval vm_compute in (PyStr.digit_value c) in
        change (PyStr.digit_value c) with v;
        replace (10 * Z.pos a + v) with (Z.pos q) by lia
    end;
    apply IHd; exact true.
Qed.

Lemma int_digits_zeros_uint (d : Decimal.uint) (b : bool) :
  d <> Decimal.Nil \/ b = true ->
  PyStr.int_digits (NilEmpty.string_of_uint d) 0 b
  = Some (Z.of_N (Pos.of_uint d)).
Proof.
  revert b. induction d; intros b Hb;
    cbn [NilEmpty.string_of_uint Pos.of_uint].
  - destruct Hb as [Hb|Hb]; [congruence | subst b; reflexivity].
  - rewrite int_digits_decimal by reflexivity.
    change (10 * 0 + PyStr.digit_value "0") with 0.
    apply IHd. right. reflexivity.
  - rewrite int_digits_decimal by reflexivity.
    change (10 * 0 + PyStr.digit_value "1") with (Z.pos 1).
    rewrite (int_digits_uint d 1 true). reflexivity.
  - rewrite int_digits_decimal by reflexivity.
    change (10 * 0 + PyStr.digit_value "2") with (Z.pos 2).
    rewrite (int_digits_uint d 2 true). reflexivity.
  - rewrite int_digits_decimal by reflexivity.
    change (10 * 0 + PyStr.digit_value "3") with (Z.pos 3).
    rewrite (int_digits_uint d 3 true). reflexivity.
  - rewrite int_digits_decimal by reflexivity.
    change (10 * 0 + PyStr.digit_value "4") with (Z.pos 4).
    rewrite (int_digits_uint d 4 true). reflexivity.
  - rewrite int_digits_decimal by reflexivity.
    change (10 * 0 + PyStr.digit_value "5") with (Z.pos 5).
    rewrite (int_digits_uint d 5 true). reflexivity.
  - rewrite int_digits_decimal by reflexivity.
    change (10 * 0 + PyStr.digit_value "6") with (Z.pos 6).
    rewrite (int_digits_uint d 6 true). reflexivity.
  - rewrite int_digits_decimal by reflexivity.
    change (10 * 0 + PyStr.digit_value "7") with (Z.pos 7).
    rewrite (int_digits_uint d 7 true). reflexivity.
  - rewrite int_digits_decimal by reflexivity.
    change (10 * 0 + PyStr.digit_value "8") with (Z.pos 8).
    rewrite (int_digits_uint d 8 true). reflexivity.
  - rewrite int_digits_decimal by reflexivity.
    change (10 * 0 + PyStr.digit_value "9") with (Z.pos 9).
    rewrite (int_digits_uint d 9 true). reflexivity.
Qed.

Lemma all_chars_imp (p q : ascii -> bool) (s : string) :
  (forall c, p c = true -> q c = true) ->
  PyStr.all_chars p s = true -> PyStr.all_chars q s = true.
Proof.
  intros H. induction s as [|c s IH]; simpl; [reflexivity|].
  intros X. apply andb_true_iff in X. destruct X as [Hc Hs].
  rewrite (H c Hc), (IH Hs). reflexivity.
Qed.

(** [int()] of a row of decimal digits skips nothing and sees no sign. *)
Lemma py_int_decimal (c : ascii) (s : string) :
  PyStr.all_chars PyStr.is_decimal (String c s) = true ->
  PyStr.py_int (String c s) = PyStr.int_digits (String c s) 0 false.
Proof.
  intros H. unfold PyStr.py_int.
  pose proof H as H'. cbn [PyStr.all_chars] in H'.
  apply andb_true_iff in H'. destruct H' as [Hc Hs].
  assert (L : PyStr.lstrip_by PyStr.int_space (String c s) = String c s).
  { cbn [PyStr.lstrip_by]. rewrite (decimal_not_space c Hc). reflexivity. }
  rewrite L, rstrip_by_none.
  - pose proof (decimal_char c Hc) as I. simpl in I.
    repeat (destruct I as [<-|I]; [reflexivity|]). contradiction.
  - apply (all_chars_imp PyStr.is_decimal); [|exact H].
    intros a Ha. rewrite (decimal_not_space a Ha). reflexivity.
Qed.

Lemma str_of_int_pos (p : positive) :
  PyStr.str_of_int (Z.pos p) = NilEmpty.string_of_uint (Pos.to_uint p)
  /\ exists c s, PyStr.str_of_int (Z.pos p) = String c s.
Proof.
  unfold PyStr.str_of_int. cbn [Z.to_int NilZero.string_of_int].
  unfold NilZero.string_of_uint.
  pose proof (DecimalPos.Unsigned.to_uint_nonnil p) as Hn.
  destruct (Pos.to_uint p) eqn:E; try congruence;
    (split; [reflexivity | cbn [NilEmpty.string_of_uint]; eauto]).
Qed.

(** [str(n)] of a number that is not negative is made of decimal digits,
    and [int()] reads it back. *)
Lemma int_of_str_of_int (n : Z) :
  0 <= n ->
  PyStr.isdigit (PyStr.str_of_int n) = true
  /\ PyStr.all_chars PyStr.is_decimal (PyStr.str_of_int n) = true
  /\ PyStr.py_int (PyStr.str_of_int n) = Some n.
Proof.
  intros Hn. destruct n as [|p|p]; [repeat split | | lia].
  destruct (str_of_int_pos p) as [E (c & s & Ecs)].
  assert (D : PyStr.all_chars PyStr.is_decimal (PyStr.str_of_int (Z.pos p)) = true).
  { rewrite E. apply all_chars_decimal_uint. }
  split; [|split; [exact D|]].
  - unfold PyStr.isdigit. rewrite Ecs. rewrite <- Ecs.
    apply (all_chars_imp PyStr.is_decimal); [|exact D].
    intros a Ha. unfold PyStr.isdigit_char. rewrite Ha. reflexivity.
  - rewrite Ecs in D |- *. rewrite (py_int_decimal c s D). rewrite <- Ecs, E.
    rewrite int_digits_zeros_uint.
    + rewrite DecimalPos.Unsigned.of_to. reflexivity.
    + left. apply DecimalPos.Unsigned.to_uint_nonnil.
Qed.

Lemma int_digits_nonneg (s : string) :
  forall (acc : Z) (b : bool) (v : Z),
    0 <= acc -> PyStr.int_digits s acc b = Some v -> 0 <= v.
Proof.
  induction s as [|c s IH]; intros acc b v Hacc; cbn [PyStr.int_digits].
  - destruct b; [|discriminate]. intros H. inversion H. subst. exact Hacc.
  - destruct (PyStr.is_decimal c) eqn:Hc.
    + apply IH. unfold PyStr.is_decimal in Hc. unfold PyStr.digit_value.
      apply andb_true_iff in Hc. destruct Hc as [Hlo _].
      apply Z.leb_le in Hlo. lia.
    + destruct (Ascii.eqb c "_"); [|discriminate].
      destruct b; [|discriminate]. apply IH. exact Hacc.
Qed.

Lemma all_chars_lstrip (p q : ascii -> bool) (s : string) :
  PyStr.all_chars q s = true ->
  PyStr.all_chars q (PyStr.lstrip_by p s) = true.
Proof.
  induction s as [|c s IH]; [reflexivity|].
  intros H. cbn [PyStr.lstrip_by]. destruct (p c); [|exact H].
  apply IH. cbn [PyStr.all_chars] in H. apply andb_true_iff in H. apply H.
Qed.

Lemma all_chars_rstrip (p q : ascii -> bool) (s : string) :
  PyStr.all_chars q s = true ->
  PyStr.all_chars q (PyStr.rstrip_by p s) = true.
Proof.
  induction s as [|c s IH]; [reflexivity|].
  intros H. cbn [PyStr.all_chars] in H. apply andb_true_iff in H.
  destruct H as [Hc Hs]. specialize (IH Hs). cbn [PyStr.rstrip_by].
  destruct (PyStr.rstrip_by p s) as [|c' s'].
  - destruct (p c); [reflexivity|]. cbn [PyStr.all_chars]. rewrite Hc.
    reflexivity.
  - cbn [PyStr.all_chars] in IH |- *. rewrite Hc. exact IH.
Qed.

(** An id made of digits that [int()] accepts is not a negative number. *)
Lemma py_int_isdigit_nonneg (s : string) (v : Z) :
  PyStr.isdigit s = true -> PyStr.py_int s = Some v -> 0 <= v.
Proof.
  intros Hd. assert (Hall : PyStr.all_chars PyStr.isdigit_char s = true).
  { destruct s; [discriminate | exact Hd]. }
  unfold PyStr.py_int.
  pose proof (all_chars_rstrip PyStr.int_space _ _
                (all_chars_lstrip PyStr.int_space _ _ Hall)) as Hs.
  destruct (PyStr.rstrip_by PyStr.int_space (PyStr.lstrip_by PyStr.int_space s))
    as [|c body].
  - discriminate.
  - cbn [PyStr.all_chars] in Hs. apply andb_true_iff in Hs.
    destruct Hs as [Hc _].
    destruct c as [[] [] [] [] [] [] [] []]; try discriminate Hc;
      apply int_digits_nonneg; lia.
Qed.

Lemma cli_next_id_ok (ts : list Task) (n : Z) :
  Cli.next_id ts = Ok n -> App.next_id ts = Ok n.
Proof.
  unfold Cli.next_id, App.next_id. destruct (is_empty ts); [auto|].
  destruct (rmapM _ _) as [ids|e]; [|auto]. cbn [rbind].
  destruct ids as [|i ids]; [discriminate | auto].
Qed.

Lemma app_next_id_ok (ts : list Task) (n : Z) :
  App.next_id ts = Ok n ->
  n = 1 /\ (ts = [] \/ filter (fun t => PyStr.isdigit (task_id t)) ts = [])
  \/ exists ids m,
       rmapM (fun t => int_of_str (task_id t))
             (filter (fun t => PyStr.isdigit (task_id t)) ts) = Ok ids
       /\ py_max ids = Ok m /\ n = m + 1.
Proof.
  unfold App.next_id. destruct ts as [|t ts]; cbn [is_empty].
  - intros H. inversion H. left. auto.
  - destruct (rmapM _ _) as [ids|e] eqn:R; [|discriminate]. cbn [rbind].
    destruct ids as [|i ids]; cbn [is_empty].
    + intros H. inversion H. left. split; [reflexivity|]. right.
      destruct (filter _ (t :: ts)) as [|u us]; [reflexivity|].
      cbn [rmapM] in R. destruct (int_of_str (task_id u)); [|discriminate].
      cbn [rbind] in R. destruct (rmapM _ us); discriminate.
    + destruct (py_max (i :: ids)) as [m|e] eqn:Pm; [|discriminate].
      cbn [rbind]. intros H. inversion H. right. exists (i :: ids), m. auto.
Qed.

Lemma int_of_str_ok (s : string) (v : Z) :
  int_of_str s = Ok v <-> PyStr.py_int s = Some v.
Proof.
  unfold int_of_str. destruct (PyStr.py_int s); split; intros H;
    inversion H; reflexivity.
Qed.

(** What [next_id] returns, in full. *)
Lemma next_id_fresh_ids (ts : list Task) (n : Z) :
  Cli.next_id ts = Ok n \/ App.next_id ts = Ok n ->
  1 <= n
  /\ (forall t, In t ts -> PyStr.isdigit (task_id t) = true ->
        exists v, int_of_str (task_id t) = Ok v /\ 0 <= v < n)
  /\ (forall t, In t ts -> task_id t <> PyStr.str_of_int n)
  /\ (n = 1 \/ exists t, In t ts /\ int_of_str (task_id t) = Ok (n - 1)).
Proof.
  intros H. assert (Ha : App.next_id ts = Ok n).
  { destruct H as [H|H]; [apply cli_next_id_ok; exact H | exact H]. }
  clear H.
  assert (Hbound : 1 <= n
    /\ (forall t, In t ts -> PyStr.isdigit (task_id t) = true ->
          exists v, int_of_str (task_id t) = Ok v /\ 0 <= v < n)
    /\ (n = 1 \/ exists t, In t ts /\ int_of_str (task_id t) = Ok (n - 1))).
  { destruct (app_next_id_ok ts n Ha) as [[-> Hnone]|(ids & m & R & Pm & ->)].
    - split; [lia|]. split; [|left; reflexivity].
      intros t Hin Hd. exfalso.
      assert (Hf : In t (filter (fun t => PyStr.isdigit (task_id t)) ts)).
      { apply filter_In. auto. }
      destruct Hnone as [->|E]; [destruct Hin | rewrite E in Hf; destruct Hf].
    - destruct (py_max_spec ids m Pm) as [Hm Hle].
      assert (Hnn : forall y, In y ids -> 0 <= y).
      { intros y Hy. destruct (rmapM_out _ _ _ y R Hy) as (x & Hx & Hfx).
        apply filter_In in Hx. destruct Hx as [_ Hd].
        apply int_of_str_ok in Hfx.
        apply (py_int_isdigit_nonneg _ _ Hd Hfx). }
      split; [pose proof (Hnn m Hm); lia|]. split.
      + intros t Hin Hd.
        assert (Hf : In t (filter (fun t => PyStr.isdigit (task_id t)) ts)).
        { apply filter_In. auto. }
        destruct (rmapM_in _ _ _ t R Hf) as (v & Hv & Hvin).
        exists v. split; [exact Hv|]. pose proof (Hle v Hvin).
        pose proof (Hnn v Hvin). lia.
      + right. destruct (rmapM_out _ _ _ m R Hm) as (x & Hx & Hfx).
        apply filter_In in Hx. exists x. split; [apply Hx|].
        replace (m + 1 - 1) with m by lia. exact Hfx. }
  destruct Hbound as (H1 & H2 & H3).
  split; [exact H1|]. split; [exact H2|]. split; [|exact H3].
  intros t Hin E.
  destruct (int_of_str_of_int n) as (Hd & _ & Hp); [lia|].
  rewrite <- E in Hd, Hp.
  destruct (H2 t Hin Hd) as (v & Hv & Hlt).
  apply int_of_str_ok in Hv. rewrite Hp in Hv. inversion Hv. lia.
Qed.

(** X2. The number [next_id] returns is at least 1, greater than the
    number of every id made of digits, and [str()] of it is the id of no
    stored task; unless it is 1, the number before it is the number of a
    stored id. *)
Theorem next_id_is_fresh (ts : list Task) (n : Z) :
  Cli.next_id ts = Ok n \/ App.next_id ts = Ok n ->
  1 <= n
  /\ (forall t, In t ts -> PyStr.isdigit (task_id t) = true ->
        exists v, int_of_str (task_id t) = Ok v /\ 0 <= v < n)
  /\ (forall t, In t ts -> task_id t <> PyStr.str_of_int n)
  /\ (n = 1 \/ exists t, In t ts /\ int_of_str (task_id t) = Ok (n - 1)).
Proof. exact (next_id_fresh_ids ts n). Qed.

Lemma next_id_is_fresh_witness :
  let ts := [Sample.t1; Sample.t2; Sample.t3] in
  (Cli.next_id ts = Ok 4 \/ App.next_id ts = Ok 4)
  /\ forall t, In t ts -> task_id t <> PyStr.str_of_int 4.
Proof.
  intros ts. split; [left; reflexivity|].
  exact (proj1 (proj2 (proj2 (next_id_is_fresh ts 4 (or_introl eq_refl))))).
Defined.

(** ** Adding a task *)

Lemma cli_add_run (args : Cli.AddArgs) (w : World) (ts : list Task) :
  data_file w = Some ts ->
  Cli.add_task args w
  = match Cli.next_id ts with
    | Ok n =>
        let task :=
          mkTask (PyStr.str_of_int n) (Cli.a_title args) (Cli.a_priority args)
                 (Cli.a_status args) (PyStr.or_empty (Cli.a_due args))
                 (Date.isoformat (clock w))
                 (PyStr.or_empty (Cli.a_person args))
                 (PyStr.or_empty (Cli.a_waiting_on args))
                 (PyStr.or_empty (Cli.a_follow_up args))
                 (PyStr.or_empty (Cli.a_notes args)) in
        Return tt
          (Spec.printed
             [("Added task #" ++ task_id task ++ ": " ++ title task)%string]
             (Spec.written (ts ++ [task]) w))
    | Err e => Raise e w
    end.
Proof.
  intros Hw. unfold Cli.add_task. rewrite (bind_read_tasks _ w ts Hw).
  unfold bind at 1, today at 1. unfold bind at 1, lift at 1.
  destruct (Cli.next_id ts) as [n|e]; reflexivity.
Qed.

Lemma app_add_run (form : App.AddForm) (w : World) (ts : list Task) :
  data_file w = Some ts ->
  App.add_task_form form w
  = if negb (PyStr.truthy (PyStr.strip (App.f_title form)))
    then Return tt (mkWorld (Some ts) (clock w)
                            (log w ++ [StError "Title is required."]))
    else
      match App.next_id ts with
      | Ok n =>
          let task :=
            mkTask (PyStr.str_of_int n) (PyStr.strip (App.f_title form))
                   (App.f_priority form) (App.f_status form)
                   (App.iso_or_empty (App.f_due form))
                   (Date.isoformat (clock w))
                   (App.strip_or_empty (App.f_person form)) ""
                   (App.iso_or_empty (App.f_follow_up form))
                   (App.strip_or_empty (App.f_notes form)) in
          Return tt
            (mkWorld (Some (ts ++ [task])) (clock w)
               (log w ++ [FileWritten (ts ++ [task]);
                          StSuccess ("Added task #" ++ task_id task);
                          StRerun]))
      | Err e => Raise e w
      end.
Proof.
  intros Hw. unfold App.add_task_form. rewrite (bind_read_tasks _ w ts Hw).
  destruct (negb (PyStr.truthy (PyStr.strip (App.f_title form)))).
  - unfold emit. rewrite Hw. reflexivity.
  - unfold bind at 1, lift at 1.
    destruct (App.next_id ts) as [n|e]; [|reflexivity].
    unfold bind, today, write_tasks, emit. cbn [data_file clock log].
    rewrite <- !app_assoc. reflexivity.
Qed.

Lemma nodup_ids_snoc (ts : list Task) (t : Task) :
  NoDup (map task_id ts) ->
  (forall u, In u ts -> task_id u <> task_id t) ->
  NoDup (map task_id (ts ++ [t])).
Proof.
  intros Hnd Hfresh. rewrite map_app. cbn [map].
  apply NoDup_app.
  - exact Hnd.
  - repeat constructor. intros [].
  - intros i Hi [<-|[]]. apply in_map_iff in Hi.
    destruct Hi as (u & Hu & Hin). apply (Hfresh u Hin Hu).
Qed.

(** X3. Adding a task keeps the ids different from one another: on a
    stored collection [ts] with no id twice, an [add] that returns, from
    the command line or from the form, has put one task at the end of
    [ts], with an id that no task of [ts] has, the creation date of today
    and the title given (stripped, and not empty, in the form); the form
    leaves the file alone when the stripped title is empty. *)
Theorem add_keeps_ids_unique (w : World) (ts : list Task) :
  data_file w = Some ts ->
  NoDup (map task_id ts) ->
  (forall args w',
     Cli.add_task args w = Return tt w' ->
     exists task,
       Spec.stored w' = ts ++ [task]
       /\ title task = Cli.a_title args
       /\ created_date task = Date.isoformat (clock w)
       /\ ~ In (task_id task) (map task_id ts)
       /\ NoDup (map task_id (Spec.stored w')))
  /\ (forall form w',
        App.add_task_form form w = Return tt w' ->
        (PyStr.strip (App.f_title form) = ""%string /\ Spec.stored w' = ts)
        \/ exists task,
             Spec.stored w' = ts ++ [task]
             /\ title task = PyStr.strip (App.f_title form)
             /\ title task <> ""%string
             /\ created_date task = Date.isoformat (clock w)
             /\ ~ In (task_id task) (map task_id ts)
             /\ NoDup (map task_id (Spec.stored w'))).
Proof.
  intros Hw Hnd.
  assert (Hnew : forall n i, In i (map task_id ts) ->
                   Cli.next_id ts = Ok n \/ App.next_id ts = Ok n ->
                   i <> PyStr.str_of_int n).
  { intros n i Hi Hn. apply in_map_iff in Hi. destruct Hi as (u & <- & Hu).
    exact (proj1 (proj2 (proj2 (next_id_fresh_ids ts n Hn))) u Hu). }
  split.
  - intros args w'. rewrite (cli_add_run args w ts Hw).
    destruct (Cli.next_id ts) as [n|e] eqn:En; [|discriminate].
    cbv zeta. intros H. inversion H; subst w'; clear H.
    eexists. unfold Spec.stored. cbn [data_file Spec.printed Spec.written].
    split; [reflexivity|]. cbn [title created_date task_id].
    split; [reflexivity|]. split; [reflexivity|].
    assert (Hfr : ~ In (PyStr.str_of_int n) (map task_id ts)).
    { intros Hi. apply (Hnew n _ Hi); auto. }
    split; [exact Hfr|].
    apply nodup_ids_snoc; [exact Hnd|]. intros u Hu E. apply Hfr.
    cbn [task_id] in E. rewrite <- E. apply in_map. exact Hu.
  - intros form w'. rewrite (app_add_run form w ts Hw).
    destruct (PyStr.strip (App.f_title form)) as [|c s] eqn:Es;
      cbn [PyStr.truthy negb].
    + intros H. inversion H; subst w'. left. split; [reflexivity|].
      unfold Spec.stored. reflexivity.
    + destruct (App.next_id ts) as [n|e] eqn:En; [|discriminate].
      cbv zeta. intros H. inversion H; subst w'; clear H. right.
      eexists. unfold Spec.stored. cbn [data_file].
      split; [reflexivity|]. cbn [title created_date task_id].
      split; [reflexivity|]. split; [discriminate|]. split; [reflexivity|].
      assert (Hfr : ~ In (PyStr.str_of_int n) (map task_id ts)).
      { intros Hi. apply (Hnew n _ Hi); auto. }
      split; [exact Hfr|].
      apply nodup_ids_snoc; [exact Hnd|]. intros u Hu E. apply Hfr.
      cbn [task_id] in E. rewrite <- E. apply in_map. exact Hu.
Qed.

Lemma add_keeps_ids_unique_witness :
  let ts := [Sample.t1; Sample.t2; Sample.t3] in
  let w := Sample.world ts in
  (data_file w = Some ts /\ NoDup (map task_id ts))
  /\ exists w',
       Cli.add_task Sample.blank_title_args w = Return tt w'
       /\ exists task,
            Spec.stored w' = ts ++ [task]
            /\ ~ In (task_id task) (map task_id ts).
Proof.
  intros ts w.
  assert (Hnd : NoDup (map task_id ts)).
  { simpl. repeat constructor; simpl; intuition discriminate. }
  split; [split; [reflexivity | exact Hnd]|].
  destruct (add_keeps_ids_unique w ts eq_refl Hnd) as [Hcli _].
  destruct (Cli.add_task Sample.blank_title_args w) as [[] w'|e w'] eqn:E;
    [|vm_compute in E; discriminate E].
  exists w'. split; [reflexivity|].
  destruct (Hcli Sample.blank_title_args w' E)
    as (task & Hs & _ & _ & Hfresh & _).
  exists task. split; [exact Hs | exact Hfresh].
Defined.





(** ** Marking and deleting, again *)

Lemma mark_first_twice (i : string) (ts : list Task) :
  match mark_first i ts with
  | Some (hit, ts') => mark_first i ts' = Some (hit, ts')
  | None => True
  end.
Proof.
  induction ts as [|t ts IH]; cbn [mark_first]; [exact I|].
  destruct (String.eqb (task_id t) i) eqn:E.
  - cbn [mark_first]. cbn [set_status task_id]. rewrite E. reflexivity.
  - destruct (mark_first i ts) as [[hit ts']|]; [|exact I].
    cbn [mark_first]. rewrite E, IH. reflexivity.
Qed.

Lemma mark_first_fields (i : string) (ts : list Task)
      (hit : Task) (ts' : list Task) (s : string) :
  mark_first i ts = Some (hit, ts') ->
  map (set_status s) ts' = map (set_status s) ts
  /\ forall t', In t' ts' -> In t' ts \/ status t' = "done"%string.
Proof.
  intros F.
  destruct (mark_first_some i ts hit ts' F)
    as (l1 & t & l2 & -> & _ & _ & _ & ->).
  split.
  - rewrite !map_app. reflexivity.
  - intros t' Hin. apply in_app_or in Hin. destruct Hin as [Hin|[<-|Hin]].
    + left. apply in_or_app. left. exact Hin.
    + right. reflexivity.
    + left. apply in_or_app. right. right. exact Hin.
Qed.

Lemma map_id_of_fields (ts ts' : list Task) :
  map (set_status "") ts' = map (set_status "") ts ->
  map task_id ts' = map task_id ts.
Proof.
  intros H.
  assert (E : forall l, map task_id l = map task_id (map (set_status "") l)).
  { intros l. rewrite map_map. reflexivity. }
  rewrite (E ts'), (E ts), H. reflexivity.
Qed.

Lemma app_mark_done_run (w : World) (ts : list Task) (tid : App.id_arg) :
  data_file w = Some ts ->
  App.mark_done tid w
  = match mark_first (App.py_str tid) ts with
    | Some (_, ts') => Return true (Spec.written ts' w)
    | None => Return false w
    end.
Proof.
  intros Hw. unfold App.mark_done. rewrite (bind_read_tasks _ w ts Hw).
  destruct (mark_first _ ts) as [[hit ts']|]; reflexivity.
Qed.

Lemma cli_mark_done_run (w : World) (ts : list Task) (n : Z) :
  data_file w = Some ts ->
  Cli.mark_done n w
  = match mark_first (PyStr.str_of_int n) ts with
    | Some (t, ts') =>
        Return tt
          (Spec.written ts'
             (Spec.printed
                [("Marked task #" ++ task_id t ++ " done: " ++ title t)%string]
                w))
    | None =>
        Return tt
          (Spec.printed
             [("No task found with id " ++ PyStr.str_of_int n)%string] w)
    end.
Proof.
  intros Hw. unfold Cli.mark_done. rewrite (bind_read_tasks _ w ts Hw).
  destruct (mark_first _ ts) as [[hit ts']|]; reflexivity.
Qed.

(** X5. [mark_done] changes nothing but a status: after either copy has
    run on a stored collection [ts], the file holds as many tasks, in the
    same order, each with the fields it had except that a status may have
    become [done]; ids that were all different still are.  Running the
    dashboard's [mark_done] again with the same id gives the same answer
    and the same rows, and the command line run on the number [n] leaves
    the rows the dashboard leaves. *)
Theorem mark_done_changes_status_only (w : World) (ts : list Task)
        (tid : App.id_arg) (b : bool) (w' : World) :
  data_file w = Some ts ->
  App.mark_done tid w = Return b w' ->
  map (set_status "") (Spec.stored w') = map (set_status "") ts
  /\ (forall t', In t' (Spec.stored w') ->
        In t' ts \/ status t' = "done"%string)
  /\ (NoDup (map task_id ts) -> NoDup (map task_id (Spec.stored w')))
  /\ (exists w'', App.mark_done tid w' = Return b w''
                  /\ Spec.stored w'' = Spec.stored w')
  /\ (forall n, tid = App.IdInt n ->
        exists w'', Cli.mark_done n w = Return tt w''
                    /\ Spec.stored w'' = Spec.stored w').
Proof.
  intros Hw. rewrite (app_mark_done_run w ts tid Hw).
  pose proof (mark_first_twice (App.py_str tid) ts) as Htwice.
  destruct (mark_first (App.py_str tid) ts) as [[hit ts']|] eqn:F;
    intros H; inversion H; subst b w'; clear H.
  - destruct (mark_first_fields _ _ _ _ "" F) as [Hf Hs].
    unfold Spec.stored. cbn [data_file Spec.written].
    split; [exact Hf|]. split; [exact Hs|]. split; [|split].
    + intros Hnd. rewrite (map_id_of_fields ts ts' Hf). exact Hnd.
    + rewrite (app_mark_done_run (Spec.written ts' w) ts' tid eq_refl).
      rewrite Htwice. eexists. split; reflexivity.
    + intros n ->. rewrite (cli_mark_done_run w ts n Hw).
      cbn [App.py_str] in F. rewrite F. eexists. split; reflexivity.
  - unfold Spec.stored. rewrite Hw.
    split; [reflexivity|]. split; [auto|]. split; [auto|]. split.
    + rewrite (app_mark_done_run w ts tid Hw), F. exists w.
      rewrite Hw. auto.
    + intros n ->. rewrite (cli_mark_done_run w ts n Hw).
      cbn [App.py_str] in F. rewrite F. eexists. split; [reflexivity|].
      cbn [data_file Spec.printed]. rewrite Hw. reflexivity.
Qed.

Lemma mark_done_changes_status_only_witness :
  let ts := [Sample.t1; Sample.t2; Sample.t3] in
  let w := Sample.world ts in
  (data_file w = Some ts
   /\ App.mark_done (App.IdInt 3) w
      = Return true
          (Spec.written [Sample.t1; Sample.t2; set_status "done" Sample.t3] w))
  /\ map (set_status "")
         (Spec.stored
            (Spec.written [Sample.t1; Sample.t2; set_status "done" Sample.t3] w))
     = map (set_status "") ts.
Proof.
  intros ts w. split; [split; reflexivity|].
  exact (proj1 (mark_done_changes_status_only w ts (App.IdInt 3) true _
                  eq_refl eq_refl)).
Defined.

Lemma kept_ids_distinct (keep : Task -> bool) (tasks : list Task) :
  NoDup (map task_id tasks) -> NoDup (map task_id (filter keep tasks)).
Proof.
  intros Hids. induction tasks as [|t tasks IH]; [constructor|].
  cbn [map] in Hids. apply NoDup_cons_iff in Hids.
  destruct Hids as [Hnew Hrest]. cbn [filter].
  destruct (keep t); [|exact (IH Hrest)].
  cbn [map]. apply NoDup_cons; [|exact (IH Hrest)].
  intros Hin. apply Hnew. apply in_map_iff in Hin.
  destruct Hin as (u & Hu & Hin). apply filter_In in Hin.
  rewrite <- Hu. apply in_map. exact (proj1 Hin).
Qed.

(** X6. After [delete_task] no stored task has the id, whether ids were
    different or not: every task with the id is gone, the others are kept
    in their order, the answer tells whether one was removed, ids that were
    all different still are, and deleting or marking the same id again
    finds nothing and leaves the world as it is. *)
Theorem delete_task_then_not_found (w : World) (ts : list Task)
        (tid : App.id_arg) (b : bool) (w' : World) :
  data_file w = Some ts ->
  App.delete_task tid w = Return b w' ->
  Spec.stored w' = filter (fun t => negb (Spec.has_id (App.py_str tid) t)) ts
  /\ b = existsb (Spec.has_id (App.py_str tid)) ts
  /\ (forall t, In t (Spec.stored w') -> task_id t <> App.py_str tid)
  /\ (NoDup (map task_id ts) -> NoDup (map task_id (Spec.stored w')))
  /\ App.delete_task tid w' = Return false w'
  /\ App.mark_done tid w' = Return false w'.
Proof.
  intros Hw. rewrite (delete_run w ts tid Hw). cbv zeta.
  set (i := App.py_str tid).
  set (kept := filter (fun t => negb (Spec.has_id i t)) ts).
  assert (Hkept : forall t, In t kept -> task_id t <> i).
  { intros t Hin E. apply filter_In in Hin. destruct Hin as [_ Hn].
    unfold Spec.has_id in Hn. rewrite E, String.eqb_refl in Hn.
    discriminate. }
  assert (Hnone : existsb (Spec.has_id i) kept = false).
  { destruct (existsb (Spec.has_id i) kept) eqn:E; [|reflexivity].
    apply existsb_has_id_iff in E. destruct E as (t & Hin & Hid).
    exfalso. apply (Hkept t Hin Hid). }
  assert (Hagain : forall v, data_file v = Some kept ->
            App.delete_task tid v = Return false v
            /\ App.mark_done tid v = Return false v).
  { intros v Hv. split.
    - rewrite (delete_run v kept tid Hv). cbv zeta. fold i.
      rewrite filter_keeps_all.
      + rewrite Z.eqb_refl. reflexivity.
      + intros u Hu. unfold Spec.has_id.
        rewrite (string_eqb_false _ _ (Hkept u Hu)). reflexivity.
    - rewrite (app_mark_done_run v kept tid Hv). fold i.
      rewrite (mark_first_absent _ _ Hnone). reflexivity. }
  destruct (len kept =? len ts) eqn:E; intros H; inversion H; subst b w';
    clear H.
  - assert (Hsame : kept = ts).
    { unfold kept. apply filter_keeps_all. intros u Hu.
      destruct (negb (Spec.has_id i u)) eqn:K; [reflexivity|]. exfalso.
      apply Z.eqb_eq in E. unfold len in E.
      destruct (in_split u ts Hu) as (l1 & l2 & Hs).
      unfold kept in E. rewrite Hs in E. rewrite filter_app in E.
      cbn [filter] in E. rewrite K in E. rewrite !length_app in E.
      cbn [List.length] in E.
      pose proof (filter_length_le (fun t => negb (Spec.has_id i t)) l1).
      pose proof (filter_length_le (fun t => negb (Spec.has_id i t)) l2).
      lia. }
    unfold Spec.stored. rewrite Hw. rewrite Hsame in *.
    split; [reflexivity|]. split.
    { symmetry. exact Hnone. }
    split; [exact Hkept|]. split; [auto|]. apply Hagain. exact Hw.
  - unfold Spec.stored. cbn [data_file Spec.written].
    split; [reflexivity|]. split.
    { destruct (existsb (Spec.has_id i) ts) eqn:X; [reflexivity|]. exfalso.
      assert (Hsame : kept = ts).
      { unfold kept. apply filter_keeps_all. intros u Hu. unfold Spec.has_id.
        rewrite (string_eqb_false _ _ (existsb_has_id_false _ _ X u Hu)).
        reflexivity. }
      rewrite Hsame, Z.eqb_refl in E. discriminate. }
    split; [exact Hkept|]. split; [apply kept_ids_distinct|].
    apply Hagain. reflexivity.
Qed.

Lemma delete_task_then_not_found_witness :
  let ts := [Sample.t1; Sample.t2; Sample.t3] in
  let w := Sample.world ts in
  (data_file w = Some ts
   /\ App.delete_task (App.IdStr "2") w
      = Return true (Spec.written [Sample.t1; Sample.t3] w))
  /\ App.mark_done (App.IdStr "2") (Spec.written [Sample.t1; Sample.t3] w)
     = Return false (Spec.written [Sample.t1; Sample.t3] w).
Proof.
  intros ts w. split; [split; reflexivity|].
  exact (proj2 (proj2 (proj2 (proj2 (proj2
           (delete_task_then_not_found w ts (App.IdStr "2") true _
              eq_refl eq_refl)))))).
Defined.

(** ** The dashboard counts *)

Lemma date_ltb_not_eqb (a b : Date.date) :
  Date.ltb a b = true -> Date.eqb a b = false.
Proof.
  unfold Date.ltb, Date.eqb. intros H.
  destruct (Z.eqb_spec (Date.year a) (Date.year b)) as [Ey|Ey];
    [|reflexivity].
  destruct (Z.eqb_spec (Date.month a) (Date.month b)) as [Em|Em];
    [|reflexivity].
  destruct (Z.eqb_spec (Date.day a) (Date.day b)) as [Ed|Ed];
    [|reflexivity].
  exfalso. rewrite Ey, Em, Ed in H. rewrite !Z.ltb_irrefl in H.
  cbn in H. rewrite ?andb_false_r in H. discriminate H.
Qed.

Lemma filter_length_and {A} (p q : A -> bool) (l : list A) :
  (List.length (filter (fun x => p x && q x) l)
   <= List.length (filter p l))%nat.
Proof.
  induction l as [|x l IH]; simpl; [lia|].
  destruct (p x); simpl; [destruct (q x); simpl; lia | exact IH].
Qed.

Lemma filter_length_split {A} (p q1 q2 : A -> bool) (l : list A) :
  (forall x, q1 x = true -> q2 x = false) ->
  (List.length (filter (fun x => p x && q1 x) l)
   + List.length (filter (fun x => p x && q2 x) l)
   <= List.length (filter p l))%nat.
Proof.
  intros Hex. induction l as [|x l IH]; simpl; [lia|].
  destruct (p x); simpl; [|exact IH].
  destruct (q1 x) eqn:E1.
  - rewrite (Hex x E1). simpl. lia.
  - destruct (q2 x); simpl; lia.
Qed.

Lemma open_filter (q : Task -> bool) (l : list Task) :
  filter q (filter (fun t => negb (String.eqb (status t) "done")) l)
  = filter (fun t => Spec.is_open t && q t) l.
Proof. rewrite filter_filter. reflexivity. Qed.

(** X7. The numbers of the dashboard hang together: on every collection
    and day the three date lists are computed without an exception, no
    task is both overdue and due today, and Due today + Overdue, P1,
    Waiting and the follow-ups due are each at most Open, which is at most
    the number of tasks. *)
Theorem dashboard_counts_hang_together (now : Date.date) (ts : list Task) :
  exists due late follow,
    Cli.due_today now ts = Ok due /\ Cli.overdue now ts = Ok late
    /\ Cli.followups now ts = Ok follow
    /\ App.due_today now ts = Ok due /\ App.overdue now ts = Ok late
    /\ App.followups now ts = Ok follow
    /\ (forall t, In t due -> In t late -> False)
    /\ len due + len late <= len (Cli.open_tasks ts)
    /\ len (Cli.p1 ts) <= len (Cli.open_tasks ts)
    /\ len (Cli.waiting ts) <= len (Cli.open_tasks ts)
    /\ len follow <= len (Cli.open_tasks ts)
    /\ len (Cli.open_tasks ts) <= len ts.
Proof.
  eexists. eexists. eexists.
  split; [apply dated_filter|]. split; [apply dated_filter|].
  split; [apply dated_filter|]. split; [apply dated_filter|].
  split; [apply dated_filter|]. split; [apply dated_filter|].
  assert (Hex : forall t : Task,
             Spec.date_is (fun d => Date.eqb d now) (due_date t) = true ->
             Spec.date_is (fun d => Date.ltb d now) (due_date t) = false).
  { intros t. unfold Spec.date_is.
    destruct (Spec.parsed (due_date t)) as [d|]; [|reflexivity].
    intros He. destruct (Date.ltb d now) eqn:Hl; [|reflexivity].
    rewrite (date_ltb_not_eqb d now Hl) in He. discriminate. }
  split.
  - intros t Hd Hl. apply filter_In in Hd. apply filter_In in Hl.
    destruct Hd as [_ Hd]. destruct Hl as [_ Hl].
    apply andb_true_iff in Hd. apply andb_true_iff in Hl.
    destruct Hd as [_ Hd]. destruct Hl as [_ Hl].
    rewrite (Hex t Hd) in Hl. discriminate.
  - unfold Cli.p1, Cli.waiting, Cli.open_tasks. rewrite !open_filter.
    fold Spec.is_open.
    change (filter (fun t => negb (String.eqb (status t) "done")) ts)
      with (filter Spec.is_open ts).
    unfold len.
    pose proof (filter_length_split Spec.is_open _ _ ts Hex).
    pose proof (filter_length_and Spec.is_open
                  (fun t => String.eqb (priority t) "P1") ts).
    pose proof (filter_length_and Spec.is_open
                  (fun t => String.eqb (status t) "waiting") ts).
    pose proof (filter_length_and Spec.is_open
                  (fun t => Spec.date_is (fun d => Date.leb d now)
                                         (follow_up_date t)) ts).
    pose proof (filter_length_le Spec.is_open ts).
    repeat split; lia.
Qed.

(** ** Commands that only read *)






(** ** The rows of the page *)

(** X9. Whatever the [View] drop-down holds, a name of the list or any
    other text, the rows drawn are open tasks of the file, in the order of
    the file: the view is computed without an exception and is a selection
    of the open tasks. *)
Theorem view_shows_open_tasks (show : string) (now : Date.date)
        (ts : list Task) :
  exists p,
    App.view_tasks show now ts
    = Ok (filter (fun t => Spec.is_open t && p t) ts)
    /\ forall t,
         In t (filter (fun t => Spec.is_open t && p t) ts) ->
         In t ts /\ status t <> "done"%string.
Proof.
  assert (Hin : forall p t,
             In t (filter (fun t => Spec.is_open t && p t) ts) ->
             In t ts /\ status t <> "done"%string).
  { intros p t H. apply filter_In in H. destruct H as [H1 H2].
    split; [exact H1|]. apply andb_true_iff in H2. destruct H2 as [H2 _].
    unfold Spec.is_open in H2. apply negb_true_iff in H2.
    apply String.eqb_neq. exact H2. }
  unfold App.view_tasks, App.due_today, App.overdue, App.followups,
    App.p1_tasks, App.waiting, App.open_tasks.
  rewrite !dated_filter. cbn [rbind]. rewrite !open_filter.
  destruct (String.eqb show "All open").
  { exists (fun _ => true). split; [|apply Hin]. f_equal.
    apply filter_ext. intros t. unfold Spec.is_open.
    rewrite andb_true_r. reflexivity. }
  destruct (String.eqb show "P1"); [eexists; split; [reflexivity | apply Hin]|].
  destruct (String.eqb show "Due today");
    [eexists; split; [reflexivity | apply Hin]|].
  destruct (String.eqb show "Overdue");
    [eexists; split; [reflexivity | apply Hin]|].
  destruct (String.eqb show "Waiting");
    [eexists; split; [reflexivity | apply Hin]|].
  eexists; split; [reflexivity | apply Hin].
Qed.

Lemma mark_first_at (i : string) (l1 l2 : list Task) (t : Task) :
  (forall u, In u l1 -> task_id u <> i) -> task_id t = i ->
  mark_first i (l1 ++ t :: l2)
  = Some (set_status "done" t, l1 ++ set_status "done" t :: l2).
Proof.
  intros H1 Ht. induction l1 as [|u l1 IH]; cbn [app mark_first].
  - rewrite Ht, String.eqb_refl. reflexivity.
  - rewrite (string_eqb_false _ _ (H1 u (or_introl eq_refl))).
    rewrite IH; [reflexivity|]. intros v Hv. apply H1. right. exact Hv.
Qed.

Lemma unique_id_sides (l1 l2 : list Task) (t : Task) :
  NoDup (map task_id (l1 ++ t :: l2)) ->
  forall u, In u l1 \/ In u l2 -> task_id u <> task_id t.
Proof.
  intros Hnd u Hu E. rewrite map_app in Hnd. cbn [map] in Hnd.
  apply NoDup_remove_2 in Hnd. apply Hnd. rewrite <- E.
  apply in_or_app. destruct Hu as [Hu|Hu]; [left | right]; apply in_map;
    exact Hu.
Qed.

(** X10. The buttons of a row act on that row when ids are all
    different: for a task [t] of the stored collection, [Done] sets the
    status of [t] to [done] where it stands and [Delete] takes [t] out,
    every other task staying as and where it was; both write the file once,
    report success and ask for a rerun, and "Task not found" is never
    shown. *)
Theorem row_buttons_act_on_the_row (w : World) (l1 l2 : list Task) (t : Task) :
  data_file w = Some (l1 ++ t :: l2) ->
  NoDup (map task_id (l1 ++ t :: l2)) ->
  App.done_clicked t w
  = Return tt
      (mkWorld (Some (l1 ++ set_status "done" t :: l2)) (clock w)
         (log w ++ [FileWritten (l1 ++ set_status "done" t :: l2);
                    StSuccess ("Marked task #" ++ task_id t ++ " done");
                    StRerun]))
  /\ App.delete_clicked t w
     = Return tt
         (mkWorld (Some (l1 ++ l2)) (clock w)
            (log w ++ [FileWritten (l1 ++ l2);
                       StSuccess ("Deleted task #" ++ task_id t);
                       StRerun])).
Proof.
  intros Hw Hnd. pose proof (unique_id_sides l1 l2 t Hnd) as Hside. split.
  - unfold App.done_clicked. unfold bind at 1.
    rewrite (app_mark_done_run w _ (App.IdStr (task_id t)) Hw).
    cbn [App.py_str]. rewrite mark_first_at; [|auto|reflexivity].
    unfold bind, emit, Spec.written. cbn [data_file clock log].
    rewrite <- !app_assoc. reflexivity.
  - unfold App.delete_clicked. unfold bind at 1.
    rewrite (delete_run w _ (App.IdStr (task_id t)) Hw). cbv zeta.
    cbn [App.py_str].
    assert (Hf : filter (fun u => negb (Spec.has_id (task_id t) u))
                        (l1 ++ t :: l2) = l1 ++ l2).
    { rewrite filter_app. cbn [filter]. unfold Spec.has_id at 2.
      rewrite String.eqb_refl. cbn [negb].
      rewrite !filter_keeps_all; [reflexivity| |];
        intros u Hu; unfold Spec.has_id;
        rewrite (string_eqb_false _ _ (Hside u ltac:(auto))); reflexivity. }
    rewrite Hf, len_app_cons.
    unfold bind, emit, Spec.written. cbn [data_file clock log].
    rewrite <- !app_assoc. reflexivity.
Qed.

Lemma row_buttons_act_on_the_row_witness :
  let w := Sample.world [Sample.t1; Sample.t2; Sample.t3] in
  (data_file w = Some ([Sample.t1] ++ Sample.t2 :: [Sample.t3])
   /\ NoDup (map task_id ([Sample.t1] ++ Sample.t2 :: [Sample.t3])))
  /\ App.delete_clicked Sample.t2 w
     = Return tt
         (mkWorld (Some ([Sample.t1] ++ [Sample.t3])) (clock w)
            (log w ++ [FileWritten ([Sample.t1] ++ [Sample.t3]);
                       StSuccess ("Deleted task #" ++ task_id Sample.t2);
                       StRerun])).
Proof.
  intros w.
  assert (Hnd : NoDup (map task_id ([Sample.t1] ++ Sample.t2 :: [Sample.t3]))).
  { simpl. repeat constructor; simpl; intuition discriminate. }
  split; [split; [reflexivity | exact Hnd]|].
  exact (proj2 (row_buttons_act_on_the_row w [Sample.t1] [Sample.t3] Sample.t2
                  eq_refl Hnd)).
Defined.

(** ** Rows that are longer or shorter than the header *)

Lemma dict_to_list_error (fieldnames : list string) (d : Csv.dict) (e : exn) :
  Csv.dict_to_list fieldnames d = Err e ->
  e = ValueError "dict contains fields not in fieldnames".
Proof.
  unfold Csv.dict_to_list. destruct (_ && _); intros H; inversion H.
  reflexivity.
Qed.

Lemma rmapM_error {A B} (f : A -> result B) (l1 l2 : list A) (x : A) (e : exn) :
  (forall y e', f y = Err e' -> e' = e) -> f x = Err e ->
  rmapM f (l1 ++ x :: l2) = Err e.
Proof.
  intros Hall Hx. induction l1 as [|a l1 IH]; cbn [app rmapM].
  - rewrite Hx. reflexivity.
  - destruct (f a) as [b|e'] eqn:Fa; cbn [rbind].
    + rewrite IH. reflexivity.
    + rewrite (Hall a e' Fa). reflexivity.
Qed.

(** X11. A row with more fields than the header is loaded, the fields
    beyond the header kept under the key [None]; a collection that holds
    such a row cannot be saved: [write_tasks] raises [ValueError],
    wherever the row stands. *)
Theorem long_row_cannot_be_saved (fieldnames row : list string) :
  (List.length fieldnames < List.length row)%nat ->
  Csv.extras (Csv.row_dict fieldnames row)
  = Some (skipn (List.length fieldnames) row)
  /\ forall before after,
       Csv.write_tasks_text (before ++ Csv.row_dict fieldnames row :: after)
       = Err (ValueError "dict contains fields not in fieldnames").
Proof.
  intros Hlong.
  assert (E : Csv.extras (Csv.row_dict fieldnames row)
              = Some (skipn (List.length fieldnames) row)).
  { unfold Csv.row_dict. apply Nat.ltb_lt in Hlong. rewrite Hlong.
    reflexivity. }
  split; [exact E|]. intros before after. unfold Csv.write_tasks_text.
  rewrite (rmapM_error (Csv.dict_to_list FIELDNAMES) before after _
             (ValueError "dict contains fields not in fieldnames")).
  - reflexivity.
  - intros y e'. apply dict_to_list_error.
  - unfold Csv.dict_to_list. rewrite E. rewrite andb_false_r. reflexivity.
Qed.

Lemma long_row_cannot_be_saved_witness :
  (List.length ["id"; "title"]%string < List.length ["1"; "a"; "b"]%string)%nat
  /\ Csv.extras (Csv.row_dict ["id"; "title"]%string ["1"; "a"; "b"]%string)
     = Some ["b"%string]
  /\ Csv.write_tasks_text
       ([] ++ Csv.row_dict ["id"; "title"]%string ["1"; "a"; "b"]%string :: [])
     = Err (ValueError "dict contains fields not in fieldnames").
Proof.
  assert (H : (List.length ["id"; "title"]%string
               < List.length ["1"; "a"; "b"]%string)%nat) by (simpl; lia).
  split; [exact H|]. split.
  - exact (proj1 (long_row_cannot_be_saved _ _ H)).
  - exact (proj2 (long_row_cannot_be_saved _ _ H) [] []).
Defined.

(** X12. A row with fewer than ten fields, read under the header of the
    tasks, is loaded with [None] for every missing field and no extra
    fields, and is saved with empty fields in the missing places: the
    round trip pads a short line to ten fields. *)
Theorem short_row_is_padded (row : list string) :
  (List.length row <= 10)%nat ->
  Csv.extras (Csv.row_dict FIELDNAMES row) = None
  /\ (forall k, In k (skipn (List.length row) FIELDNAMES) ->
        Csv.dict_get k (Csv.entries (Csv.row_dict FIELDNAMES row))
        = Some None)
  /\ Csv.dict_to_list FIELDNAMES (Csv.row_dict FIELDNAMES row)
     = Ok (row ++ repeat ""%string (10 - List.length row)).
Proof.
  intros Hshort. split; [|split].
  - do 11 (destruct row as [|? row]; [reflexivity|]).
    cbn [List.length] in Hshort. lia.
  - do 11 (destruct row as [|? row];
           [intros k Hk; cbn in Hk;
            repeat (destruct Hk as [<-|Hk]; [reflexivity|]); destruct Hk|]).
    cbn [List.length] in Hshort. lia.
  - do 11 (destruct row as [|? row]; [reflexivity|]).
    cbn [List.length] in Hshort. lia.
Qed.

Lemma short_row_is_padded_witness :
  (List.length ["1"; "a"]%string <= 10)%nat
  /\ Csv.dict_to_list FIELDNAMES (Csv.row_dict FIELDNAMES ["1"; "a"]%string)
     = Ok ["1"; "a"; ""; ""; ""; ""; ""; ""; ""; ""]%string.
Proof.
  assert (H : (List.length ["1"; "a"]%string <= 10)%nat) by (simpl; lia).
  split; [exact H|].
  exact (proj2 (proj2 (short_row_is_padded _ H))).
Defined.

(** ** What the reader can raise *)

Section CsvReaderErrors.
Import Csv.

Lemma lines_one_line (text : string) :
  (Forall (fun l => Spec.one_line l = true) (lines text)
   /\ concat_lines (lines text) = text)
  /\ forall c,
       Forall (fun l => Spec.one_line l = true) (lines (String c text))
       /\ concat_lines (lines (String c text)) = String c text.
Proof.
  induction text as [|c2 rest IH].
  - split; [split; [constructor|reflexivity]|]. intros c. cbn [lines].
    destruct (Ascii.eqb c LF) eqn:E1; [|destruct (Ascii.eqb c CR) eqn:E2];
      (split; [|reflexivity]); repeat constructor;
      cbn [Spec.one_line]; unfold is_newline; rewrite E1; try rewrite E2;
      reflexivity.
  - destruct IH as [[IHa IHb] IHc]. split; [exact (IHc c2)|]. intros c.
    destruct (IHc c2) as [Hl Hc].
    change (lines (String c (String c2 rest))) with
      (if Ascii.eqb c LF then String c "" :: lines (String c2 rest)
       else if Ascii.eqb c CR then
         if Ascii.eqb c2 LF then String c (String c2 "") :: lines rest
         else String c "" :: lines (String c2 rest)
       else match lines (String c2 rest) with
            | [] => [String c ""]
            | l :: ls => String c l :: ls
            end).
    destruct (Ascii.eqb c LF) eqn:E1.
    + split.
      * constructor; [|exact Hl]. cbn [Spec.one_line]. unfold is_newline.
        rewrite E1. reflexivity.
      * cbn [concat_lines append]. rewrite Hc. reflexivity.
    + destruct (Ascii.eqb c CR) eqn:E2.
      * destruct (Ascii.eqb c2 LF) eqn:E3.
        -- split.
           ++ constructor; [|exact IHa]. cbn [Spec.one_line PyStr.all_chars].
              unfold is_newline. rewrite E1, E2, E3. reflexivity.
           ++ cbn [concat_lines append]. rewrite IHb. reflexivity.
        -- split.
           ++ constructor; [|exact Hl]. cbn [Spec.one_line]. unfold is_newline.
              rewrite E1, E2. reflexivity.
           ++ cbn [concat_lines append]. rewrite Hc. reflexivity.
      * destruct (lines (String c2 rest)) as [|l ls] eqn:El.
        -- cbn [concat_lines] in Hc. discriminate Hc.
        -- split.
           ++ inversion Hl; subst. constructor; [|assumption].
              cbn [Spec.one_line]. unfold is_newline. rewrite E1, E2.
              cbn [orb]. assumption.
           ++ cbn [concat_lines append] in *. rewrite Hc. reflexivity.
Qed.

Lemma newline_not_quote (c : ascii) :
  is_newline c = true ->
  Ascii.eqb c quotechar = false /\ Ascii.eqb c delimiter = false.
Proof.
  unfold is_newline. intros H. apply orb_true_iff in H.
  destruct H as [H|H]; apply Ascii.eqb_eq in H; subst c; split; reflexivity.
Qed.

(** One character: the field grows by at most one, the only error is the
    limit, and outside a line ending the parser does not wait for a line
    end. *)
Lemma process_char_spec (r : Reader) (c : ascii) :
  (is_newline c = false -> st r <> EAT_CRNL) ->
  match parse_process_char r (Some c) with
  | Ok r' =>
      (field_len r' <= field_len r + 1)%N
      /\ (is_newline c = false -> st r' <> EAT_CRNL)
  | Err e => e = Spec.limit_error /\ (field_limit <= field_len r)%N
  end.
Proof.
  intros Hst. unfold parse_process_char, start_field, parse_add_char.
  destruct r as [s f n fs]. cbn [st field field_len fields] in *.
  destruct (is_newline c) eqn:En.
  - destruct (newline_not_quote c En) as [Eq Ed].
    destruct s; rewrite ?Eq, ?Ed;
      cbn [st field field_len fields set_state parse_save_field];
      try (split; [lia|discriminate]).
    destruct (field_limit <=? n)%N eqn:El; cbn [rbind].
    + split; [reflexivity|]. apply N.leb_le. exact El.
    + cbn [field_len]. split; [lia|discriminate].
  - specialize (Hst eq_refl).
    destruct s; try (exfalso; apply Hst; reflexivity);
      destruct (Ascii.eqb c quotechar) eqn:Eq;
      destruct (Ascii.eqb c delimiter) eqn:Ed;
      cbn [st field field_len fields set_state parse_save_field];
      try (split; [lia|intros _; discriminate]);
      (destruct (field_limit <=? n)%N eqn:El; cbn [rbind];
       [split; [reflexivity|apply N.leb_le; exact El]
       |cbn [st field_len set_state]; split; [lia|intros _; discriminate]]).
Qed.

Lemma process_end_spec (r : Reader) :
  exists r', parse_process_char r None = Ok r'
             /\ (st r' = START_RECORD \/ st r' = IN_QUOTED_FIELD)
             /\ (field_len r' <= field_len r)%N.
Proof.
  unfold parse_process_char, start_field. destruct r as [s f n fs].
  cbn [st]. destruct s; eexists; (split; [reflexivity|]);
    cbn [st field_len set_state parse_save_field];
    (split; [auto|lia]).
Qed.

Lemma all_newline_one_line (l : string) :
  PyStr.all_chars is_newline l = true -> Spec.one_line l = true.
Proof.
  destruct l as [|c l]; [reflexivity|]. cbn [PyStr.all_chars Spec.one_line].
  intros H. apply andb_true_iff in H. destruct H as [-> H]. exact H.
Qed.

(** One line through the parser. *)
Lemma feed_spec (l : string) : forall r : Reader,
  (Spec.one_line l = true /\ st r <> EAT_CRNL)
  \/ PyStr.all_chars is_newline l = true ->
  match feed r l with
  | Ok r' =>
      (st r' = START_RECORD \/ st r' = IN_QUOTED_FIELD)
      /\ (field_len r' <= field_len r + N.of_nat (String.length l))%N
  | Err e =>
      e = Spec.limit_error
      /\ (field_limit < field_len r + N.of_nat (String.length l))%N
  end.
Proof.
  induction l as [|c l IH]; intros r H.
  - cbn [feed]. destruct (process_end_spec r) as (r' & -> & Hs & Hn).
    split; [exact Hs|]. cbn [String.length]. lia.
  - cbn [feed]. pose proof (process_char_spec r c) as Hc.
    assert (Hpre : is_newline c = false -> st r <> EAT_CRNL).
    { intros En. destruct H as [[_ H]|H]; [exact H|].
      cbn [PyStr.all_chars] in H. rewrite En in H. discriminate H. }
    specialize (Hc Hpre).
    destruct (parse_process_char r (Some c)) as [r1|e]; cbn [rbind].
    + destruct Hc as [Hn Hs].
      assert (H1 : (Spec.one_line l = true /\ st r1 <> EAT_CRNL)
                   \/ PyStr.all_chars is_newline l = true).
      { destruct (is_newline c) eqn:En.
        - right. destruct H as [[H _]|H].
          + cbn [Spec.one_line] in H. rewrite En in H. exact H.
          + cbn [PyStr.all_chars] in H. rewrite En in H. exact H.
        - left. split; [|exact (Hs eq_refl)].
          destruct H as [[H _]|H].
          + cbn [Spec.one_line] in H. rewrite En in H. exact H.
          + cbn [PyStr.all_chars] in H. rewrite En in H. discriminate H. }
      specialize (IH r1 H1). cbn [String.length].
      destruct (feed r1 l) as [r2|e].
      * destruct IH as [Hs2 Hn2]. split; [exact Hs2|lia].
      * destruct IH as [He Hn2]. split; [exact He|lia].
    + destruct Hc as [He Hn]. split; [exact He|]. cbn [String.length]. lia.
Qed.

Lemma length_concat_lines (l : string) (ls : list string) :
  String.length (concat_lines (l :: ls))
  = (String.length l + String.length (concat_lines ls))%nat.
Proof.
  cbn [concat_lines]. induction l as [|c l IH]; [reflexivity|].
  cbn [append String.length]. rewrite IH. reflexivity.
Qed.

(** All the lines through the reader. *)
Lemma reader_rows_spec (ls : list string) : forall r : Reader,
  Forall (fun l => Spec.one_line l = true) ls ->
  st r <> EAT_CRNL ->
  match reader_rows r ls with
  | Ok _ => True
  | Err e =>
      e = Spec.limit_error
      /\ (field_limit
          < field_len r + N.of_nat (String.length (concat_lines ls)))%N
  end.
Proof.
  induction ls as [|l ls IH]; intros r Hls Hst.
  - cbn [reader_rows]. destruct (_ || _); exact I.
  - inversion Hls as [|? ? Hl Hrest]; subst. cbn [reader_rows].
    pose proof (feed_spec l r (or_introl (conj Hl Hst))) as Hf.
    rewrite length_concat_lines.
    destruct (feed r l) as [r1|e]; cbn [rbind].
    + destruct Hf as [Hs Hn]. destruct (at_start r1) eqn:Ea.
      * assert (H0 : st parse_reset <> EAT_CRNL) by discriminate.
        specialize (IH parse_reset Hrest H0).
        destruct (reader_rows parse_reset ls) as [rows|e]; cbn [rbind];
          [exact I|].
        destruct IH as [He Hn0]. split; [exact He|].
        cbn [parse_reset field_len] in Hn0. lia.
      * assert (H1 : st r1 <> EAT_CRNL).
        { destruct Hs as [Hs|Hs]; rewrite Hs; discriminate. }
        specialize (IH r1 Hrest H1).
        destruct (reader_rows r1 ls) as [rows|e]; [exact I|].
        destruct IH as [He Hn1]. split; [exact He|]. lia.
    + destruct Hf as [He Hn]. split; [exact He|]. lia.
Qed.

End CsvReaderErrors.

(** X13. Whatever text the data file holds, loading it either yields the
    rows or raises the one error "field larger than field limit", and the
    latter only on a text of more than 131072 characters: opened with
    [newline=""], the reader never raises "new-line character seen in
    unquoted field", and no quoting, however broken, is an error. *)
Theorem load_fails_only_on_long_fields (text : string) :
  (exists rows, Csv.read_tasks_text text = Ok rows)
  \/ (Csv.read_tasks_text text
      = Err (CsvError "field larger than field limit (131072)")
      /\ (Csv.field_limit < N.of_nat (String.length text))%N).
Proof.
  unfold Csv.read_tasks_text.
  destruct (lines_one_line text) as [[Hl Hc] _].
  assert (H0 : Csv.st Csv.parse_reset <> Csv.EAT_CRNL) by discriminate.
  pose proof (reader_rows_spec (Csv.lines text) Csv.parse_reset Hl H0) as H.
  rewrite Hc in H.
  destruct (Csv.reader_rows Csv.parse_reset (Csv.lines text)) as [rows|e];
    cbn [rbind].
  - left. eexists. reflexivity.
  - right. destruct H as [-> Hn]. split; [reflexivity|].
    cbn [Csv.parse_reset Csv.field_len] in Hn. lia.
Qed.

(** ** Dates the scripts write *)

Lemma nzhead_no_zero (d d' : Decimal.uint) :
  Decimal.nzhead d <> Decimal.D0 d'.
Proof. induction d; cbn [Decimal.nzhead]; try discriminate. exact IHd. Qed.

(** [str(n)] of a positive number does not start with a zero. *)
Lemma str_of_int_head (p : positive) :
  exists c s, PyStr.str_of_int (Z.pos p) = String c s
              /\ PyStr.is_decimal c = true /\ 1 <= PyStr.digit_value c.
Proof.
  destruct (str_of_int_pos p) as [E _]. rewrite E.
  assert (U : Decimal.unorm (Pos.to_uint p) = Pos.to_uint p).
  { rewrite <- (DecimalPos.Unsigned.to_of (Pos.to_uint p)).
    rewrite DecimalPos.Unsigned.of_to. reflexivity. }
  pose proof (DecimalPos.Unsigned.to_uint_nonzero p) as Hz.
  destruct (Pos.to_uint p) as [|d|d|d|d|d|d|d|d|d|d] eqn:Ed;
    try (cbn [NilEmpty.string_of_uint]; do 2 eexists;
         split; [reflexivity|split; [reflexivity|vm_compute; discriminate]]).
  - exfalso. exact (DecimalPos.Unsigned.to_uint_nonnil p Ed).
  - exfalso. unfold Decimal.unorm in U. cbn [Decimal.nzhead] in U.
    destruct (Decimal.nzhead d) eqn:En;
      try (apply (nzhead_no_zero d d); rewrite En; congruence);
      try discriminate U.
Qed.

Lemma digit_value_nonneg (c : ascii) :
  PyStr.is_decimal c = true -> 0 <= PyStr.digit_value c.
Proof.
  intros H. pose proof (decimal_char c H) as I. simpl in I.
  repeat (destruct I as [<-|I]; [vm_compute; discriminate|]). contradiction.
Qed.

(** Every further digit makes the number at least ten times larger. *)
Lemma int_digits_grows (s : string) :
  forall (acc : Z) (b : bool) (v : Z),
    0 <= acc -> PyStr.all_chars PyStr.is_decimal s = true ->
    PyStr.int_digits s acc b = Some v ->
    acc * 10 ^ Z.of_nat (String.length s) <= v.
Proof.
  induction s as [|c s IH]; intros acc b v Hacc Hs H.
  - cbn [PyStr.int_digits] in H. destruct b; [|discriminate H].
    inversion H. subst. cbn [String.length]. change (10 ^ Z.of_nat 0) with 1.
    lia.
  - cbn [PyStr.all_chars] in Hs. apply andb_true_iff in Hs.
    destruct Hs as [Hc Hs]. rewrite (int_digits_decimal c s acc b Hc) in H.
    pose proof (digit_value_nonneg c Hc) as Hd.
    assert (H0 : 0 <= 10 * acc + PyStr.digit_value c) by lia.
    pose proof (IH _ _ _ H0 Hs H) as Hv.
    cbn [String.length]. rewrite Nat2Z.inj_succ, Z.pow_succ_r by lia.
    assert (Hp : 0 <= 10 ^ Z.of_nat (String.length s))
      by (apply Z.pow_nonneg; lia).
    nia.
Qed.

(** A number below ten thousand is written with at most four digits. *)
Lemma str_of_int_short (y : Z) :
  1 <= y <= 9999 -> (String.length (PyStr.str_of_int y) <= 4)%nat.
Proof.
  intros Hy. destruct y as [|p|p]; try lia.
  destruct (str_of_int_head p) as (c & s & E & Hc & Hd).
  destruct (int_of_str_of_int (Z.pos p)) as (_ & Hall & Hint); [lia|].
  rewrite E in Hall, Hint |- *.
  rewrite (py_int_decimal c s Hall) in Hint.
  rewrite (int_digits_decimal c s 0 false Hc) in Hint.
  cbn [PyStr.all_chars] in Hall. apply andb_true_iff in Hall.
  destruct Hall as [_ Hs].
  assert (H0 : 0 <= 10 * 0 + PyStr.digit_value c) by lia.
  pose proof (int_digits_grows s _ _ _ H0 Hs Hint) as Hv.
  cbn [String.length].
  destruct (Nat.le_gt_cases (String.length s) 3) as [Hl|Hl]; [lia|].
  exfalso.
  assert (Hp : 10 ^ 4 <= 10 ^ Z.of_nat (String.length s))
    by (apply Z.pow_le_mono_r; lia).
  change (10 ^ 4) with 10000 in Hp. nia.
Qed.

(** The year of a date, filled to four digits. *)
Lemma year_four_digits (y : Z) :
  1 <= y <= 9999 -> Spec.four_digits (PyStr.zero_pad 4 y) y.
Proof.
  intros Hy. pose proof (str_of_int_short y Hy) as Hl.
  destruct (int_of_str_of_int y) as (_ & Hall & Hint); [lia|].
  unfold PyStr.zero_pad.
  destruct (PyStr.str_of_int y) as [|c1 [|c2 [|c3 [|c4 [|c5 s]]]]] eqn:E;
    try (cbn [String.length] in Hl; lia);
    try discriminate Hint;
    rewrite (py_int_decimal _ _ Hall) in Hint;
    cbn [PyStr.all_chars] in Hall;
    repeat match goal with
           | H : _ && _ = true |- _ =>
               apply andb_true_iff in H; destruct H
           end;
    repeat match type of Hint with
           | PyStr.int_digits (String _ _) _ _ = _ =>
               rewrite int_digits_decimal in Hint by assumption
           end;
    cbn [PyStr.int_digits] in Hint;
    pose proof (f_equal (fun o => match o with Some v => v | None => 0 end)
                        Hint) as Hv;
    cbv beta iota in Hv;
    cbn [String.length Nat.sub PyStr.repeat_char append];
    do 4 eexists; (split; [reflexivity|]);
    repeat (split; [first [assumption | reflexivity]|]);
    change (PyStr.digit_value "0") with 0; lia.
Qed.

Lemma in_numbers (lo : Z) (n : nat) (x : Z) :
  lo <= x < lo + Z.of_nat n -> In x (Spec.numbers lo n).
Proof.
  intros H. unfold Spec.numbers. apply in_map_iff.
  exists (Z.to_nat (x - lo)). split; [lia|]. apply in_seq. lia.
Qed.

Lemma days_in_month_le (y m : Z) : Date.days_in_month y m <= 31.
Proof.
  unfold Date.days_in_month.
  destruct (m =? 2); [destruct (Date.is_leap y); lia|].
  destruct (_ || _); lia.
Qed.

Lemma two_digits (n : Z) :
  1 <= n <= 31 ->
  exists a b, PyStr.zero_pad 2 n = String a (String b "")
              /\ PyStr.is_decimal a = true /\ PyStr.is_decimal b = true.
Proof.
  intros H. assert (I : In n (Spec.numbers 1 31)) by (apply in_numbers; lia).
  vm_compute in I.
  repeat (destruct I as [<-|I];
          [do 2 eexists; split; [vm_compute; reflexivity|split; reflexivity]|]).
  contradiction.
Qed.

(** X14. A date the scripts write is read back as the same date: for every
    calendar date, [isoformat] gives a text of the strict shape
    [YYYY-MM-DD], and [parse_date] of that text returns the date.  So the
    due date and the follow-up date picked in the form, and the creation
    date, are the dates the lists and the dashboard compare. *)
Theorem stored_date_is_read_back (d : Date.date) :
  Date.valid (Date.year d) (Date.month d) (Date.day d) = true ->
  parse_date (Date.isoformat d) = Ok (Some d)
  /\ Spec.is_yyyy_mm_dd (Date.isoformat d) = true
  /\ parse_date (App.iso_or_empty (Some d)) = Ok (Some d).
Proof.
  intros V. pose proof V as V'. unfold Date.valid in V'.
  repeat match goal with
         | H : _ && _ = true |- _ => apply andb_true_iff in H; destruct H
         end.
  repeat match goal with
         | H : (_ <=? _) = true |- _ => apply Z.leb_le in H
         end.
  pose proof (days_in_month_le (Date.year d) (Date.month d)) as Hdm.
  assert (HY : Spec.four_digits (PyStr.zero_pad 4 (Date.year d)) (Date.year d))
    by (apply year_four_digits; lia).
  assert (P : parse_date (Date.isoformat d) = Ok (Some d)).
  { apply parse_date_some. apply strptime_complete.
    exists (PyStr.zero_pad 4 (Date.year d)), (PyStr.zero_pad 2 (Date.month d)),
           (PyStr.zero_pad 2 (Date.day d)).
    split; [reflexivity|]. split; [exact HY|]. split; [|split; [|exact V]].
    - unfold Spec.month_table. apply in_flat_map. exists (Date.month d).
      split; [apply in_numbers; lia|]. right. left. reflexivity.
    - unfold Spec.day_table. apply in_or_app. left. apply in_flat_map.
      exists (Date.day d). split; [apply in_numbers; lia|].
      right. left. reflexivity. }
  split; [exact P|]. split; [|exact P].
  destruct HY as (a & b & c & e & EY & Ha & Hb & Hc & He & _).
  destruct (two_digits (Date.month d)) as (m1 & m2 & EM & Hm1 & Hm2); [lia|].
  destruct (two_digits (Date.day d)) as (d1 & d2 & ED & Hd1 & Hd2); [lia|].
  unfold Date.isoformat. rewrite EY, EM, ED.
  cbn [append Spec.is_yyyy_mm_dd].
  rewrite Ha, Hb, Hc, He, Hm1, Hm2, Hd1, Hd2. reflexivity.
Qed.

Lemma stored_date_is_read_back_witness :
  Date.valid 2024 2 29 = true
  /\ parse_date (Date.isoformat (Date.mkdate 2024 2 29))
     = Ok (Some (Date.mkdate 2024 2 29)).
Proof.
  assert (V : Date.valid 2024 2 29 = true) by reflexivity.
  split; [exact V|].
  exact (proj1 (stored_date_is_read_back (Date.mkdate 2024 2 29) V)).
Defined.

(** ** Text fields of the form *)

Lemma lstrip_by_head (p : ascii -> bool) (s : string) (c : ascii) (r : string) :
  PyStr.lstrip_by p s = String c r -> p c = false.
Proof.
  induction s as [|a s IH]; cbn [PyStr.lstrip_by]; [discriminate|].
  destruct (p a) eqn:Pa; [exact IH|]. intros H. inversion H. subst.
  exact Pa.
Qed.

Lemma rstrip_by_head (p : ascii -> bool) (s : string) (c : ascii) :
  p c = false -> exists r, PyStr.rstrip_by p (String c s) = String c r.
Proof.
  intros Pc. cbn [PyStr.rstrip_by]. destruct (PyStr.rstrip_by p s).
  - rewrite Pc. eexists. reflexivity.
  - eexists. reflexivity.
Qed.

Lemma rstrip_by_last (p : ascii -> bool) (s : string) :
  forall (front : string) (c : ascii),
    PyStr.rstrip_by p s = (front ++ String c "")%string -> p c = false.
Proof.
  induction s as [|a s IH]; intros front c; cbn [PyStr.rstrip_by].
  - destruct front; discriminate.
  - destruct (PyStr.rstrip_by p s) as [|b r] eqn:E.
    + destruct (p a) eqn:Pa; [destruct front; discriminate|].
      destruct front as [|x [|y f]]; cbn [append]; intros H;
        inversion H; subst. exact Pa.
    + destruct front as [|x f]; cbn [append]; intros H.
      * inversion H.
      * inversion H. subst. apply (IH f c). assumption.
Qed.

Lemma rstrip_by_twice (p : ascii -> bool) (s : string) :
  PyStr.rstrip_by p (PyStr.rstrip_by p s) = PyStr.rstrip_by p s.
Proof.
  induction s as [|a s IH]; [reflexivity|]. cbn [PyStr.rstrip_by].
  destruct (PyStr.rstrip_by p s) as [|b r] eqn:E.
  - destruct (p a) eqn:Pa; [reflexivity|]. cbn [PyStr.rstrip_by].
    rewrite Pa. reflexivity.
  - change (PyStr.rstrip_by p (String a (String b r)))
      with (match PyStr.rstrip_by p (String b r) with
            | EmptyString => if p a then EmptyString else String a EmptyString
            | String x y => String a (String x y)
            end).
    rewrite IH. reflexivity.
Qed.

Lemma strip_twice (s : string) : PyStr.strip (PyStr.strip s) = PyStr.strip s.
Proof.
  unfold PyStr.strip.
  destruct (PyStr.lstrip_by PyStr.isspace_char s) as [|c t] eqn:E;
    [reflexivity|].
  pose proof (lstrip_by_head _ _ _ _ E) as Pc.
  destruct (rstrip_by_head PyStr.isspace_char t c Pc) as (r & Er).
  rewrite Er. cbn [PyStr.lstrip_by]. rewrite Pc. rewrite <- Er.
  apply rstrip_by_twice.
Qed.

(** X15. The text fields the form stores (title, person, notes) carry no
    blanks around them: what [x.strip() if x else ""] returns neither
    starts nor ends with a white-space character, and stripping it again
    changes nothing, so a task saved through the form again keeps its
    text. *)
Theorem form_text_has_no_outer_blanks (x : string) :
  App.strip_or_empty x = PyStr.strip x
  /\ App.strip_or_empty (App.strip_or_empty x) = App.strip_or_empty x
  /\ (forall c rest,
        App.strip_or_empty x = String c rest ->
        PyStr.isspace_char c = false)
  /\ (forall front c,
        App.strip_or_empty x = (front ++ String c "")%string ->
        PyStr.isspace_char c = false).
Proof.
  assert (E : forall y, App.strip_or_empty y = PyStr.strip y).
  { intros y. unfold App.strip_or_empty. destruct y; reflexivity. }
  split; [apply E|]. split; [|split].
  - rewrite !E. apply strip_twice.
  - intros c rest H. rewrite E in H. unfold PyStr.strip in H.
    destruct (PyStr.lstrip_by PyStr.isspace_char x) as [|a t] eqn:El;
      [discriminate H|].
    pose proof (lstrip_by_head _ _ _ _ El) as Pa.
    destruct (rstrip_by_head PyStr.isspace_char t a Pa) as (r & Er).
    rewrite Er in H. inversion H. subst. exact Pa.
  - intros front c H. rewrite E in H. unfold PyStr.strip in H.
    exact (rstrip_by_last _ _ _ _ H).
Qed.

Lemma form_text_has_no_outer_blanks_witness :
  App.strip_or_empty "  call Bob  " = "call Bob"%string
  /\ PyStr.isspace_char "c" = false.
Proof.
  split; [reflexivity|].
  exact (proj1 (proj2 (proj2 (form_text_has_no_outer_blanks "  call Bob  ")))
               "c"%char "all Bob"%string eq_refl).
Defined.
